(** * CryptoMamba data pipeline: windowing, labelling, normalisation,
      aggregation and splitting.

    A shallow embedding of [data_utils/dataset.py],
    [data_utils/data_transforms.py] and the labelling and denormalisation
    helpers of [pl_modules/base_module.py].

    Conventions of the embedding.
    - Python [int] is [Z]; Python and NumPy/Torch floating-point numbers are
      idealised as rationals [Q] (exact arithmetic, no NaN, no rounding).
      [==] is equality of rationals.  What depends on the floating-point
      format is outside this part of the model: a tensor has no dtype and
      holds the numbers themselves (torch stores their float32 or int64
      conversion, and refuses [data /= 1e9] on an int64 tensor), and
      [int(ratio * total)] truncates the exact product.
    - The module [IEEE] embeds the three labelling functions a second time,
      on floating-point values with NaN and the infinities, and with the
      conversion of the threshold to the dtype of the tensor.
    - A Python exception is a value of [exn]; code that may raise returns
      [result].
    - A pandas frame is a list of column names with a list of rows; a Python
      dict with string keys is a [gmap string _].
    - Mutable objects ([self.keys] of the transform) are threaded
      explicitly: a call takes the object and returns its new state. *)

From Stdlib Require Import ZArith QArith Lia Lqa.
From stdpp Require Import gmap strings list sorting.

Local Open Scope Z_scope.

(** ** Python exceptions and fallible results *)

Inductive exn : Type :=
| KeyError | IndexError | AttributeError | TypeError | ValueError | RuntimeError
| ZeroDivisionError.

Inductive result (A : Type) : Type :=
| Ok (a : A)
| Raise (e : exn).
Arguments Ok {A} a.
Arguments Raise {A} e.

#[global] Instance result_ret : MRet result := fun A a => Ok a.
#[global] Instance result_bind : MBind result := fun A B f m =>
  match m with
  | Ok a => f a
  | Raise e => Raise e
  end.

(** ** Python sequences: [len], indexing and slicing *)

Module Py.

Definition len {A} (l : list A) : Z := Z.of_nat (length l).

(** [l[i]] with CPython's negative-index rule and [IndexError]. *)
Definition index {A} (l : list A) (i : Z) : result A :=
  let j := if i <? 0 then i + len l else i in
  if j <? 0 then Raise IndexError
  else match l !! Z.to_nat j with
       | Some x => Ok x
       | None => Raise IndexError
       end.

(** A slice bound is clipped into [0, len]; a negative bound counts from
    the end. *)
Definition clip (n : Z) (b : Z) : Z :=
  if b <? 0 then Z.max (b + n) 0 else Z.min b n.

(** [l[lo:hi]]; an omitted bound is [None]. *)
Definition slice {A} (lo hi : option Z) (l : list A) : list A :=
  let n := len l in
  let a := match lo with Some x => clip n x | None => 0 end in
  let b := match hi with Some x => clip n x | None => n end in
  take (Z.to_nat (b - a)) (drop (Z.to_nat a) l).

(** The items of a range: [n] numbers from [start] in steps of [step]. *)
Fixpoint range_items (n : nat) (start step : Z) : list Z :=
  match n with
  | O => []
  | S k => start :: range_items k (start + step) step
  end.

(** [len(range(start, stop, step))] as CPython computes it. *)
Definition range_len (start stop step : Z) : Z :=
  if 0 <? step then
    if start <? stop then (stop - start - 1) / step + 1 else 0
  else
    if stop <? start then (start - stop - 1) / (- step) + 1 else 0.

(** [range(start, stop, step)]; a zero step raises [ValueError]. *)
Definition range (start stop step : Z) : result (list Z) :=
  if step =? 0 then Raise ValueError
  else Ok (range_items (Z.to_nat (range_len start stop step)) start step).

(** [range(stop)]. *)
Definition range_to (stop : Z) : list Z :=
  range_items (Z.to_nat (range_len 0 stop 1)) 0 1.

(** [int(x)] of a float: truncation towards zero. *)
Definition int (x : Q) : Z := Z.quot (Qnum x) (Zpos (Qden x)).

(** Python's two-argument [max]/[min]: the second argument is chosen only
    when it is strictly larger (smaller). *)
Definition max (a b : Q) : Q := if Qlt_le_dec a b then b else a.
Definition min (a b : Q) : Q := if Qlt_le_dec b a then b else a.

(** True division.  A zero divisor is an error here (the quotient does not
    exist); every division of the embedded code is guarded so that its
    divisor is not zero. *)
Definition truediv (a b : Q) : result Q :=
  if Qeq_bool b 0 then Raise ZeroDivisionError else Ok (a / b)%Q.

End Py.

(** Comparisons of floats as booleans. *)
Definition Qlt_bool (a b : Q) : bool := negb (Qle_bool b a).
Definition Qgt_bool (a b : Q) : bool := Qlt_bool b a.
Definition Qge_bool (a b : Q) : bool := Qle_bool b a.
Definition Qne_bool (a b : Q) : bool := negb (Qeq_bool a b).

(** ** Torch tensors: a shape and a flat storage *)

Module Torch.

Record tensor (A : Type) : Type := Tensor { shape : list Z; storage : list A }.
Arguments Tensor {A} shape storage.
Arguments shape {A} t.
Arguments storage {A} t.

(** [torch.tensor(x)] of a number: a 0-dimensional tensor. *)
Definition scalar {A} (x : A) : tensor A := Tensor [] [x].

(** [torch.tensor(xs)] of a flat list: a 1-dimensional tensor. *)
Definition of_list {A} (xs : list A) : tensor A := Tensor [Py.len xs] xs.

Definition map {A B} (f : A -> B) (t : tensor A) : tensor B :=
  Tensor (shape t) (List.map f (storage t)).

Definition zip_with {A B C} (f : A -> B -> C) (a : tensor A) (b : tensor B)
  : tensor C :=
  Tensor (shape a) (stdpp.base.zip_with f (storage a) (storage b)).

(** [torch.zeros_like(t, dtype=torch.long)]. *)
Definition zeros_like {A} (t : tensor A) : tensor Z := map (fun _ => 0) t.

(** Elementwise comparison of a float tensor with a Python float. *)
Definition lt (t : tensor Q) (c : Q) : tensor bool := map (fun x => Qlt_bool x c) t.
Definition le (t : tensor Q) (c : Q) : tensor bool := map (fun x => Qle_bool x c) t.
Definition gt (t : tensor Q) (c : Q) : tensor bool := map (fun x => Qgt_bool x c) t.
Definition ge (t : tensor Q) (c : Q) : tensor bool := map (fun x => Qge_bool x c) t.
Definition ne (t : tensor Q) (c : Q) : tensor bool := map (fun x => Qne_bool x c) t.

(** [a & b] on boolean tensors. *)
Definition and (a b : tensor bool) : tensor bool := zip_with andb a b.

(** [labels[mask] = v]: the masked positions are overwritten. *)
Definition masked_assign (labels : tensor Z) (mask : tensor bool) (v : Z)
  : tensor Z :=
  zip_with (fun x (m : bool) => if m then v else x) labels mask.

(** [bool(t)]: defined for one-element tensors only. *)
Definition truth (t : tensor bool) : result bool :=
  match storage t with
  | [b] => Ok b
  | _ => Raise RuntimeError
  end.

(** [t[i]] on a 1-dimensional tensor: a 0-dimensional tensor. *)
Definition getitem {A} (t : tensor A) (i : Z) : result (tensor A) :=
  match shape t with
  | [_] => x ← Py.index (storage t) i; Ok (scalar x)
  | _ => Raise IndexError
  end.

(** [a - b] and [a / b], elementwise on tensors of one shape. *)
Definition sub (a b : tensor Q) : tensor Q := zip_with Qminus a b.
Definition div (a b : tensor Q) : result (tensor Q) :=
  s ← mapM (fun p : Q * Q => Py.truediv p.1 p.2) (zip (storage a) (storage b));
  Ok (Tensor (shape a) s).

(** [t[lo:hi]] on a 1-dimensional tensor. *)
Definition slice {A} (lo hi : option Z) (t : tensor A) : tensor A :=
  of_list (Py.slice lo hi (storage t)).

(** [t.reshape(1, -1)]; a tensor without elements cannot be reshaped so. *)
Definition reshape_row {A} (t : tensor A) : result (tensor A) :=
  match storage t with
  | [] => Raise RuntimeError
  | s => Ok (Tensor [1; Py.len s] s)
  end.

(** [torch.cat(ts, 0)] of row tensors of one width. *)
Definition cat0 {A} (ts : list (tensor A)) : result (tensor A) :=
  match ts with
  | [] => Raise RuntimeError
  | t :: _ =>
      Ok (Tensor [Py.len ts; Py.len (storage t)] (concat (storage <$> ts)))
  end.

(** [t * c + d] with Python floats [c] and [d]. *)
Definition scale_shift (t : tensor Q) (c d : Q) : tensor Q :=
  map (fun x => x * c + d)%Q t.

End Torch.

(** ** Values stored in a sample dict *)

Inductive value : Type :=
| VFloat (x : Q)                      (* Python or NumPy float *)
| VInt (n : Z)                        (* Python int *)
| VTensor (t : Torch.tensor Q)        (* float tensor *)
| VLong (t : Torch.tensor Z).         (* tensor of dtype long *)

(** A sample is a dict from string keys to values. *)
Abbreviation Sample := (gmap string value).

(** ** A pandas frame *)

(** A row maps a column name to its cell. *)
Abbreviation Row := (gmap string Q).

Module DataFrame.

Record t : Type := Frame { columns : list string; rows : list Row }.

(** [len(df)]. *)
Definition len (df : t) : Z := Py.len (rows df).

(** [df.keys()]. *)
Definition keys (df : t) : list string := columns df.

(** [df.iloc[lo:hi]]: a row slice with the same columns. *)
Definition iloc_slice (lo hi : option Z) (df : t) : t :=
  Frame (columns df) (Py.slice lo hi (rows df)).

(** [df.iloc[i]]: one row. *)
Definition iloc (df : t) (i : Z) : result Row := Py.index (rows df) i.

(** [df.get(key)]: the column as a list, or [None] for an unknown column. *)
Definition get (key : string) (df : t) : option (list Q) :=
  if decide (key ∈ columns df) then mapM (fun r : Row => r !! key) (rows df)
  else None.

(** [df[key].values]: an unknown column raises [KeyError]. *)
Definition col (key : string) (df : t) : result (list Q) :=
  match get key df with
  | Some c => Ok c
  | None => Raise KeyError
  end.

End DataFrame.

(** [d[key]] on a dict. *)
Definition dict_getitem {V} (d : gmap string V) (key : string) : result V :=
  match d !! key with
  | Some v => Ok v
  | None => Raise KeyError
  end.

(** A loop [for x in xs: acc = body(acc, x)] whose body may raise. *)
Fixpoint for_each {A S} (body : S -> A -> result S) (xs : list A) (acc : S)
  : result S :=
  match xs with
  | [] => Ok acc
  | x :: rest => acc' ← body acc x; for_each body rest acc'
  end.

(** ** [data_transforms.py]: class [DataTransform] *)

Module DataTransform.

(** The attributes of a transform object; [keys] is the mutable list
    [self.keys]. *)
Record t : Type := Make {
  is_train : bool;
  keys : list string;
  task_type : string;
  threshold : Q;
  y_key : string
}.

Definition set_keys (ks : list string) (self : t) : t :=
  Make (is_train self) ks (task_type self) (threshold self) (y_key self).

(** [__init__]. *)
Definition init (is_train use_volume : bool) (task_type : string)
    (threshold : Q) (y_key : string) : t :=
  let keys := ["Timestamp"; "Open"; "High"; "Low"; "Close"]%string in
  let keys := if use_volume then keys ++ ["Volume"%string] else keys in
  Make is_train keys task_type threshold y_key.

(** The tensor branch of [create_class_labels]. *)
Definition create_class_labels_tensor (self : t) (returns : Torch.tensor Q)
  : Torch.tensor Z :=
  let labels := Torch.zeros_like returns in
  let labels :=
    Torch.masked_assign labels (Torch.lt returns (- threshold self)) 0 in
  let labels :=
    Torch.masked_assign labels
      (Torch.and (Torch.ge returns (- threshold self))
                 (Torch.le returns (threshold self))) 1 in
  let labels :=
    Torch.masked_assign labels (Torch.gt returns (threshold self)) 2 in
  labels.

(** The scalar branch of [create_class_labels], after [float(returns)]. *)
Definition create_class_labels_scalar (self : t) (returns : Q)
  : Torch.tensor Z :=
  if Qlt_bool returns (- threshold self) then Torch.scalar 0
  else if Qle_bool returns (threshold self) then Torch.scalar 1
  else Torch.scalar 2.

(** [create_class_labels]: dispatch on [isinstance(returns, torch.Tensor)]. *)
Definition create_class_labels (self : t) (returns : value) : value :=
  match returns with
  | VTensor r => VLong (create_class_labels_tensor self r)
  | VLong r => VLong (create_class_labels_tensor self (Torch.map inject_Z r))
  | VFloat x => VLong (create_class_labels_scalar self x)
  | VInt n => VLong (create_class_labels_scalar self (inject_Z n))
  end.

(** The body of the loop [for key in self.keys] of [__call__]. *)
Definition column_step (window : DataFrame.t)
    (acc : Sample * list (Torch.tensor Q)) (key : string)
  : result (Sample * list (Torch.tensor Q)) :=
  let '(output, data_list) := acc in
  col ← match DataFrame.get key window with
        | Some c => Ok c
        | None => Raise AttributeError
        end;
  let data := Torch.of_list col in
  let data :=
    if String.eqb key "Volume"
    then Torch.map (fun x => x / 1000000000)%Q data else data in
  cur ← Torch.getitem data (-1);
  let output := <[key := VTensor cur]> output in
  old ← Torch.getitem data (-2);
  let output := <[key +:+ "_old" := VTensor old]> output in
  if String.eqb key "Timestamp_orig" then Ok (output, data_list)
  else
    row ← Torch.reshape_row (Torch.slice None (Some (-1)) data);
    Ok (output, data_list ++ [row]).

(** The classification outputs added at the end of [__call__]. *)
Definition add_classification (self : t) (output : Sample) : result Sample :=
  current_price ← dict_getitem output (y_key self);
  previous_price ← dict_getitem output (y_key self +:+ "_old");
  match current_price, previous_price with
  | VTensor c, VTensor p =>
      nonzero ← Torch.truth (Torch.ne p 0);
      returns ← (if nonzero : bool then Torch.div (Torch.sub c p) p
                 else Ok (Torch.scalar 0%Q));
      let output := <["returns" := VTensor returns]> output in
      let target_class := create_class_labels self (VTensor returns) in
      Ok (<["target_class" := target_class]> output)
  | _, _ => Raise TypeError
  end.

(** [__call__] once [self.keys] has been updated. *)
Definition body (self : t) (window : DataFrame.t) : result Sample :=
  '(output, data_list) ← for_each (column_step window) (keys self) (∅, []);
  features ← Torch.cat0 data_list;
  let output := <["features" := VTensor features]> output in
  if String.eqb (task_type self) "classification"
  then add_classification self output
  else Ok output.

(** [__call__(window)]: the new state of the object and what the call
    returns or raises.  [self.keys] grows before anything can raise. *)
Definition call (self : t) (window : DataFrame.t) : t * result Sample :=
  let self :=
    if decide ("Timestamp_orig"%string ∈ DataFrame.keys window)
    then set_keys (keys self ++ ["Timestamp_orig"%string]) self
    else self in
  (self, body self window).

End DataTransform.

(** ** [dataset.py]: class [CMambaDataset] *)

Module CMambaDataset.

(** The attributes of a dataset; [T] is the type of the transform object.
    [returns] is the attribute [self.returns], absent until
    [_compute_returns] has run. *)
Record t (T : Type) : Type := Make {
  data : DataFrame.t;
  transform : T;
  window_size : Z;
  task_type : string;
  y_key : string;
  threshold : Q;
  returns : option (list Q)
}.
Arguments Make {T}.
Arguments data {T}.
Arguments transform {T}.
Arguments window_size {T}.
Arguments task_type {T}.
Arguments y_key {T}.
Arguments threshold {T}.
Arguments returns {T}.

Section Methods.
Context {T : Type}.

Definition set_returns (r : list Q) (self : t T) : t T :=
  Make (data self) (transform self) (window_size self) (task_type self)
       (y_key self) (threshold self) (Some r).

Definition set_transform (tr : T) (self : t T) : t T :=
  Make (data self) tr (window_size self) (task_type self)
       (y_key self) (threshold self) (returns self).

(** [__len__]. *)
Definition len (self : t T) : Z :=
  Z.max 0 (DataFrame.len (data self) - window_size self - 1).

(** The window [self.data.iloc[i : i + self.window_size + 1]] that
    [__getitem__] hands to the transform. *)
Definition window (self : t T) (i : Z) : DataFrame.t :=
  DataFrame.iloc_slice (Some i) (Some (i + window_size self + 1)) (data self).

(** One iteration of the loop of [_compute_returns]. *)
Definition returns_step (self : t T) (prices : list Q) (acc : list Q) (i : Z)
  : result (list Q) :=
  current_price ← Py.index prices (i + window_size self);
  previous_price ← Py.index prices (i + window_size self - 1);
  ret ← (if Qne_bool previous_price 0
         then Py.truediv (current_price - previous_price) previous_price
         else Ok 0%Q);
  Ok (acc ++ [ret]).

(** [_compute_returns]. *)
Definition _compute_returns (self : t T) : result (t T) :=
  prices ← DataFrame.col (y_key self) (data self);
  rets ← for_each (returns_step self prices) (Py.range_to (len self)) [];
  Ok (set_returns rets self).

(** [__init__]. *)
Definition init (data : DataFrame.t) (transform : T) (window_size : Z)
    (task_type y_key : string) (threshold : Q) : result (t T) :=
  let self := Make data transform window_size task_type y_key threshold None in
  if String.eqb task_type "classification" then _compute_returns self
  else Ok self.

(** The tensor branch of [create_class_labels]. *)
Definition create_class_labels_tensor (self : t T) (returns : Torch.tensor Q)
  : Torch.tensor Z :=
  let labels := Torch.zeros_like returns in
  let labels :=
    Torch.masked_assign labels (Torch.lt returns (- threshold self)) 0 in
  let labels :=
    Torch.masked_assign labels
      (Torch.and (Torch.ge returns (- threshold self))
                 (Torch.le returns (threshold self))) 1 in
  let labels :=
    Torch.masked_assign labels (Torch.gt returns (threshold self)) 2 in
  labels.

(** The scalar branch of [create_class_labels]: a Python [int]. *)
Definition create_class_labels_scalar (self : t T) (returns : Q) : Z :=
  if Qlt_bool returns (- threshold self) then 0
  else if Qle_bool returns (threshold self) then 1
  else 2.

(** [create_class_labels]. *)
Definition create_class_labels (self : t T) (returns : value) : value :=
  match returns with
  | VTensor r => VLong (create_class_labels_tensor self r)
  | VLong r => VLong (create_class_labels_tensor self (Torch.map inject_Z r))
  | VFloat x => VInt (create_class_labels_scalar self x)
  | VInt n => VInt (create_class_labels_scalar self (inject_Z n))
  end.

(** The classification branch of [__getitem__], applied to the sample the
    transform returned. *)
Definition add_labels (self : t T) (i : Z) (transformed_sample : Sample)
  : result Sample :=
  transformed_sample ←
    match transformed_sample !! "returns"%string with
    | Some _ => Ok transformed_sample
    | None =>
        rets ← match returns self with
               | Some r => Ok r
               | None => Raise AttributeError
               end;
        r ← Py.index rets i;
        Ok (<["returns"%string := VFloat r]> transformed_sample)
    end;
  r ← dict_getitem transformed_sample "returns";
  let target_class := create_class_labels self r in
  Ok (<["target_class"%string := target_class]> transformed_sample).

(** [__getitem__(i)] for a transform whose [__call__] is [call]: the new
    state of the dataset (its transform may have changed) and the
    sample. *)
Definition getitem (call : T -> DataFrame.t -> T * result Sample)
    (self : t T) (i : Z) : t T * result Sample :=
  let sample := window self i in
  let '(tr, r) := call (transform self) sample in
  (set_transform tr self,
   transformed_sample ← r;
   if String.eqb (task_type self) "classification"
   then add_labels self i transformed_sample
   else Ok transformed_sample).

End Methods.

End CMambaDataset.

(** Normalisation factors: [{column: {'min': _, 'max': _}}]. *)
Abbreviation Factors := (gmap string (gmap string Q)).

(** ** [dataset.py]: class [ClassificationTransform] *)

Module ClassificationTransform.

Record t : Type := Make {
  factors : option Factors;
  y_key : string;
  feature_keys : list string;
  threshold : Q
}.

(** [__init__]: [feature_keys or [...]] replaces [None] and the empty list
    by the default columns. *)
Definition init (factors : option Factors) (y_key : string)
    (feature_keys : option (list string)) (threshold : Q) : t :=
  let dflt := ["Open"; "High"; "Low"; "Close"; "Volume"]%string in
  let fk := match feature_keys with
            | None | Some [] => dflt
            | Some ks => ks
            end in
  Make factors y_key fk threshold.

(** Python's [min(values)] and [max(values)]; an empty argument raises. *)
Definition min_of (values : list Q) : result Q :=
  match values with
  | [] => Raise ValueError
  | x :: xs => Ok (fold_left Py.min xs x)
  end.
Definition max_of (values : list Q) : result Q :=
  match values with
  | [] => Raise ValueError
  | x :: xs => Ok (fold_left Py.max xs x)
  end.

(** The normalisation of one feature column inside the loop of
    [__call__]; the defaults of [factor.get] are evaluated first. *)
Definition normalize_values (self : t) (key : string) (values : list Q)
  : result (list Q) :=
  match factors self with
  | None => Ok values
  | Some fs =>
      let factor := default ∅ (fs !! key) in
      dmin ← min_of values;
      let min_val := default dmin (factor !! "min"%string) in
      dmax ← max_of values;
      let max_val := default dmax (factor !! "max"%string) in
      if Qgt_bool max_val min_val
      then mapM (fun v => Py.truediv (v - min_val) (max_val - min_val)) values
      else Ok values
  end.

(** The normalisation of the targets [y] and [y_old]. *)
Definition normalize_target (self : t) (y y_old : Q) : result (Q * Q) :=
  match factors self with
  | None => Ok (y, y_old)
  | Some fs =>
      let factor := default ∅ (fs !! y_key self) in
      let min_val := default 0%Q (factor !! "min"%string) in
      let max_val := default 1%Q (factor !! "max"%string) in
      if Qgt_bool max_val min_val
      then
        y' ← Py.truediv (y - min_val) (max_val - min_val);
        y_old' ← Py.truediv (y_old - min_val) (max_val - min_val);
        Ok (y', y_old')
      else Ok (y, y_old)
  end.

(** [(y - y_old) / y_old if y_old != 0 else 0.0]. *)
Definition compute_returns (y y_old : Q) : result Q :=
  if Qne_bool y_old 0 then Py.truediv (y - y_old) y_old else Ok 0%Q.

(** [np.stack(features, axis=1)]: one row per time step, one column per
    feature key. *)
Definition stack_axis1 (features : list (list Q)) : result (Torch.tensor Q) :=
  match features with
  | [] => Raise ValueError
  | c :: _ =>
      Ok (Torch.Tensor [Py.len c; Py.len features]
            (concat ((fun i => (fun col : list Q => nth i col 0%Q) <$> features)
                       <$> seq 0 (length c))))
  end.

(** [__call__(data)]. *)
Definition call (self : t) (data : DataFrame.t) : result Sample :=
  last ← DataFrame.iloc data (-1);
  timestamp ← dict_getitem last "Timestamp";
  let features_df := DataFrame.iloc_slice None (Some (-1)) data in
  current_values ← DataFrame.iloc data (-1);
  previous_values ← DataFrame.iloc data (-2);
  features ←
    for_each (fun acc key =>
                values ← DataFrame.col key features_df;
                values ← normalize_values self key values;
                Ok (acc ++ [values]))
             (feature_keys self) [];
  features ← stack_axis1 features;
  y ← dict_getitem current_values (y_key self);
  y_old ← dict_getitem previous_values (y_key self);
  '(y, y_old) ← normalize_target self y y_old;
  returns ← compute_returns y y_old;
  Ok (<["timestamp"%string := VTensor (Torch.scalar timestamp)]>
     (<["returns"%string := VTensor (Torch.scalar returns)]>
     (<[y_key self +:+ "_old" := VTensor (Torch.scalar y_old)]>
     (<[y_key self := VTensor (Torch.scalar y)]>
     (<["features"%string := VTensor features]> ∅))))).

End ClassificationTransform.

(** ** [base_module.py]: class [BaseModule] (labelling and scaling) *)

Module BaseModule.

Record t : Type := Make {
  y_key : string;
  threshold : Q;
  normalization_coeffs : option (Q * Q)
}.

(** [set_normalization_coeffs(factors)]. *)
Definition set_normalization_coeffs (self : t) (factors : Factors) : result t :=
  f ← match factors !! y_key self with
      | Some f => Ok f
      | None => Raise AttributeError
      end;
  match f !! "max"%string, f !! "min"%string with
  | Some mx, Some mn =>
      let scale := (mx - mn)%Q in
      let shift := mn in
      Ok (Make (y_key self) (threshold self) (Some (scale, shift)))
  | _, _ => Raise TypeError
  end.

(** What [denormalize] returns: [y] alone or the pair [(y, y_hat)]. *)
Inductive denormalized : Type :=
| One (y : Torch.tensor Q)
| Two (y y_hat : Torch.tensor Q).

(** [denormalize(y, y_hat=None)]. *)
Definition denormalize (self : t) (y : Torch.tensor Q)
    (y_hat : option (Torch.tensor Q)) : denormalized :=
  match normalization_coeffs self with
  | Some (scale, shift) =>
      let y := Torch.scale_shift y scale shift in
      match y_hat with
      | Some y_hat => Two y (Torch.scale_shift y_hat scale shift)
      | None => One y
      end
  | None => One y
  end.

(** [create_class_labels(returns)]: tensors only. *)
Definition create_class_labels (self : t) (returns : Torch.tensor Q)
  : Torch.tensor Z :=
  let labels := Torch.zeros_like returns in
  let labels :=
    Torch.masked_assign labels (Torch.lt returns (- threshold self)) 0 in
  let labels :=
    Torch.masked_assign labels
      (Torch.and (Torch.ge returns (- threshold self))
                 (Torch.le returns (threshold self))) 1 in
  let labels :=
    Torch.masked_assign labels (Torch.gt returns (threshold self)) 2 in
  labels.

End BaseModule.

(** ** [base_module.py]: the classification branch of the three steps *)

Module BaseModuleSteps.

(** A collated batch: a dict of tensors. *)
Abbreviation Batch := (gmap string (Torch.tensor Q)).

(** The reads of the batch and the block "Get returns" with which the
    classification branches of [training_step], [validation_step] and
    [test_step] begin.  The division [(y - y_old) / y_old] is not guarded:
    where an entry of [y_old] is zero torch produces an infinity or a NaN,
    which rationals do not have, and the model raises
    [ZeroDivisionError] in its place. *)
Definition classification_returns (self : BaseModule.t) (batch : Batch)
  : result (Torch.tensor Q) :=
  x ← dict_getitem batch "features";
  y ← dict_getitem batch (BaseModule.y_key self);
  match batch !! "returns"%string with
  | Some returns => Ok returns
  | None =>
      match batch !! (BaseModule.y_key self +:+ "_old") with
      | Some y_old =>
          match BaseModule.denormalize self y None,
                BaseModule.denormalize self y_old None with
          | BaseModule.One y, BaseModule.One y_old =>
              Torch.div (Torch.sub y y_old) y_old
          | _, _ => Raise TypeError
          end
      | None => Ok y
      end
  end.

(** [target_classes = self.create_class_labels(returns)]. *)
Definition classification_targets (self : BaseModule.t) (batch : Batch)
  : result (Torch.tensor Z) :=
  returns ← classification_returns self batch;
  Ok (BaseModule.create_class_labels self returns).

Definition Zsum (l : list Z) : Z := fold_right Z.add 0 l.

(** The number of occurrences of [c] in [l]. *)
Definition count (c : Z) (l : list Z) : Z :=
  Z.of_nat (length (filter (fun x => x = c) l)).

(** [torch.bincount(labels, minlength=n)]: defined on 1-dimensional
    tensors of non-negative integers; entry [c] of the result counts the
    occurrences of [c], and the result has [max(n, max(labels) + 1)]
    entries. *)
Definition bincount (labels : Torch.tensor Z) (minlength : Z)
  : result (Torch.tensor Z) :=
  match Torch.shape labels with
  | [_] =>
      if forallb (fun l => 0 <=? l) (Torch.storage labels) then
        let size :=
          Z.max minlength (fold_right Z.max (-1) (Torch.storage labels) + 1) in
        Ok (Torch.of_list
              ((fun c => count c (Torch.storage labels)) <$> Py.range_to size))
      else Raise RuntimeError
  | _ => Raise RuntimeError
  end.

(** The class distribution of [validation_step] and the three ratios it
    logs; [num_classes] is [self.num_classes].  The division by
    [class_counts.sum()] is not guarded: on an empty batch torch produces
    NaN, and the model raises [ZeroDivisionError] in its place. *)
Definition class_ratios (num_classes : Z) (target_classes : Torch.tensor Z)
  : result (Q * Q * Q) :=
  class_counts ← bincount target_classes num_classes;
  let total := Zsum (Torch.storage class_counts) in
  class_distribution ←
    mapM (fun c => Py.truediv (inject_Z c) (inject_Z total))
         (Torch.storage class_counts);
  r0 ← Py.index class_distribution 0;
  r1 ← Py.index class_distribution 1;
  r2 ← Py.index class_distribution 2;
  Ok (r0, r1, r2).

(** [l[i] = v] with the negative-index rule and [IndexError]. *)
Definition setitem {A} (l : list A) (i : Z) (v : A) : result (list A) :=
  let j := if i <? 0 then i + Py.len l else i in
  if (j <? 0) || (Py.len l <=? j) then Raise IndexError
  else Ok (<[Z.to_nat j := v]> l).

(** [confusion[t, p] += 1]. *)
Definition confusion_step (confusion : list (list Z)) (tp : Z * Z)
  : result (list (list Z)) :=
  row ← Py.index confusion tp.1;
  cell ← Py.index row tp.2;
  row ← setitem row tp.2 (cell + 1);
  setitem confusion tp.1 row.

(** The confusion matrix of [test_step]: [torch.zeros(n, n)] and the loop
    over [zip(target_classes, predictions)]. *)
Definition confusion_matrix (num_classes : Z) (target_classes predictions : list Z)
  : result (list (list Z)) :=
  if num_classes <? 0 then Raise RuntimeError
  else
    for_each confusion_step (zip target_classes predictions)
      (replicate (Z.to_nat num_classes) (replicate (Z.to_nat num_classes) 0)).

(** The logged accuracy of class [k]:
    [confusion[k, k] / confusion[k].sum() if confusion[k].sum() > 0
     else 0.0]. *)
Definition class_accuracy (confusion : list (list Z)) (k : Z) : result Q :=
  row ← Py.index confusion k;
  if 0 <? Zsum row then
    row ← Py.index confusion k;
    cell ← Py.index row k;
    row ← Py.index confusion k;
    Py.truediv (inject_Z cell) (inject_Z (Zsum row))
  else Ok 0%Q.

End BaseModuleSteps.

(** ** [dataset.py]: class [DataConverter] (aggregation and splitting) *)

(** One OHLCV record: the six columns [get_row_values] reads from a row. *)
Record Bar : Type := mkBar {
  Timestamp : Z;
  High : Q;
  Low : Q;
  Open : Q;
  Close : Q;
  Volume : Q
}.

(** The row of a frame that holds a bar. *)
Definition bar_row (b : Bar) : Row :=
  <["Timestamp"%string := inject_Z (Timestamp b)]>
  (<["High"%string := High b]>
  (<["Low"%string := Low b]>
  (<["Open"%string := Open b]>
  (<["Close"%string := Close b]>
  (<["Volume"%string := Volume b]> ∅))))).

Definition bar_frame (bars : list Bar) : DataFrame.t :=
  DataFrame.Frame ["Timestamp"; "High"; "Low"; "Open"; "Close"; "Volume"]%string
                  (bar_row <$> bars).

Module DataConverter.

(** The attributes [split] and [process_data] read.  [jumps] is in
    seconds.  [train_ratio] and [test_ratio] stand for the attributes
    [self.train_ratio] and [self.test_ratio]; [None] means the attribute
    does not exist.  The [*_interval] entries are the configured date
    ranges, already resolved to timestamps. *)
Record t : Type := Make {
  jumps : Z;
  config_train_ratio : option Q;
  train_ratio : option Q;
  test_ratio : option Q;
  train_interval : option (Z * Z);
  val_interval : option (Z * Z);
  test_interval : option (Z * Z)
}.

(** [__init__]: the bucket width is configured in minutes; the ratio
    attributes are not assigned. *)
Definition init (config_jumps : Z) (config_train_ratio : option Q)
    (train_interval val_interval test_interval : option (Z * Z)) : t :=
  Make (config_jumps * 60) config_train_ratio None None
       train_interval val_interval test_interval.

(** [data[data['Timestamp'] >= lo]] and [data[data['Timestamp'] < hi]]. *)
Definition filter_ge (lo : Z) (data : list Bar) : list Bar :=
  List.filter (fun r => lo <=? Timestamp r) data.
Definition filter_lt (hi : Z) (data : list Bar) : list Bar :=
  List.filter (fun r => Timestamp r <? hi) data.

(** [get_row_values]. *)
Definition get_row_values (row : Bar) : Z * Q * Q * Q * Q * Q :=
  (Timestamp row, High row, Low row, Open row, Close row, Volume row).

(** The state of the loop of [merge_data]:
    [(high, low, close, vol, count)]. *)
Definition merge_step (acc : Q * Q * Q * Q * Z) (row : Bar) : Q * Q * Q * Q * Z :=
  let '(high, low, _, vol, count) := acc in
  let '(_, h, l, _, close, v) := get_row_values row in
  (Py.max high h, Py.min low l, close, (vol + v)%Q, count + 1).

(** [merge_data(data, start, jump)]: [None] stands for the tuple of
    [None]s returned for an empty bucket; otherwise
    [(high, low, open, close, vol)]. *)
Definition merge_data (data : list Bar) (start jump : Z)
  : option (Q * Q * Q * Q * Q) :=
  let tmp := filter_ge start data in
  let tmp := filter_lt (start + jump) tmp in
  match tmp with
  | [] => None
  | first :: _ =>
      let '(_, high, low, open, close, _) := get_row_values first in
      let '(high, low, close, vol, _) :=
        fold_left merge_step tmp (high, low, close, 0%Q, 1) in
      Some (high, low, open, close, vol)
  end.

(** The body of the loop of [process_data]. *)
Definition process_step (self : t) (data : list Bar) (new_df : list Bar) (i : Z)
  : list Bar :=
  match merge_data data i (jumps self) with
  | None => new_df
  | Some (high, low, open, close, vol) =>
      new_df ++ [mkBar i high low open close vol]
  end.

(** [load_data], after the file has been read and the configured dates
    resolved to the timestamps [start] and [stop]. *)
Definition load_data (df : list Bar) (start stop : Z) : list Bar * Z * Z :=
  let df := filter_ge start df in
  let df := filter_lt stop df in
  (df, start, stop).

(** [process_data], on what [load_data] returned. *)
Definition process_data (self : t) (loaded : list Bar * Z * Z)
  : result (list Bar) :=
  let '(data, start, stop) := loaded in
  starts ← Py.range start (stop - 3600) (jumps self);
  Ok (fold_left (process_step self data) starts []).

(** [sorted(l)] on a list of ints. *)
Definition sorted (l : list Z) : list Z := merge_sort Z.le l.

(** [data.iloc[idx]] for a list of positions. *)
Definition iloc_list {A} (data : list A) (idx : list Z) : result (list A) :=
  mapM (Py.index data) idx.

Definition attribute {A} (a : option A) : result A :=
  match a with
  | Some x => Ok x
  | None => Raise AttributeError
  end.

(** One interval of the interval branch of [split]. *)
Definition split_interval (data : list Bar) (interval : option (Z * Z))
  : result (list Bar) :=
  match interval with
  | None => Raise TypeError
  | Some (start, stop) => Ok (filter_lt stop (filter_ge start data))
  end.

(** The three lists of positions of the ratio branch of [split], from the
    shuffled list [total]. *)
Definition ratio_positions (n_train n_test : Z) (total : list Z)
  : list Z * list Z * list Z :=
  let train := sorted (Py.slice None (Some n_train) total) in
  let val := sorted (Py.slice (Some n_train) (Some (- n_test)) total) in
  let test := sorted (Py.slice (Some (- n_test)) None total) in
  (train, val, test).

(** [split(data)].  [shuffle] is what [random.shuffle] does to the list
    of positions in this run. *)
Definition split (self : t) (shuffle : list Z -> list Z) (data : list Bar)
  : result (list Bar * list Bar * list Bar) :=
  match config_train_ratio self with
  | Some _ =>
      let total := Py.len data in
      tr ← attribute (train_ratio self);
      let n_train := Py.int (tr * inject_Z total) in
      te ← attribute (test_ratio self);
      let n_test := Py.int (te * inject_Z total) in
      let total := Py.range_to total in
      let total := shuffle total in
      let '(train, val, test) := ratio_positions n_train n_test total in
      train ← iloc_list data train;
      val ← iloc_list data val;
      test ← iloc_list data test;
      Ok (train, val, test)
  | None =>
      train ← split_interval data (train_interval self);
      val ← split_interval data (val_interval self);
      test ← split_interval data (test_interval self);
      Ok (train, val, test)
  end.

End DataConverter.

(** ** The labelling functions on floating-point values *)

Module IEEE.

(** A floating-point value: a finite number, an infinity or NaN. *)
Inductive float : Type :=
| Fin (q : Q)
| PInf
| NInf
| NaN.

(** [a < b] and [a <= b]: false as soon as one side is NaN. *)
Definition lt (a b : float) : bool :=
  match a, b with
  | NaN, _ | _, NaN => false
  | NInf, NInf => false
  | NInf, _ => true
  | PInf, _ => false
  | Fin _, NInf => false
  | Fin _, PInf => true
  | Fin x, Fin y => Qlt_bool x y
  end.
Definition le (a b : float) : bool :=
  match a, b with
  | NaN, _ | _, NaN => false
  | NInf, _ => true
  | PInf, PInf => true
  | PInf, _ => false
  | Fin _, NInf => false
  | Fin _, PInf => true
  | Fin x, Fin y => Qle_bool x y
  end.
Definition gt (a b : float) : bool := lt b a.
Definition ge (a b : float) : bool := le b a.

(** [2^e] for an integer [e]. *)
Definition pow2 (e : Z) : Q :=
  if 0 <=? e then inject_Z (2 ^ e) else (/ inject_Z (2 ^ (- e)))%Q.

(** The binary exponent [e] of a positive number: [2^e <= q < 2^(e+1)]. *)
Definition exponent (q : Q) : Z :=
  let e := Z.log2 (Qnum q) - Z.log2 (Zpos (Qden q)) in
  if Qlt_bool q (pow2 e) then e - 1 else e.

(** Rounding to the nearest integer, ties to even. *)
Definition round_half_even (r : Q) : Z :=
  let f := Qnum r / Zpos (Qden r) in
  match (r - inject_Z f ?= 1 # 2)%Q with
  | Lt => f
  | Gt => f + 1
  | Eq => if Z.even f then f else f + 1
  end.

(** The nearest binary32 number (24 significant bits, ties to even), for
    numbers in the normal range of the format: subnormal numbers and the
    overflow to an infinity are left out. *)
Definition binary32 (q : Q) : Q :=
  if Qeq_bool q 0 then 0%Q
  else
    let a := if Qlt_bool q 0 then (- q)%Q else q in
    let ulp := pow2 (exponent a - 23) in
    let m := (inject_Z (round_half_even (a / ulp)) * ulp)%Q in
    if Qlt_bool q 0 then (- m)%Q else m.

(** What [create_class_labels] receives: a number or a tensor. *)
Inductive returns_value : Type :=
| Number (x : float)
| Tensor (t : Torch.tensor float).

(** Elementwise comparison of a tensor with a Python float.  torch
    converts the Python float to the dtype of the tensor first: [cast] is
    that conversion, the identity for a float64 tensor and [binary32] for a
    float32 tensor. *)
Definition tensor_lt (cast : Q -> Q) (t : Torch.tensor float) (c : Q)
  : Torch.tensor bool := Torch.map (fun x => lt x (Fin (cast c))) t.
Definition tensor_le (cast : Q -> Q) (t : Torch.tensor float) (c : Q)
  : Torch.tensor bool := Torch.map (fun x => le x (Fin (cast c))) t.
Definition tensor_gt (cast : Q -> Q) (t : Torch.tensor float) (c : Q)
  : Torch.tensor bool := Torch.map (fun x => gt x (Fin (cast c))) t.
Definition tensor_ge (cast : Q -> Q) (t : Torch.tensor float) (c : Q)
  : Torch.tensor bool := Torch.map (fun x => ge x (Fin (cast c))) t.

(** [DataTransform.create_class_labels]. *)
Definition DataTransform_create_class_labels (cast : Q -> Q)
    (self : DataTransform.t) (returns : returns_value) : value :=
  let threshold := DataTransform.threshold self in
  match returns with
  | Tensor returns =>
      let labels := Torch.zeros_like returns in
      let labels :=
        Torch.masked_assign labels (tensor_lt cast returns (- threshold)) 0 in
      let labels :=
        Torch.masked_assign labels
          (Torch.and (tensor_ge cast returns (- threshold))
                     (tensor_le cast returns threshold)) 1 in
      let labels :=
        Torch.masked_assign labels (tensor_gt cast returns threshold) 2 in
      VLong labels
  | Number returns =>
      if lt returns (Fin (- threshold)) then VLong (Torch.scalar 0)
      else if le returns (Fin threshold) then VLong (Torch.scalar 1)
      else VLong (Torch.scalar 2)
  end.

(** [CMambaDataset.create_class_labels]. *)
Definition CMambaDataset_create_class_labels {T : Type} (cast : Q -> Q)
    (self : CMambaDataset.t T) (returns : returns_value) : value :=
  let threshold := CMambaDataset.threshold self in
  match returns with
  | Tensor returns =>
      let labels := Torch.zeros_like returns in
      let labels :=
        Torch.masked_assign labels (tensor_lt cast returns (- threshold)) 0 in
      let labels :=
        Torch.masked_assign labels
          (Torch.and (tensor_ge cast returns (- threshold))
                     (tensor_le cast returns threshold)) 1 in
      let labels :=
        Torch.masked_assign labels (tensor_gt cast returns threshold) 2 in
      VLong labels
  | Number returns =>
      if lt returns (Fin (- threshold)) then VInt 0
      else if le returns (Fin threshold) then VInt 1
      else VInt 2
  end.

(** [BaseModule.create_class_labels]: tensors only. *)
Definition BaseModule_create_class_labels (cast : Q -> Q)
    (self : BaseModule.t) (returns : Torch.tensor float) : Torch.tensor Z :=
  let threshold := BaseModule.threshold self in
  let labels := Torch.zeros_like returns in
  let labels :=
    Torch.masked_assign labels (tensor_lt cast returns (- threshold)) 0 in
  let labels :=
    Torch.masked_assign labels
      (Torch.and (tensor_ge cast returns (- threshold))
                 (tensor_le cast returns threshold)) 1 in
  let labels :=
    Torch.masked_assign labels (tensor_gt cast returns threshold) 2 in
  labels.

End IEEE.

(** ** Notions used to state the properties *)

(** The discretisation rule in the words of the specification: the class of
    a return for a threshold. *)
Inductive discretize (threshold returns : Q) : Z -> Prop :=
| Down : (returns < - threshold)%Q -> discretize threshold returns 0
| Stationary :
    (- threshold <= returns)%Q -> (returns <= threshold)%Q ->
    discretize threshold returns 1
| Up : (threshold < returns)%Q -> discretize threshold returns 2.

(** The records of [data] that fall into the bucket of width [jump] that
    starts at [start]. *)
Definition bucket (data : list Bar) (start jump : Z) : list Bar :=
  DataConverter.filter_lt (start + jump) (DataConverter.filter_ge start data).

(** The bar [process_data] appends for the bucket that starts at [i], if
    any. *)
Definition bucket_bar (data : list Bar) (jump i : Z) : option Bar :=
  match DataConverter.merge_data data i jump with
  | None => None
  | Some (high, low, open, close, vol) => Some (mkBar i high low open close vol)
  end.

(** The return in the words of the specification:
    [(current - previous) / previous], or 0 when [previous] is 0. *)
Definition return_of (current previous : Q) : Q :=
  if Qeq_bool previous 0 then 0%Q else ((current - previous) / previous)%Q.


(** The column [col] of the key [key] as the transform reads it: the volume
    is divided by 1e9. *)
Definition scaled (key : string) (col : list Q) : list Q :=
  if String.eqb key "Volume"
  then List.map (fun x => x / 1000000000)%Q col else col.

(** The output dict holds the current target [c] and the previous target
    [p] of the target column [y]. *)
Definition stores_targets (y : string) (p c : Q) (output : Sample) : Prop :=
  output !! y = Some (VTensor (Torch.scalar c)) ∧
  output !! (y +:+ "_old") = Some (VTensor (Torch.scalar p)).

(** The column of [key] has at least two values. *)
Definition two_values (window : DataFrame.t) (key : string) : Prop :=
  ∃ col pre p c,
    DataFrame.get key window = Some col ∧ scaled key col = pre ++ [p; c].

(** The sum of a list of numbers. *)
Definition Qsum (l : list Q) : Q := fold_right Qplus 0%Q l.

(** [x] is a largest (smallest) element of [l]. *)
Definition is_max_of (x : Q) (l : list Q) : Prop :=
  x ∈ l ∧ ∀ y, y ∈ l -> (y <= x)%Q.
Definition is_min_of (x : Q) (l : list Q) : Prop :=
  x ∈ l ∧ ∀ y, y ∈ l -> (x <= y)%Q.

(** What the three masked assignments leave at one position. *)
Definition masked_class (threshold x : Q) : Z :=
  let l := 0 in
  let l := if Qlt_bool x (- threshold) then 0 else l in
  let l := if Qge_bool x (- threshold) && Qle_bool x threshold then 1 else l in
  let l := if Qgt_bool x threshold then 2 else l in
  l.

(** A record keeps [low <= open, close <= high] and a volume [>= 0]. *)
Definition ordered_bar (b : Bar) : Prop :=
  (Low b <= Open b)%Q ∧ (Open b <= High b)%Q ∧
  (Low b <= Close b)%Q ∧ (Close b <= High b)%Q ∧ (0 <= Volume b)%Q.

(** Two bars with the same timestamp and equal numbers. *)
Definition same_bar (a b : Bar) : Prop :=
  Timestamp a = Timestamp b ∧ (High a == High b)%Q ∧ (Low a == Low b)%Q ∧
  (Open a == Open b)%Q ∧ (Close a == Close b)%Q ∧ (Volume a == Volume b)%Q.

(** The rows of [data] at the positions [idx]. *)
Definition rows_at {A} (data : list A) (idx : list Z) : list A :=
  omap (fun i => data !! Z.to_nat i) idx.

(** The row of the feature matrix that a column contributes: its values as
    the transform reads them, without the last one. *)
Definition feature_row (key : string) (col : list Q) : list Q :=
  Py.slice None (Some (-1)) (scaled key col).

(** The keys whose columns enter the feature matrix. *)
Definition feature_keys_of (keys : list string) : list string :=
  filter (fun k => k ≠ "Timestamp_orig"%string) keys.

(** The column of [key] in the frame of the bars. *)
Definition bar_column (bars : list Bar) (key : string) : list Q :=
  default [] (DataFrame.get key (bar_frame bars)).

(** The number of pairs [(t, p)] and of pairs with target [t] in a list of
    pairs of a target and a prediction. *)
Definition pair_count (t p : Z) (pairs : list (Z * Z)) : Z :=
  Z.of_nat (length (filter (fun tp => tp = (t, p)) pairs)).
Definition target_count (t : Z) (pairs : list (Z * Z)) : Z :=
  Z.of_nat (length (filter (fun tp : Z * Z => tp.1 = t) pairs)).

(** The matrix whose entry [(t, p)] counts the pairs [(t, p)]. *)
Definition count_matrix (n : Z) (pairs : list (Z * Z)) : list (list Z) :=
  (fun t => (fun p => pair_count t p pairs) <$> Py.range_to n) <$> Py.range_to n.

(** What the three masked assignments leave at one position of a tensor of
    floating-point values. *)
Definition masked_label (cast : Q -> Q) (threshold : Q) (x : IEEE.float) : Z :=
  let l := 0 in
  let l := if IEEE.lt x (IEEE.Fin (cast (- threshold)%Q)) then 0 else l in
  let l := if IEEE.ge x (IEEE.Fin (cast (- threshold)%Q))
              && IEEE.le x (IEEE.Fin (cast threshold)) then 1 else l in
  let l := if IEEE.gt x (IEEE.Fin (cast threshold)) then 2 else l in
  l.

(** [label] is the class of [returns] under [threshold]: an integer for a
    number, and for a tensor a tensor of the same shape that holds the class
    of every entry. *)
Definition labels_of (threshold : Q) (returns label : value) : Prop :=
  match returns, label with
  | VFloat x, VInt k => discretize threshold x k
  | VInt n, VInt k => discretize threshold (inject_Z n) k
  | VTensor t, VLong l =>
      Torch.shape l = Torch.shape t ∧
      Forall2 (discretize threshold) (Torch.storage t) (Torch.storage l)
  | VLong t, VLong l =>
      Torch.shape l = Torch.shape t ∧
      Forall2 (fun n => discretize threshold (inject_Z n))
              (Torch.storage t) (Torch.storage l)
  | _, _ => False
  end.

(** The window with another last row. *)
Definition with_last_row (window : DataFrame.t) (row : Row) : DataFrame.t :=
  DataFrame.Frame (DataFrame.columns window)
                  (removelast (DataFrame.rows window) ++ [row]).

(** ** Concrete inputs of the examples *)

(** A classification transform over the default columns with the threshold
    0.001. *)
Definition transform_1e3 : DataTransform.t :=
  DataTransform.init true false "classification" (1 # 1000) "Close".

(** Six bars at the timestamps 0, 60, ..., 300 and a dataset over them with
    [window_size = 3]. *)
Definition bar_at (ts : Z) (close : Q) : Bar := mkBar ts close close close close 1.
Definition six_bars : list Bar :=
  [bar_at 0 100; bar_at 60 101; bar_at 120 0; bar_at 180 (201 # 2);
   bar_at 240 99; bar_at 300 98].
Definition six_dataset : CMambaDataset.t DataTransform.t :=
  CMambaDataset.Make (bar_frame six_bars) transform_1e3 3
                     "regression" "Close" (1 # 1000) None.

(** Two 30-second records of one 60-second bucket. *)
Definition two_records : list Bar :=
  [mkBar 0 10 8 9 (19 # 2) 3; mkBar 30 12 7 (19 # 2) 11 4].

(** A converter with [train_ratio = 0.7] and [test_ratio = 0.2] and a table
    of four bars. *)
Definition ratio_converter : DataConverter.t :=
  DataConverter.Make 60 (Some (7 # 10)) (Some (7 # 10)) (Some (2 # 10))
                     None None None.
Definition four_bars : list Bar :=
  [bar_at 0 100; bar_at 60 101; bar_at 120 102; bar_at 180 103].

(** Factors for the column [Close] with [min = 50] and [max = 150], a
    classification transform that uses them and a training module. *)
Definition close_factors : Factors :=
  {[ "Close"%string := <["min"%string := 50%Q]> {[ "max"%string := 150%Q ]} ]}.
Definition factor_transform : ClassificationTransform.t :=
  ClassificationTransform.init (Some close_factors) "Close" None (1 # 1000).
Definition module_1e3 : BaseModule.t := BaseModule.Make "Close" (1 # 1000) None.

(** The six-bar dataset in classification mode, before
    [_compute_returns]. *)
Definition six_classification : CMambaDataset.t DataTransform.t :=
  CMambaDataset.Make (bar_frame six_bars) transform_1e3 3
                     "classification" "Close" (1 # 1000) None.

(** The first window of the six bars, and the same window with the extra
    column [Timestamp_orig]. *)
Definition plain_window : DataFrame.t := CMambaDataset.window six_dataset 0.
Definition orig_window : DataFrame.t :=
  DataFrame.Frame
    (DataFrame.columns plain_window ++ ["Timestamp_orig"%string])
    ((fun r : Row => <["Timestamp_orig"%string := 7%Q]> r)
       <$> DataFrame.rows plain_window).

(** A transform with the threshold 0.1 and a classification dataset over
    the six bars whose threshold, 0.001, is narrower. *)
Definition transform_1e1 : DataTransform.t :=
  DataTransform.init true false "classification" (1 # 10) "Close".
Definition narrow_dataset : CMambaDataset.t DataTransform.t :=
  CMambaDataset.Make (bar_frame six_bars) transform_1e1 3
                     "classification" "Close" (1 # 1000)
                     (Some [0; (99 - (201 # 2)) / (201 # 2)]%Q).

(** The targets and the predictions of a batch of four. *)
Definition four_targets : list Z := [0; 2; 1; 2].
Definition four_predictions : list Z := [0; 1; 1; 2].

(** A batch of two samples without [returns]: the prices 120 and 90 after
    the price 100, normalised with [min = 50] and [max = 150]. *)
Definition two_prices_batch : BaseModuleSteps.Batch :=
  <["features"%string := Torch.scalar 0%Q]>
  (<["Close"%string :=
       Torch.Tensor [2] ((fun p : Q => (p - 50) / (150 - 50))%Q <$> [120; 90]%Q)]>
  (<["Close_old"%string :=
       Torch.Tensor [2] ((fun p : Q => (p - 50) / (150 - 50))%Q <$> [100; 100]%Q)]>
   ∅)).

(** * Properties *)

(** ** The error monad and loops *)

Lemma bind_ok {A B} (a : A) (f : A -> result B) : Ok a ≫= f = f a.
Proof. reflexivity. Qed.

Lemma for_each_cons {A S} (body : S -> A -> result S) (x : A) (xs : list A)
    (acc : S) :
  for_each body (x :: xs) acc = body acc x ≫= for_each body xs.
Proof. reflexivity. Qed.

Lemma bind_raise {A B} (e : exn) (f : A -> result B) : Raise e ≫= f = Raise e.
Proof. reflexivity. Qed.

(** Inversion of a successful bind. *)
Ltac bind_inv H x E :=
  match type of H with
  | ?m ≫= _ = Ok _ =>
      destruct m as [x|] eqn:E;
      [rewrite bind_ok in H | rewrite bind_raise in H; discriminate H]
  end.

(** ** Comparisons of rationals *)

Lemma Qlt_bool_iff (a b : Q) : Qlt_bool a b = true <-> (a < b)%Q.
Proof.
  unfold Qlt_bool. rewrite negb_true_iff, <- not_true_iff_false, Qle_bool_iff.
  split; [apply Qnot_le_lt | apply Qlt_not_le].
Qed.

Lemma Qlt_bool_reflect (a b : Q) : reflect (a < b)%Q (Qlt_bool a b).
Proof. apply iff_reflect. symmetry. apply Qlt_bool_iff. Qed.

Lemma Qle_bool_reflect (a b : Q) : reflect (a <= b)%Q (Qle_bool a b).
Proof. apply iff_reflect. symmetry. apply Qle_bool_iff. Qed.

Lemma Qeq_bool_reflect (a b : Q) : reflect (a == b)%Q (Qeq_bool a b).
Proof. apply iff_reflect. symmetry. apply Qeq_bool_iff. Qed.

(** Case analysis on every comparison of the goal, then linear arithmetic. *)
Ltac qcases :=
  unfold Qgt_bool, Qge_bool, Qne_bool in *;
  repeat match goal with
    | |- context [Qlt_bool ?a ?b] => destruct (Qlt_bool_reflect a b)
    | |- context [Qle_bool ?a ?b] => destruct (Qle_bool_reflect a b)
    | |- context [Qeq_bool ?a ?b] => destruct (Qeq_bool_reflect a b)
    | _ : context [Qlt_bool ?a ?b] |- _ => destruct (Qlt_bool_reflect a b)
    | _ : context [Qle_bool ?a ?b] |- _ => destruct (Qle_bool_reflect a b)
    | _ : context [Qeq_bool ?a ?b] |- _ => destruct (Qeq_bool_reflect a b)
    end;
  simpl in *.

(** ** The tensor rule is the scalar rule, element by element *)

Lemma masked_assignments_storage (threshold : Q) (xs : list Q) :
  zip_with (fun (x : Z) (m : bool) => if m then 2 else x)
    (zip_with (fun (x : Z) (m : bool) => if m then 1 else x)
       (zip_with (fun (x : Z) (m : bool) => if m then 0 else x)
          (List.map (fun _ => 0) xs)
          (List.map (fun x => Qlt_bool x (- threshold)) xs))
       (zip_with andb (List.map (fun x => Qge_bool x (- threshold)) xs)
                      (List.map (fun x => Qle_bool x threshold) xs)))
    (List.map (fun x => Qgt_bool x threshold) xs)
  = List.map (masked_class threshold) xs.
Proof.
  induction xs as [|x xs IH]; simpl; [reflexivity|].
  rewrite IH. reflexivity.
Qed.

Lemma masked_class_scalar (threshold x : Q) :
  (0 <= threshold)%Q ->
  masked_class threshold x =
    if Qlt_bool x (- threshold) then 0
    else if Qle_bool x threshold then 1 else 2.
Proof.
  intros Hth. unfold masked_class. qcases; try reflexivity; lra.
Qed.

(** ** The three tensor implementations *)

Section Labelling_paths.
Context {T : Type}.
Variables (dt : DataTransform.t) (ds : CMambaDataset.t T) (bm : BaseModule.t).

Lemma transform_tensor_storage (r : Torch.tensor Q) :
  DataTransform.create_class_labels_tensor dt r
  = Torch.map (masked_class (DataTransform.threshold dt)) r.
Proof.
  destruct r as [sh xs].
  unfold DataTransform.create_class_labels_tensor, Torch.masked_assign,
    Torch.and, Torch.zeros_like, Torch.lt, Torch.le, Torch.gt, Torch.ge,
    Torch.zip_with, Torch.map; simpl.
  f_equal. apply masked_assignments_storage.
Qed.

Lemma dataset_tensor_storage (r : Torch.tensor Q) :
  CMambaDataset.create_class_labels_tensor ds r
  = Torch.map (masked_class (CMambaDataset.threshold ds)) r.
Proof.
  destruct r as [sh xs].
  unfold CMambaDataset.create_class_labels_tensor, Torch.masked_assign,
    Torch.and, Torch.zeros_like, Torch.lt, Torch.le, Torch.gt, Torch.ge,
    Torch.zip_with, Torch.map; simpl.
  f_equal. apply masked_assignments_storage.
Qed.

Lemma module_tensor_storage (r : Torch.tensor Q) :
  BaseModule.create_class_labels bm r
  = Torch.map (masked_class (BaseModule.threshold bm)) r.
Proof.
  destruct r as [sh xs].
  unfold BaseModule.create_class_labels, Torch.masked_assign,
    Torch.and, Torch.zeros_like, Torch.lt, Torch.le, Torch.gt, Torch.ge,
    Torch.zip_with, Torch.map; simpl.
  f_equal. apply masked_assignments_storage.
Qed.

End Labelling_paths.

Lemma masked_class_proper (t1 t2 x : Q) :
  (t1 == t2)%Q -> masked_class t1 x = masked_class t2 x.
Proof.
  intros E. unfold masked_class. qcases; try reflexivity; lra.
Qed.

Lemma tensor_map_ext {A B} (f g : A -> B) (t : Torch.tensor A) :
  (∀ x, f x = g x) -> Torch.map f t = Torch.map g t.
Proof.
  intros E. unfold Torch.map. f_equal. apply map_ext. exact E.
Qed.

(** ** C2: the discretisation rule of the transform *)

Lemma transform_scalar_class (self : DataTransform.t) (returns : Q) (k : Z) :
  (0 <= DataTransform.threshold self)%Q ->
  DataTransform.create_class_labels self (VFloat returns) = VLong (Torch.scalar k)
  <-> discretize (DataTransform.threshold self) returns k.
Proof.
  intros Hth. simpl. unfold DataTransform.create_class_labels_scalar.
  split.
  - intros H. qcases; injection H as <-.
    + apply Down. assumption.
    + apply Stationary; lra.
    + apply Up. lra.
  - intros [H | H1 H2 | H]; qcases; try reflexivity; lra.
Qed.

(** On a 0-dimensional tensor the tensor branch of the transform gives what
    the scalar branch gives on the number. *)
Lemma transform_branches_agree (self : DataTransform.t) (returns : Q) :
  (0 <= DataTransform.threshold self)%Q ->
  DataTransform.create_class_labels self (VTensor (Torch.scalar returns))
  = DataTransform.create_class_labels self (VFloat returns).
Proof.
  intros Hth. simpl. rewrite transform_tensor_storage.
  unfold Torch.map; simpl. rewrite masked_class_scalar by exact Hth.
  unfold DataTransform.create_class_labels_scalar.
  destruct (Qlt_bool returns _); [reflexivity|].
  destruct (Qle_bool returns _); reflexivity.
Qed.

(** C2.  For a threshold [>= 0] the labelling of the transform, on a number
    and on a 0-dimensional tensor alike, assigns class 0 exactly when
    [returns < -threshold], class 1 exactly when
    [-threshold <= returns <= threshold] and class 2 exactly when
    [returns > threshold]; every return gets exactly one of the three
    classes; both boundary values are stationary; and with a zero threshold
    class 1 is the single point [returns == 0]. *)
Theorem C2_discretization (self : DataTransform.t) :
  (0 <= DataTransform.threshold self)%Q ->
  let th := DataTransform.threshold self in
  let label returns k :=
    DataTransform.create_class_labels self (VFloat returns)
    = VLong (Torch.scalar k) in
  (∀ returns,
     DataTransform.create_class_labels self (VTensor (Torch.scalar returns))
     = DataTransform.create_class_labels self (VFloat returns)) ∧
  (∀ returns, label returns 0 <-> (returns < - th)%Q) ∧
  (∀ returns, label returns 1 <-> (- th <= returns)%Q ∧ (returns <= th)%Q) ∧
  (∀ returns, label returns 2 <-> (th < returns)%Q) ∧
  (∀ returns, label returns 0 ∨ label returns 1 ∨ label returns 2) ∧
  (∀ returns j k, label returns j -> label returns k -> j = k) ∧
  label (- th)%Q 1 ∧ label th 1 ∧
  ((th == 0)%Q -> ∀ returns, label returns 1 <-> (returns == 0)%Q).
Proof.
  intros Hth th label.
  assert (Hl : ∀ r k, label r k <-> discretize th r k)
    by (intros; apply transform_scalar_class; assumption).
  refine (conj _ (conj _ (conj _ (conj _ (conj _ (conj _ (conj _ (conj _ _)))))))).
  - intros r. apply transform_branches_agree, Hth.
  - intros r. rewrite Hl. split; [intros H; inversion H; assumption | apply Down].
  - intros r. rewrite Hl. split.
    + intros H. inversion H. split; assumption.
    + intros [H1 H2]. apply Stationary; assumption.
  - intros r. rewrite Hl. split; [intros H; inversion H; assumption | apply Up].
  - intros r. destruct (Qlt_le_dec r (- th)) as [H|H].
    + left. apply Hl, Down, H.
    + destruct (Qlt_le_dec th r) as [H'|H'].
      * right; right. apply Hl, Up, H'.
      * right; left. apply Hl, Stationary; assumption.
  - intros r j k Hj Hk. unfold label in *. rewrite Hj in Hk.
    injection Hk. trivial.
  - apply Hl, Stationary; subst th; lra.
  - apply Hl, Stationary; subst th; lra.
  - intros E r. rewrite Hl. split.
    + intros H. inversion H. lra.
    + intros H. apply Stationary; lra.
Qed.

(** C2 at the threshold 0.001: both boundary returns are stationary. *)
Lemma C2_discretization_witness :
  (0 <= DataTransform.threshold transform_1e3)%Q ∧
  DataTransform.create_class_labels transform_1e3 (VFloat (- (1 # 1000)))
  = VLong (Torch.scalar 1) ∧
  DataTransform.create_class_labels transform_1e3 (VFloat (1 # 1000))
  = VLong (Torch.scalar 1).
Proof.
  assert (H : (0 <= DataTransform.threshold transform_1e3)%Q) by (simpl; lra).
  split; [exact H|].
  pose proof (C2_discretization transform_1e3 H) as C. simpl in C.
  destruct C as (_ & _ & _ & _ & _ & _ & Hlo & Hhi & _).
  split; [exact Hlo | exact Hhi].
Defined.

(** The examples of the specification: a return of 0.0005 is stationary and a
    return of -0.01 is down, for the threshold 0.001. *)
Example discretization_examples :
  DataTransform.create_class_labels transform_1e3 (VFloat (5 # 10000))
  = VLong (Torch.scalar 1) ∧
  DataTransform.create_class_labels transform_1e3 (VFloat (- (1 # 100)))
  = VLong (Torch.scalar 0).
Proof. split; reflexivity. Qed.

(** ** C3: the labelling paths *)

(** On exact numbers the paths agree.  With one threshold [>= 0] shared by
    the transform, the dataset and the training module, every labelling
    path gives the same class: the three tensor implementations return the
    same tensor of labels, which holds at every position the class the
    scalar [if / elif / else] chain gives to the element at that position,
    and the two scalar implementations give the same class (the transform
    as a 0-dimensional tensor, the dataset as an [int]). *)
Lemma labelling_paths_agree_exact {T : Type}
    (dt : DataTransform.t) (ds : CMambaDataset.t T) (bm : BaseModule.t)
    (th : Q) (returns : Torch.tensor Q) (x : Q) :
  (0 <= th)%Q ->
  (DataTransform.threshold dt == th)%Q ->
  (CMambaDataset.threshold ds == th)%Q ->
  (BaseModule.threshold bm == th)%Q ->
  DataTransform.create_class_labels_tensor dt returns
  = Torch.map (CMambaDataset.create_class_labels_scalar ds) returns ∧
  CMambaDataset.create_class_labels_tensor ds returns
  = Torch.map (CMambaDataset.create_class_labels_scalar ds) returns ∧
  BaseModule.create_class_labels bm returns
  = Torch.map (CMambaDataset.create_class_labels_scalar ds) returns ∧
  DataTransform.create_class_labels dt (VFloat x)
  = DataTransform.create_class_labels dt (VTensor (Torch.scalar x)) ∧
  CMambaDataset.create_class_labels ds (VTensor (Torch.scalar x))
  = VLong (Torch.scalar (CMambaDataset.create_class_labels_scalar ds x)) ∧
  DataTransform.create_class_labels dt (VFloat x)
  = VLong (Torch.scalar (CMambaDataset.create_class_labels_scalar ds x)) ∧
  CMambaDataset.create_class_labels ds (VFloat x)
  = VInt (CMambaDataset.create_class_labels_scalar ds x).
Proof.
  intros Hth Hdt Hds Hbm.
  assert (Hds0 : (0 <= CMambaDataset.threshold ds)%Q) by lra.
  assert (Hsc : ∀ t' y, (t' == th)%Q ->
            masked_class t' y = CMambaDataset.create_class_labels_scalar ds y).
  { intros t' y E.
    rewrite (masked_class_proper t' (CMambaDataset.threshold ds)) by lra.
    apply masked_class_scalar, Hds0. }
  assert (Hdx : DataTransform.create_class_labels_scalar dt x
                = Torch.scalar (CMambaDataset.create_class_labels_scalar ds x)).
  { unfold DataTransform.create_class_labels_scalar,
      CMambaDataset.create_class_labels_scalar.
    qcases; try reflexivity; lra. }
  refine (conj _ (conj _ (conj _ (conj _ (conj _ (conj _ _)))))).
  - rewrite transform_tensor_storage. apply tensor_map_ext.
    intros y. apply Hsc, Hdt.
  - rewrite dataset_tensor_storage. apply tensor_map_ext.
    intros y. apply Hsc, Hds.
  - rewrite module_tensor_storage. apply tensor_map_ext.
    intros y. apply Hsc, Hbm.
  - simpl. rewrite transform_tensor_storage, Hdx. unfold Torch.map; simpl.
    rewrite (Hsc _ x Hdt). reflexivity.
  - simpl. rewrite dataset_tensor_storage. unfold Torch.map; simpl.
    rewrite (Hsc _ x Hds). reflexivity.
  - simpl. rewrite Hdx. reflexivity.
  - reflexivity.
Qed.

(** The threshold 0.001: a batch of four returns and the boundary return on
    every path. *)
Lemma labelling_paths_agree_exact_example :
  (0 <= 1 # 1000)%Q ∧
  DataTransform.create_class_labels_tensor transform_1e3
    (Torch.of_list [- (1 # 100); 5 # 10000; 1 # 1000; 1 # 100]%Q)
  = Torch.of_list [0; 1; 1; 2] ∧
  BaseModule.create_class_labels module_1e3
    (Torch.of_list [- (1 # 100); 5 # 10000; 1 # 1000; 1 # 100]%Q)
  = Torch.of_list [0; 1; 1; 2] ∧
  CMambaDataset.create_class_labels six_classification (VFloat (1 # 1000))
  = VInt 1 ∧
  DataTransform.create_class_labels transform_1e3 (VFloat (1 # 1000))
  = VLong (Torch.scalar 1).
Proof.
  assert (H : (0 <= 1 # 1000)%Q) by lra.
  split; [exact H|].
  destruct (labelling_paths_agree_exact transform_1e3 six_classification module_1e3
              (1 # 1000)
              (Torch.of_list [- (1 # 100); 5 # 10000; 1 # 1000; 1 # 100]%Q)
              (1 # 1000) H
              ltac:(reflexivity) ltac:(reflexivity) ltac:(reflexivity))
    as (Hdt & _ & Hbm & _ & _ & Hx & Hds).
  split; [rewrite Hdt; reflexivity|].
  split; [rewrite Hbm; reflexivity|].
  split; [rewrite Hds; reflexivity|].
  rewrite Hx. reflexivity.
Qed.

(** *** Floating-point values *)

Lemma ieee_masked_storage (cast : Q -> Q) (threshold : Q) (xs : list IEEE.float) :
  zip_with (fun (x : Z) (m : bool) => if m then 2 else x)
    (zip_with (fun (x : Z) (m : bool) => if m then 1 else x)
       (zip_with (fun (x : Z) (m : bool) => if m then 0 else x)
          (List.map (fun _ => 0) xs)
          (List.map (fun x => IEEE.lt x (IEEE.Fin (cast (- threshold)%Q))) xs))
       (zip_with andb
          (List.map (fun x => IEEE.ge x (IEEE.Fin (cast (- threshold)%Q))) xs)
          (List.map (fun x => IEEE.le x (IEEE.Fin (cast threshold))) xs)))
    (List.map (fun x => IEEE.gt x (IEEE.Fin (cast threshold))) xs)
  = List.map (masked_label cast threshold) xs.
Proof.
  induction xs as [|x xs IH]; [reflexivity|].
  cbn [List.map zip_with]. rewrite IH. reflexivity.
Qed.

(** The three tensor paths are one rule, applied to every entry. *)
Lemma ieee_tensor_paths {T : Type} (cast : Q -> Q) (dt : DataTransform.t)
    (ds : CMambaDataset.t T) (bm : BaseModule.t) (t : Torch.tensor IEEE.float) :
  IEEE.DataTransform_create_class_labels cast dt (IEEE.Tensor t)
  = VLong (Torch.map (masked_label cast (DataTransform.threshold dt)) t) ∧
  IEEE.CMambaDataset_create_class_labels cast ds (IEEE.Tensor t)
  = VLong (Torch.map (masked_label cast (CMambaDataset.threshold ds)) t) ∧
  IEEE.BaseModule_create_class_labels cast bm t
  = Torch.map (masked_label cast (BaseModule.threshold bm)) t.
Proof.
  destruct t as [sh xs].
  unfold IEEE.DataTransform_create_class_labels,
    IEEE.CMambaDataset_create_class_labels, IEEE.BaseModule_create_class_labels,
    IEEE.tensor_lt, IEEE.tensor_le, IEEE.tensor_gt, IEEE.tensor_ge,
    Torch.masked_assign, Torch.and, Torch.zeros_like, Torch.zip_with, Torch.map;
    simpl.
  rewrite !ieee_masked_storage. auto.
Qed.

(** On finite values compared without conversion, the floating-point rule
    is the rule on exact numbers. *)
Lemma masked_label_finite (threshold x : Q) :
  masked_label id threshold (IEEE.Fin x) = masked_class threshold x.
Proof. reflexivity. Qed.

Lemma ieee_exact_restriction {T : Type} (dt : DataTransform.t)
    (ds : CMambaDataset.t T) (bm : BaseModule.t) (t : Torch.tensor Q) (x : Q) :
  IEEE.DataTransform_create_class_labels id dt (IEEE.Tensor (Torch.map IEEE.Fin t))
  = DataTransform.create_class_labels dt (VTensor t) ∧
  IEEE.CMambaDataset_create_class_labels id ds (IEEE.Tensor (Torch.map IEEE.Fin t))
  = CMambaDataset.create_class_labels ds (VTensor t) ∧
  IEEE.BaseModule_create_class_labels id bm (Torch.map IEEE.Fin t)
  = BaseModule.create_class_labels bm t ∧
  IEEE.DataTransform_create_class_labels id dt (IEEE.Number (IEEE.Fin x))
  = DataTransform.create_class_labels dt (VFloat x) ∧
  IEEE.CMambaDataset_create_class_labels id ds (IEEE.Number (IEEE.Fin x))
  = CMambaDataset.create_class_labels ds (VFloat x).
Proof.
  destruct (ieee_tensor_paths id dt ds bm (Torch.map IEEE.Fin t)) as (H1 & H2 & H3).
  rewrite H1, H2, H3. simpl.
  rewrite transform_tensor_storage, (dataset_tensor_storage ds),
    module_tensor_storage.
  unfold Torch.map. simpl. rewrite !map_map.
  repeat split.
  - unfold DataTransform.create_class_labels_scalar. simpl.
    destruct (Qlt_bool x _); [reflexivity|]. destruct (Qle_bool x _); reflexivity.
  - unfold CMambaDataset.create_class_labels_scalar. simpl.
    destruct (Qlt_bool x _); [reflexivity|]. destruct (Qle_bool x _); reflexivity.
Qed.

(** Where the paths agree: on every value that is not NaN, when the
    conversion to the dtype of the tensor leaves the threshold as it is. *)
Lemma ieee_paths_agree (cast : Q -> Q) (dt : DataTransform.t) (x : IEEE.float) :
  (0 <= DataTransform.threshold dt)%Q ->
  (cast (DataTransform.threshold dt) == DataTransform.threshold dt)%Q ->
  (cast (- DataTransform.threshold dt) == - DataTransform.threshold dt)%Q ->
  x ≠ IEEE.NaN ->
  IEEE.DataTransform_create_class_labels cast dt (IEEE.Tensor (Torch.scalar x))
  = IEEE.DataTransform_create_class_labels cast dt (IEEE.Number x).
Proof.
  intros Hth E1 E2 Hx.
  unfold IEEE.DataTransform_create_class_labels, IEEE.tensor_lt, IEEE.tensor_le,
    IEEE.tensor_gt, IEEE.tensor_ge, Torch.masked_assign, Torch.and,
    Torch.zeros_like, Torch.zip_with, Torch.map, Torch.scalar,
    IEEE.gt, IEEE.ge; simpl.
  destruct x as [q| | |]; simpl; try reflexivity; [|congruence].
  qcases; try reflexivity; lra.
Qed.

(** On every value that is not NaN, with a threshold [>= 0] that the
    conversion leaves as it is, the three masked assignments give the class
    of the [if / elif / else] chain. *)
Lemma masked_label_chain (cast : Q -> Q) (threshold : Q) (x : IEEE.float) :
  (0 <= threshold)%Q ->
  (cast threshold == threshold)%Q ->
  (cast (- threshold) == - threshold)%Q ->
  x ≠ IEEE.NaN ->
  masked_label cast threshold x
  = if IEEE.lt x (IEEE.Fin (- threshold)) then 0
    else if IEEE.le x (IEEE.Fin threshold) then 1 else 2.
Proof.
  intros Hth E1 E2 Hx. unfold masked_label, IEEE.gt, IEEE.ge.
  destruct x as [q| | |]; simpl; try reflexivity; [|congruence].
  qcases; try reflexivity; lra.
Qed.

(** The threshold 0.001 and a float32 tensor: the return that equals the
    converted threshold is stationary on the tensor path and up on the
    number path. *)
Lemma float32_threshold_example :
  IEEE.binary32 (1 # 1000) = (8589935 # 8589934592)%Q ∧
  IEEE.DataTransform_create_class_labels IEEE.binary32 transform_1e3
    (IEEE.Tensor (Torch.scalar (IEEE.Fin (IEEE.binary32 (1 # 1000)))))
  = VLong (Torch.scalar 1) ∧
  IEEE.DataTransform_create_class_labels IEEE.binary32 transform_1e3
    (IEEE.Number (IEEE.Fin (IEEE.binary32 (1 # 1000))))
  = VLong (Torch.scalar 2).
Proof. repeat split; vm_compute; reflexivity. Qed.

(** C3.  The paths do not agree on every value.  On NaN every comparison
    is false: the three tensor paths leave the initial label 0 in place,
    and the two number paths fall through to their last branch and return
    2.  That holds for every threshold and every dtype of the tensor. *)
Theorem C3_labelling_paths_disagree {T : Type} (cast : Q -> Q)
    (dt : DataTransform.t) (ds : CMambaDataset.t T) (bm : BaseModule.t) :
  IEEE.DataTransform_create_class_labels cast dt
    (IEEE.Tensor (Torch.scalar IEEE.NaN)) = VLong (Torch.scalar 0) ∧
  IEEE.DataTransform_create_class_labels cast dt (IEEE.Number IEEE.NaN)
  = VLong (Torch.scalar 2) ∧
  IEEE.CMambaDataset_create_class_labels cast ds
    (IEEE.Tensor (Torch.scalar IEEE.NaN)) = VLong (Torch.scalar 0) ∧
  IEEE.CMambaDataset_create_class_labels cast ds (IEEE.Number IEEE.NaN)
  = VInt 2 ∧
  IEEE.BaseModule_create_class_labels cast bm (Torch.scalar IEEE.NaN)
  = Torch.scalar 0.
Proof. repeat split; reflexivity. Qed.

(** ** C1: the window sampler *)

Lemma slice_window {A} (l : list A) (i n : Z) :
  0 <= i -> 0 <= n -> i + n <= Py.len l ->
  Py.slice (Some i) (Some (i + n)) l = take (Z.to_nat n) (drop (Z.to_nat i) l).
Proof.
  intros Hi Hn Hlen. unfold Py.slice, Py.clip.
  destruct (Z.ltb_spec i 0); [lia|].
  destruct (Z.ltb_spec (i + n) 0); [lia|].
  rewrite !Z.min_l by lia. do 2 f_equal. lia.
Qed.

(** C1.  For a window size [>= 0] the size of the sampler is
    [max(0, length - window_size - 1)], and for every index [i] in
    [[0, size)] the window handed to the transform keeps the columns and
    consists of exactly the [window_size + 1] consecutive rows at the
    offsets [i], ..., [i + window_size]. *)
Theorem C1_window_sampler {T : Type} (self : CMambaDataset.t T) :
  0 <= CMambaDataset.window_size self ->
  let bars := DataFrame.rows (CMambaDataset.data self) in
  let ws := CMambaDataset.window_size self in
  CMambaDataset.len self = Z.max 0 (Py.len bars - ws - 1) ∧
  ∀ i, 0 <= i < CMambaDataset.len self ->
    DataFrame.columns (CMambaDataset.window self i)
    = DataFrame.columns (CMambaDataset.data self) ∧
    DataFrame.len (CMambaDataset.window self i) = ws + 1 ∧
    ∀ k, 0 <= k <= ws ->
      ∃ bar, bars !! Z.to_nat (i + k) = Some bar ∧
             DataFrame.rows (CMambaDataset.window self i) !! Z.to_nat k = Some bar.
Proof.
  intros Hws bars ws. split; [reflexivity|].
  intros i [Hi Hlt].
  unfold CMambaDataset.len, DataFrame.len in Hlt. fold bars ws in Hlt.
  assert (Hfit : i + (ws + 1) <= Py.len bars) by lia.
  assert (Hw : DataFrame.rows (CMambaDataset.window self i)
               = take (Z.to_nat (ws + 1)) (drop (Z.to_nat i) bars)).
  { unfold CMambaDataset.window, DataFrame.iloc_slice; simpl.
    fold bars ws. replace (i + ws + 1) with (i + (ws + 1)) by lia.
    apply slice_window; lia. }
  split; [reflexivity|]. split.
  - unfold DataFrame.len, Py.len. rewrite Hw, length_take, length_drop.
    unfold Py.len in Hfit. lia.
  - intros k [Hk0 Hk].
    assert (Hin : (Z.to_nat (i + k) < length bars)%nat)
      by (unfold Py.len in Hfit; lia).
    destruct (lookup_lt_is_Some_2 _ _ Hin) as [bar Hbar].
    exists bar. split; [exact Hbar|].
    rewrite Hw, lookup_take_lt by lia. rewrite lookup_drop.
    replace (Z.to_nat i + Z.to_nat k)%nat with (Z.to_nat (i + k)) by lia.
    exact Hbar.
Qed.

(** The example of the specification: six bars and [window_size = 3] give
    two windows, bars 0..3 and bars 1..4. *)
Example six_bars_windows :
  CMambaDataset.len six_dataset = 2 ∧
  DataFrame.rows (CMambaDataset.window six_dataset 0)
  = bar_row <$> [bar_at 0 100; bar_at 60 101; bar_at 120 0; bar_at 180 (201 # 2)] ∧
  DataFrame.rows (CMambaDataset.window six_dataset 1)
  = bar_row <$> [bar_at 60 101; bar_at 120 0; bar_at 180 (201 # 2); bar_at 240 99].
Proof. repeat split; vm_compute; reflexivity. Qed.

(** In regression mode [__getitem__] returns what the transform returns for
    that window. *)
Lemma getitem_regression {T : Type}
    (call : T -> DataFrame.t -> T * result Sample)
    (self : CMambaDataset.t T) (i : Z) :
  String.eqb (CMambaDataset.task_type self) "classification" = false ->
  CMambaDataset.getitem call self i
  = (CMambaDataset.set_transform
       (call (CMambaDataset.transform self) (CMambaDataset.window self i)).1 self,
     (call (CMambaDataset.transform self) (CMambaDataset.window self i)).2).
Proof.
  intros Htask. unfold CMambaDataset.getitem.
  destruct (call _ _) as [tr [sample|e]]; simpl; [rewrite Htask|]; reflexivity.
Qed.

(** C1 on the six bars with [window_size = 3]. *)
Lemma C1_window_sampler_witness :
  0 <= CMambaDataset.window_size six_dataset ∧
  CMambaDataset.len six_dataset = 2 ∧
  DataFrame.len (CMambaDataset.window six_dataset 0) = 4 ∧
  DataFrame.len (CMambaDataset.window six_dataset 1) = 4.
Proof.
  assert (H : 0 <= CMambaDataset.window_size six_dataset) by (simpl; lia).
  split; [exact H|].
  destruct (C1_window_sampler six_dataset H) as [Hlen Hwin].
  assert (L : CMambaDataset.len six_dataset = 2) by reflexivity.
  split; [exact L|].
  split; [apply (Hwin 0) | apply (Hwin 1)]; rewrite L; lia.
Defined.

(** ** C5: the aggregate of one bucket *)

Lemma py_max_spec (a b : Q) :
  (Py.max a b = a ∨ Py.max a b = b) ∧ (a <= Py.max a b)%Q ∧ (b <= Py.max a b)%Q.
Proof.
  unfold Py.max. destruct (Qlt_le_dec a b); repeat split; auto; lra.
Qed.

Lemma py_min_spec (a b : Q) :
  (Py.min a b = a ∨ Py.min a b = b) ∧ (Py.min a b <= a)%Q ∧ (Py.min a b <= b)%Q.
Proof.
  unfold Py.min. destruct (Qlt_le_dec b a); repeat split; auto; lra.
Qed.

(** The loop of [merge_data], from any initial state. *)
Lemma merge_loop (l : list Bar) (high low close vol : Q) (count : Z) :
  ∃ high' low' close' vol' count',
    fold_left DataConverter.merge_step l (high, low, close, vol, count)
    = (high', low', close', vol', count') ∧
    is_max_of high' (high :: (High <$> l)) ∧
    is_min_of low' (low :: (Low <$> l)) ∧
    close' = default close (Close <$> last l) ∧
    (vol' == vol + Qsum (Volume <$> l))%Q.
Proof.
  revert high low close vol count.
  induction l as [|r l IH]; intros high low close vol count; simpl.
  - exists high, low, close, vol, count. split; [reflexivity|].
    unfold is_max_of, is_min_of. repeat split.
    + left.
    + intros y ->%list_elem_of_singleton. lra.
    + left.
    + intros y ->%list_elem_of_singleton. lra.
    + lra.
  - destruct (IH (Py.max high (High r)) (Py.min low (Low r)) (Close r)
                (vol + Volume r)%Q (count + 1))
      as (h' & l' & c' & v' & n' & Hfold & [Hhin Hhub] & [Hlin Hllb] & Hc & Hv).
    exists h', l', c', v', n'. split; [exact Hfold|].
    destruct (py_max_spec high (High r)) as (Hmx & Hmx1 & Hmx2).
    destruct (py_min_spec low (Low r)) as (Hmn & Hmn1 & Hmn2).
    unfold is_max_of, is_min_of. repeat split.
    + apply elem_of_cons in Hhin as [E | Hhin].
      * rewrite E. destruct Hmx as [-> | ->]; [left | right; left].
      * right; right. exact Hhin.
    + intros y Hy.
      assert (Hm : (Py.max high (High r) <= h')%Q) by (apply Hhub; left).
      apply elem_of_cons in Hy as [-> | Hy]; [lra|].
      apply elem_of_cons in Hy as [-> | Hy]; [lra|].
      apply Hhub. right. exact Hy.
    + apply elem_of_cons in Hlin as [E | Hlin].
      * rewrite E. destruct Hmn as [-> | ->]; [left | right; left].
      * right; right. exact Hlin.
    + intros y Hy.
      assert (Hm : (l' <= Py.min low (Low r))%Q) by (apply Hllb; left).
      apply elem_of_cons in Hy as [-> | Hy]; [lra|].
      apply elem_of_cons in Hy as [-> | Hy]; [lra|].
      apply Hllb. right. exact Hy.
    + rewrite Hc. destruct l as [|r2 l2]; [reflexivity|].
      rewrite last_cons_cons.
      destruct (last (r2 :: l2)) eqn:Hlast; [reflexivity|].
      apply last_None in Hlast. discriminate.
    + rewrite Hv. change (list_fmap Bar Q Volume l) with (Volume <$> l).
      lra.
Qed.

Lemma merge_data_None (data : list Bar) (start jump : Z) :
  DataConverter.merge_data data start jump = None <-> bucket data start jump = [].
Proof.
  unfold DataConverter.merge_data, bucket.
  destruct (DataConverter.filter_lt _ _) as [|first rest] eqn:E.
  - split; reflexivity.
  - split; [|discriminate].
    simpl.
    destruct (fold_left _ _ _) as [[[[h l] c] v] n]. discriminate.
Qed.

(** C5.  For a non-empty bucket, [merge_data] returns the open of the first
    record, the close of the last record, a largest high, a smallest low
    and the sum of the volumes of the records of the bucket. *)
Theorem C5_merge_data (data : list Bar) (start jump : Z) :
  bucket data start jump <> [] ->
  ∃ first final high low open close vol,
    head (bucket data start jump) = Some first ∧
    last (bucket data start jump) = Some final ∧
    DataConverter.merge_data data start jump = Some (high, low, open, close, vol) ∧
    open = Open first ∧
    close = Close final ∧
    is_max_of high (High <$> bucket data start jump) ∧
    is_min_of low (Low <$> bucket data start jump) ∧
    (vol == Qsum (Volume <$> bucket data start jump))%Q.
Proof.
  intros Hne. unfold DataConverter.merge_data.
  fold (bucket data start jump).
  destruct (bucket data start jump) as [|first rest] eqn:E; [congruence|].
  destruct (merge_loop (first :: rest) (High first) (Low first) (Close first) 0 1)
    as (h' & l' & c' & v' & n' & Hfold & [Hhin Hhub] & [Hlin Hllb] & Hc & Hv).
  destruct (last (first :: rest)) as [final|] eqn:Hlast.
  2:{ apply last_None in Hlast. discriminate. }
  exists first, final, h', l', (Open first), c', v'.
  unfold DataConverter.get_row_values. cbv iota beta. rewrite Hfold.
  repeat split.
  - exact Hc.
  - apply elem_of_cons in Hhin as [-> | Hhin]; [left | exact Hhin].
  - intros y Hy. apply Hhub. right. exact Hy.
  - apply elem_of_cons in Hlin as [-> | Hlin]; [left | exact Hlin].
  - intros y Hy. apply Hllb. right. exact Hy.
  - rewrite Hv. lra.
Qed.

(** The example of the specification: records with [(high, low)] equal to
    [(10, 8)] and [(12, 7)] merge into [high = 12], [low = 7]; the open is
    the first open, the close the last close, the volume the sum. *)
Example merge_two_records :
  DataConverter.merge_data two_records 0 60 = Some (12, 7, 9, 11, 0 + 3 + 4)%Q.
Proof. reflexivity. Qed.

(** C5 on the two records of the example. *)
Lemma C5_merge_data_witness :
  bucket two_records 0 60 <> [] ∧
  ∃ high low open close vol,
    DataConverter.merge_data two_records 0 60 = Some (high, low, open, close, vol) ∧
    is_max_of high [10; 12]%Q ∧ is_min_of low [8; 7]%Q ∧ (vol == 7)%Q.
Proof.
  assert (H : bucket two_records 0 60 <> []) by (vm_compute; discriminate).
  split; [exact H|].
  destruct (C5_merge_data two_records 0 60 H)
    as (first & final & high & low & open & close & vol
        & _ & _ & Hm & _ & _ & Hhi & Hlo & Hv).
  exists high, low, open, close, vol.
  split; [exact Hm|]. split; [exact Hhi|]. split; [exact Hlo|].
  rewrite Hv. vm_compute. reflexivity.
Defined.

(** ** C4: the buckets of the aggregator *)

Lemma range_items_elem (n : nat) (start step x : Z) :
  x ∈ Py.range_items n start step
  <-> ∃ k, 0 <= k < Z.of_nat n ∧ x = start + k * step.
Proof.
  revert start. induction n as [|n IH]; intros start; simpl.
  - split; [intros H; inversion H | intros (k & Hk & _); lia].
  - rewrite elem_of_cons, IH. split.
    + intros [-> | (k & Hk & ->)].
      * exists 0. lia.
      * exists (k + 1). lia.
    + intros (k & Hk & ->).
      destruct (decide (k = 0)) as [-> | Hne]; [left; lia|].
      right. exists (k - 1). lia.
Qed.

Lemma range_items_sorted (n : nat) (start step : Z) :
  0 < step -> StronglySorted Z.lt (Py.range_items n start step).
Proof.
  intros Hstep. revert start.
  induction n as [|n IH]; intros start; simpl; constructor.
  - apply IH.
  - apply Forall_forall. intros x (k & Hk & ->)%range_items_elem. nia.
Qed.

Lemma range_len_pos (start stop step k : Z) :
  0 < step ->
  0 <= k < Py.range_len start stop step <-> 0 <= k ∧ start + k * step < stop.
Proof.
  intros Hstep. unfold Py.range_len.
  destruct (Z.ltb_spec 0 step); [|lia].
  destruct (Z.ltb_spec start stop).
  - pose proof (Z.div_mod (stop - start - 1) step ltac:(lia)) as Hdm.
    pose proof (Z.mod_pos_bound (stop - start - 1) step Hstep) as Hmod.
    split; intros Hk; nia.
  - split; intros Hk; nia.
Qed.

(** The bucket starts [range(start, stop, step)] visits, for a positive
    step. *)
Lemma range_elem (start stop step : Z) :
  0 < step ->
  ∃ starts, Py.range start stop step = Ok starts ∧
    StronglySorted Z.lt starts ∧
    ∀ x, x ∈ starts <-> ∃ k, 0 <= k ∧ x = start + k * step ∧ x < stop.
Proof.
  intros Hstep. unfold Py.range.
  destruct (Z.eqb_spec step 0); [lia|].
  eexists. split; [reflexivity|]. split; [apply range_items_sorted, Hstep|].
  intros x. rewrite range_items_elem. split.
  - intros (k & Hk & ->). exists k.
    assert (0 <= k < Py.range_len start stop step) as Hk'.
    { destruct (Z.le_gt_cases 0 (Py.range_len start stop step)); lia. }
    apply range_len_pos in Hk'; [|exact Hstep]. lia.
  - intros (k & Hk0 & -> & Hlt). exists k. split; [|reflexivity].
    assert (0 <= k < Py.range_len start stop step) as Hk'
      by (apply range_len_pos; [exact Hstep | lia]).
    lia.
Qed.

Lemma range_items_length (n : nat) (start step : Z) :
  length (Py.range_items n start step) = n.
Proof.
  revert start. induction n as [|n IH]; intros start; simpl; [|rewrite IH]; reflexivity.
Qed.

Lemma range_items_lookup (n k : nat) (start step : Z) :
  (k < n)%nat -> Py.range_items n start step !! k = Some (start + Z.of_nat k * step).
Proof.
  revert k start. induction n as [|n IH]; intros k start Hk; [lia|].
  destruct k as [|k].
  - simpl. f_equal. change (Z.of_nat 0) with 0. ring.
  - change (Py.range_items (S n) start step !! S k)
      with (Py.range_items n (start + step) step !! k).
    rewrite IH by lia. f_equal. rewrite Nat2Z.inj_succ. ring.
Qed.

Lemma range_to_length (n : Z) : Py.len (Py.range_to n) = Z.max 0 n.
Proof.
  unfold Py.range_to, Py.len. rewrite range_items_length. unfold Py.range_len.
  change (0 <? 1) with true. cbv iota.
  destruct (Z.ltb_spec 0 n).
  - rewrite Z.div_1_r. lia.
  - lia.
Qed.

Lemma range_to_lookup (n i : Z) :
  0 <= i < n -> Py.range_to n !! Z.to_nat i = Some i.
Proof.
  intros Hi. unfold Py.range_to.
  pose proof (range_to_length n) as Hlen.
  unfold Py.range_to, Py.len in Hlen. rewrite range_items_length in Hlen.
  rewrite range_items_lookup by lia. f_equal. lia.
Qed.

Lemma range_to_elem (n i : Z) : i ∈ Py.range_to n -> 0 <= i < n.
Proof.
  unfold Py.range_to. intros (k & Hk & ->)%range_items_elem.
  pose proof (range_to_length n) as Hlen.
  unfold Py.range_to, Py.len in Hlen. rewrite range_items_length in Hlen.
  lia.
Qed.

Lemma bucket_bar_timestamp (data : list Bar) (jump i : Z) (b : Bar) :
  bucket_bar data jump i = Some b -> Timestamp b = i.
Proof.
  unfold bucket_bar.
  destruct (DataConverter.merge_data data i jump) as [[[[[h l] o] c] v]|];
    [|discriminate].
  intros [= <-]. reflexivity.
Qed.

Lemma bucket_bar_is_Some (data : list Bar) (jump i : Z) :
  is_Some (bucket_bar data jump i) <-> bucket data i jump <> [].
Proof.
  rewrite <- merge_data_None. unfold bucket_bar.
  destruct (DataConverter.merge_data data i jump) as [[[[[h l] o] c] v]|].
  - split; [discriminate | eauto].
  - split; [intros [b Hb]; discriminate | congruence].
Qed.

(** The loop of [process_data] keeps the bars of the non-empty buckets, in
    the order of the bucket starts. *)
Lemma process_loop (self : DataConverter.t) (data : list Bar)
    (starts : list Z) (new_df : list Bar) :
  fold_left (DataConverter.process_step self data) starts new_df
  = new_df ++ omap (bucket_bar data (DataConverter.jumps self)) starts.
Proof.
  revert new_df. induction starts as [|i starts IH]; intros new_df; simpl.
  - rewrite app_nil_r. reflexivity.
  - rewrite IH. unfold DataConverter.process_step, bucket_bar.
    destruct (DataConverter.merge_data data i _) as [[[[[h l] o] c] v]|].
    + rewrite <- app_assoc. reflexivity.
    + reflexivity.
Qed.

Lemma omap_bucket_bar_sorted (data : list Bar) (jump : Z) (starts : list Z) :
  StronglySorted Z.lt starts ->
  StronglySorted Z.lt (Timestamp <$> omap (bucket_bar data jump) starts).
Proof.
  induction 1 as [|i starts Hs IH Hall]; simpl; [constructor|].
  destruct (bucket_bar data jump i) as [b|] eqn:Hb; [|exact IH].
  rewrite fmap_cons. constructor; [exact IH|].
  apply bucket_bar_timestamp in Hb. rewrite Hb.
  apply Forall_forall. intros x Hx.
  apply list_elem_of_fmap in Hx as (b' & -> & Hb').
  apply list_elem_of_omap in Hb' as (j & Hj & Hbj).
  apply bucket_bar_timestamp in Hbj. rewrite Hbj.
  rewrite Forall_forall in Hall. apply Hall, Hj.
Qed.

(** C4, as the code has it.  For a positive bucket width the aggregator
    succeeds, and its output holds exactly one bar for every non-empty
    bucket whose start is [start + k * width] for some [k >= 0] and lies
    below [stop - 3600]; the bars come in ascending order of their bucket
    starts, each holds the aggregate of its bucket, and an empty bucket
    gives no bar. *)
Theorem C4_aggregator_buckets (self : DataConverter.t) (raw : list Bar)
    (start stop : Z) :
  0 < DataConverter.jumps self ->
  let width := DataConverter.jumps self in
  let data := (DataConverter.load_data raw start stop).1.1 in
  ∃ bars,
    DataConverter.process_data self (DataConverter.load_data raw start stop)
    = Ok bars ∧
    StronglySorted Z.lt (Timestamp <$> bars) ∧
    (∀ b, b ∈ bars -> bucket_bar data width (Timestamp b) = Some b) ∧
    ∀ i, (∃ b, b ∈ bars ∧ Timestamp b = i)
         <-> (∃ k, 0 <= k ∧ i = start + k * width ∧ i < stop - 3600)
             ∧ bucket data i width <> [].
Proof.
  intros Hw width data.
  destruct (range_elem start (stop - 3600) width Hw)
    as (starts & Hrange & Hsorted & Hstarts).
  exists (omap (bucket_bar data width) starts).
  split.
  { unfold DataConverter.process_data, DataConverter.load_data.
    fold width. rewrite Hrange. simpl. rewrite process_loop. reflexivity. }
  split; [apply omap_bucket_bar_sorted, Hsorted|].
  split.
  { intros b (i & Hi & Hb)%list_elem_of_omap.
    rewrite (bucket_bar_timestamp _ _ _ _ Hb). exact Hb. }
  intros i. split.
  - intros (b & (j & Hj & Hb)%list_elem_of_omap & <-).
    rewrite (bucket_bar_timestamp _ _ _ _ Hb).
    split; [apply Hstarts, Hj|].
    apply bucket_bar_is_Some. eauto.
  - intros [Hi Hne].
    apply bucket_bar_is_Some in Hne as [b Hb].
    exists b. split; [|eapply bucket_bar_timestamp, Hb].
    apply list_elem_of_omap. exists i. split; [apply Hstarts, Hi | exact Hb].
Qed.

(** C4 on the six bars with one-minute buckets over [[0, 3900)]: the bars
    of the buckets that start below 300. *)
Lemma C4_aggregator_buckets_witness :
  0 < DataConverter.jumps (DataConverter.init 1 None None None None) ∧
  ∃ bars,
    DataConverter.process_data (DataConverter.init 1 None None None None)
      (DataConverter.load_data six_bars 0 3900) = Ok bars ∧
    Timestamp <$> bars = [0; 60; 120; 180; 240].
Proof.
  assert (H : 0 < DataConverter.jumps (DataConverter.init 1 None None None None))
    by (simpl; lia).
  split; [exact H|].
  destruct (C4_aggregator_buckets _ six_bars 0 3900 H) as (bars & Hp & _).
  exists bars. split; [exact Hp|].
  vm_compute in Hp. injection Hp as <-. reflexivity.
Defined.

(** C4 as stated fails: with hourly buckets over the one-day span
    [[0, 86400)], the bucket that starts at 82800 lies in the span and
    holds a record, yet the output has no bar for it. *)
Lemma C4_last_hour_counterexample :
  ¬ (∀ (self : DataConverter.t) (raw : list Bar) (start stop : Z),
       0 < DataConverter.jumps self ->
       ∃ bars,
         DataConverter.process_data self (DataConverter.load_data raw start stop)
         = Ok bars ∧
         ∀ i, (∃ k, 0 <= k ∧ i = start + k * DataConverter.jumps self ∧ i < stop) ->
              bucket (DataConverter.load_data raw start stop).1.1 i
                     (DataConverter.jumps self) <> [] ->
              ∃ b, b ∈ bars ∧ Timestamp b = i).
Proof.
  intros Hclaim.
  destruct (Hclaim (DataConverter.init 60 None None None None)
              [bar_at 82800 100] 0 86400 ltac:(simpl; lia))
    as (bars & Hp & Hall).
  vm_compute in Hp. injection Hp as <-.
  destruct (Hall 82800) as (b & Hb & _).
  - exists 23. simpl. lia.
  - vm_compute. discriminate.
  - inversion Hb.
Qed.

(** A zero bucket width is refused. *)
Lemma process_data_zero_width (self : DataConverter.t) (loaded : list Bar * Z * Z) :
  DataConverter.jumps self = 0 ->
  DataConverter.process_data self loaded = Raise ValueError.
Proof.
  intros H. destruct loaded as [[data start] stop].
  unfold DataConverter.process_data, Py.range. rewrite H. reflexivity.
Qed.

(** ** C6: the ratio split *)

Lemma slice_prefix {A} (l : list A) (n : Z) :
  0 <= n -> Py.slice None (Some n) l = take (Z.to_nat n) l.
Proof.
  intros Hn. unfold Py.slice, Py.clip.
  destruct (Z.ltb_spec n 0); [lia|].
  rewrite Z.sub_0_r. change (drop (Z.to_nat 0) l) with l.
  destruct (Z.le_gt_cases n (Py.len l)).
  - rewrite Z.min_l by lia. reflexivity.
  - rewrite Z.min_r by lia. unfold Py.len in *.
    rewrite !take_ge by lia. reflexivity.
Qed.

Lemma slice_middle {A} (l : list A) (a b : Z) :
  0 <= a -> 0 < b -> a + b <= Py.len l ->
  Py.slice (Some a) (Some (- b)) l
  = take (Z.to_nat (Py.len l - b - a)) (drop (Z.to_nat a) l).
Proof.
  intros Ha Hb Hlen. unfold Py.slice, Py.clip.
  destruct (Z.ltb_spec a 0); [lia|].
  destruct (Z.ltb_spec (- b) 0); [|lia].
  rewrite Z.min_l, Z.max_l by lia. do 2 f_equal. lia.
Qed.

Lemma slice_suffix {A} (l : list A) (b : Z) :
  0 < b -> b <= Py.len l ->
  Py.slice (Some (- b)) None l = drop (Z.to_nat (Py.len l - b)) l.
Proof.
  intros Hb Hlen. unfold Py.slice, Py.clip.
  destruct (Z.ltb_spec (- b) 0); [|lia].
  rewrite Z.max_l by lia.
  replace (- b + Py.len l) with (Py.len l - b) by lia.
  apply take_ge. rewrite length_drop. unfold Py.len in *. lia.
Qed.

(** With at least one test row and no more rows asked for than there are,
    the three position lists partition the shuffled positions and each is
    ascending. *)
Lemma ratio_positions_partition (n_train n_test : Z) (total : list Z) :
  0 <= n_train -> 0 < n_test -> n_train + n_test <= Py.len total ->
  ∃ train val test,
    DataConverter.ratio_positions n_train n_test total = (train, val, test) ∧
    train ++ val ++ test ≡ₚ total ∧
    Sorted Z.le train ∧ Sorted Z.le val ∧ Sorted Z.le test ∧
    Py.len train = n_train ∧ Py.len test = n_test.
Proof.
  intros Htr Hte Hlen. unfold DataConverter.ratio_positions.
  do 3 eexists. split; [reflexivity|].
  unfold DataConverter.sorted.
  rewrite slice_prefix, slice_middle, slice_suffix by lia.
  split.
  { rewrite !merge_sort_Permutation.
    replace (Z.to_nat (Py.len total - n_test))
      with (Z.to_nat n_train + Z.to_nat (Py.len total - n_test - n_train))%nat
      by lia.
    rewrite <- drop_drop, take_drop, take_drop. reflexivity. }
  repeat split; try apply (Sorted_merge_sort Z.le).
  - unfold Py.len in *. rewrite merge_sort_Permutation, length_take. lia.
  - unfold Py.len in *. rewrite merge_sort_Permutation, length_drop. lia.
Qed.

(** With no test row ([n_test = 0]) the slices [total[n_train:-0]] and
    [total[-0:]] are the empty list and the whole list. *)
Lemma ratio_positions_zero_test (n_train : Z) (total : list Z) :
  0 <= n_train ->
  DataConverter.ratio_positions n_train 0 total
  = (DataConverter.sorted (take (Z.to_nat n_train) total), [],
     DataConverter.sorted total).
Proof.
  intros Htr. unfold DataConverter.ratio_positions.
  rewrite slice_prefix by lia.
  change (- 0) with 0.
  assert (Hval : Py.slice (Some n_train) (Some 0) total = []).
  { unfold Py.slice, Py.clip.
    destruct (Z.ltb_spec n_train 0); [lia|].
    change (0 <? 0) with false. cbv iota.
    replace (Z.to_nat (Z.min 0 (Py.len total) - Z.min n_train (Py.len total)))
      with 0%nat by (unfold Py.len; lia).
    reflexivity. }
  assert (Htest : Py.slice (Some 0) None total = total).
  { unfold Py.slice, Py.clip.
    change (0 <? 0) with false. cbv iota.
    rewrite (Z.min_l 0) by (unfold Py.len; lia).
    change (drop (Z.to_nat 0) total) with total.
    apply take_ge. unfold Py.len. lia. }
  rewrite Hval, Htest. reflexivity.
Qed.

Lemma index_position {A} (l : list A) (j : Z) :
  0 <= j < Py.len l -> ∃ x, Py.index l j = Ok x ∧ l !! Z.to_nat j = Some x.
Proof.
  intros Hj. unfold Py.index.
  assert (E : (j <? 0) = false) by lia.
  cbv zeta. rewrite E. cbv iota. rewrite E.
  destruct (lookup_lt_is_Some_2 l (Z.to_nat j)) as [x Hx];
    [unfold Py.len in Hj; lia|].
  exists x. rewrite Hx. split; reflexivity.
Qed.

(** [data.iloc[idx]] succeeds on valid positions and returns as many rows
    as there are positions. *)
Lemma iloc_list_length {A} (data : list A) (idx : list Z) :
  Forall (fun i => 0 <= i < Py.len data) idx ->
  ∃ picked, DataConverter.iloc_list data idx = Ok picked ∧
            length picked = length idx.
Proof.
  unfold DataConverter.iloc_list.
  induction 1 as [|i idx Hi _ (picked & Hp & Hl)].
  - exists []. split; reflexivity.
  - destruct (index_position data i Hi) as (x & Hx & _).
    exists (x :: picked). split; [|simpl; congruence].
    cbn [mapM]. rewrite Hx, bind_ok.
    unfold DataConverter.iloc_list in Hp. rewrite Hp, bind_ok. reflexivity.
Qed.

Lemma range_to_bounds (n : Z) : Forall (fun i => 0 <= i < n) (Py.range_to n).
Proof. apply Forall_forall. intros i. apply range_to_elem. Qed.

(** With at least one test row, no more rows asked for than there are, and
    a shuffle that permutes, the ratio split succeeds and the sizes of the
    three subsets sum to the length of the table. *)
Lemma split_ratio_sizes (self : DataConverter.t) (shuffle : list Z -> list Z)
    (data : list Bar) (r tr te : Q) :
  DataConverter.config_train_ratio self = Some r ->
  DataConverter.train_ratio self = Some tr ->
  DataConverter.test_ratio self = Some te ->
  (∀ l, shuffle l ≡ₚ l) ->
  0 <= Py.int (tr * inject_Z (Py.len data)) ->
  0 < Py.int (te * inject_Z (Py.len data)) ->
  Py.int (tr * inject_Z (Py.len data)) + Py.int (te * inject_Z (Py.len data))
  <= Py.len data ->
  ∃ train val test,
    DataConverter.split self shuffle data = Ok (train, val, test) ∧
    (length train + length val + length test)%nat = length data.
Proof.
  intros Hcfg Htr Hte Hperm Hn1 Hn2 Hsum.
  set (n_train := Py.int (tr * inject_Z (Py.len data))) in *.
  set (n_test := Py.int (te * inject_Z (Py.len data))) in *.
  set (total := shuffle (Py.range_to (Py.len data))).
  assert (Hlen : Py.len total = Py.len data).
  { unfold total, Py.len. rewrite (Hperm _).
    pose proof (range_to_length (Z.of_nat (length data))) as Hr.
    unfold Py.len in Hr. lia. }
  destruct (ratio_positions_partition n_train n_test total Hn1 Hn2)
    as (ptrain & pval & ptest & Hpos & Hpart & _); [lia|].
  assert (Hall : Forall (fun i => 0 <= i < Py.len data) (ptrain ++ pval ++ ptest)).
  { rewrite Hpart. unfold total. rewrite (Hperm _). apply range_to_bounds. }
  apply Forall_app in Hall as [H1 Hall]. apply Forall_app in Hall as [H2 H3].
  destruct (iloc_list_length data ptrain H1) as (train & Et & Lt).
  destruct (iloc_list_length data pval H2) as (val & Ev & Lv).
  destruct (iloc_list_length data ptest H3) as (test & Ee & Le).
  exists train, val, test. split.
  - unfold DataConverter.split, DataConverter.attribute.
    rewrite Hcfg, Htr, Hte. rewrite !bind_ok.
    fold n_train n_test total. rewrite Hpos.
    rewrite Et, bind_ok, Ev, bind_ok, Ee, bind_ok. reflexivity.
  - apply Permutation_length in Hpart. rewrite !length_app in Hpart.
    unfold Py.len in Hlen. lia.
Qed.

(** C6, at an input where the code departs from it: four rows with
    [train_ratio = 0.7] and [test_ratio = 0.2] give [n_test = 0]; the test
    subset is then the whole table and the validation subset is empty, so
    the subsets overlap and their sizes sum to six. *)
Theorem C6_split_zero_test_rows :
  ∃ train val test,
    DataConverter.split ratio_converter id four_bars = Ok (train, val, test) ∧
    train = take 2 four_bars ∧ val = [] ∧ test = four_bars ∧
    (∃ b, b ∈ train ∧ b ∈ test) ∧
    (length train + length val + length test)%nat <> length four_bars.
Proof.
  exists (take 2 four_bars), [], four_bars.
  split; [vm_compute; reflexivity|].
  repeat split.
  - exists (bar_at 0 100). split; [left | left].
  - simpl. lia.
Qed.

(** The constructor does not assign the attributes [split] reads. *)
Lemma split_after_init (config_jumps : Z) (ratio : Q)
    (shuffle : list Z -> list Z) (data : list Bar) :
  DataConverter.split
    (DataConverter.init config_jumps (Some ratio) None None None) shuffle data
  = Raise AttributeError.
Proof. reflexivity. Qed.

(** ** C7: normalisation and its inverse *)

Lemma truediv_nonzero (a b : Q) :
  ¬ (b == 0)%Q -> Py.truediv a b = Ok (a / b)%Q.
Proof.
  intros Hb. unfold Py.truediv.
  destruct (Qeq_bool_reflect b 0); [contradiction | reflexivity].
Qed.

(** C7.  With factors [min < max] for the target column, the transform
    normalises a target [v] to [(v - min) / (max - min)], and the module
    whose coefficients were set from the same factors maps that value back
    to [v]; with [max == min] the transform returns [v] itself and divides
    nothing. *)
Theorem C7_normalize_denormalize (tr : ClassificationTransform.t)
    (bm : BaseModule.t) (fs : Factors) (f : gmap string Q)
    (mn mx v v_old : Q) :
  ClassificationTransform.factors tr = Some fs ->
  fs !! ClassificationTransform.y_key tr = Some f ->
  f !! "min"%string = Some mn ->
  f !! "max"%string = Some mx ->
  BaseModule.y_key bm = ClassificationTransform.y_key tr ->
  ((mn < mx)%Q ->
   ∃ y y_old bm' z z_old,
     ClassificationTransform.normalize_target tr v v_old = Ok (y, y_old) ∧
     (y == (v - mn) / (mx - mn))%Q ∧
     (y_old == (v_old - mn) / (mx - mn))%Q ∧
     BaseModule.set_normalization_coeffs bm fs = Ok bm' ∧
     BaseModule.denormalize bm' (Torch.scalar y) None
     = BaseModule.One (Torch.scalar z) ∧
     BaseModule.denormalize bm' (Torch.scalar y_old) None
     = BaseModule.One (Torch.scalar z_old) ∧
     (z == v)%Q ∧ (z_old == v_old)%Q) ∧
  ((mx == mn)%Q ->
   ClassificationTransform.normalize_target tr v v_old = Ok (v, v_old)).
Proof.
  intros Hfs Hf Hmn Hmx Hkey. split.
  - intros Hlt.
    assert (Hd : ¬ (mx - mn == 0)%Q) by lra.
    exists ((v - mn) / (mx - mn))%Q, ((v_old - mn) / (mx - mn))%Q,
      (BaseModule.Make (BaseModule.y_key bm) (BaseModule.threshold bm)
         (Some ((mx - mn)%Q, mn))),
      ((v - mn) / (mx - mn) * (mx - mn) + mn)%Q,
      ((v_old - mn) / (mx - mn) * (mx - mn) + mn)%Q.
    split.
    { unfold ClassificationTransform.normalize_target.
      rewrite Hfs, Hf. simpl default. rewrite Hmn, Hmx. simpl default.
      unfold Qgt_bool. destruct (Qlt_bool_reflect mn mx); [|contradiction].
      rewrite !truediv_nonzero by exact Hd. reflexivity. }
    split; [reflexivity|]. split; [reflexivity|].
    split.
    { unfold BaseModule.set_normalization_coeffs.
      rewrite Hkey, Hf. simpl. rewrite Hmx, Hmn. reflexivity. }
    split; [reflexivity|]. split; [reflexivity|].
    split; field; exact Hd.
  - intros Heq.
    unfold ClassificationTransform.normalize_target.
    rewrite Hfs, Hf. simpl default. rewrite Hmn, Hmx. simpl default.
    unfold Qgt_bool. destruct (Qlt_bool_reflect mn mx); [lra | reflexivity].
Qed.

(** C7 with [min = 50], [max = 150] and the targets 120 and 100. *)
Lemma C7_normalize_denormalize_witness :
  ∃ y y_old bm' z z_old,
    ClassificationTransform.normalize_target factor_transform 120 100
    = Ok (y, y_old) ∧
    BaseModule.set_normalization_coeffs module_1e3 close_factors = Ok bm' ∧
    BaseModule.denormalize bm' (Torch.scalar y) None
    = BaseModule.One (Torch.scalar z) ∧
    BaseModule.denormalize bm' (Torch.scalar y_old) None
    = BaseModule.One (Torch.scalar z_old) ∧
    (z == 120)%Q ∧ (z_old == 100)%Q.
Proof.
  destruct (C7_normalize_denormalize factor_transform module_1e3 close_factors
              (<["min"%string := 50%Q]> {[ "max"%string := 150%Q ]})
              50 150 120 100
              eq_refl eq_refl eq_refl eq_refl eq_refl) as [Hlt _].
  destruct Hlt as (y & y_old & bm' & z & z_old & Hn & _ & _ & Hs & Hd & Hd' & Hz & Hz').
  { reflexivity. }
  exists y, y_old, bm', z, z_old. repeat split; assumption.
Defined.

(** A feature column with constant factors passes through unchanged. *)
Lemma normalize_values_constant (tr : ClassificationTransform.t) (fs : Factors)
    (f : gmap string Q) (key : string) (mn mx : Q) (values : list Q) :
  ClassificationTransform.factors tr = Some fs ->
  fs !! key = Some f ->
  f !! "min"%string = Some mn ->
  f !! "max"%string = Some mx ->
  (mx == mn)%Q ->
  values <> [] ->
  ClassificationTransform.normalize_values tr key values = Ok values.
Proof.
  intros Hfs Hf Hmn Hmx Heq Hne.
  unfold ClassificationTransform.normalize_values.
  rewrite Hfs, Hf. simpl default.
  destruct values as [|x xs]; [congruence|]. simpl.
  rewrite Hmn, Hmx. simpl.
  unfold Qgt_bool. destruct (Qlt_bool_reflect mn mx); [lra | reflexivity].
Qed.

(** ** C8: the return when the previous target is zero *)


Lemma guarded_division (current previous : Q) :
  (if Qne_bool previous 0
   then Py.truediv (current - previous) previous else Ok 0%Q)
  = Ok (return_of current previous).
Proof.
  unfold Qne_bool, return_of, Py.truediv.
  destruct (Qeq_bool previous 0); reflexivity.
Qed.


Section Returns_loop.
Context {T : Type}.
Variables (self : CMambaDataset.t T) (prices : list Q).



End Returns_loop.

Lemma col_length (key : string) (df : DataFrame.t) (prices : list Q) :
  DataFrame.col key df = Ok prices -> Py.len prices = DataFrame.len df.
Proof.
  unfold DataFrame.col, DataFrame.get, DataFrame.len, Py.len.
  destruct (decide _); [|discriminate].
  destruct (mapM _ _) as [c|] eqn:E; [|discriminate].
  intros [= <-]. apply length_mapM in E. congruence.
Qed.


Lemma add_classification_returns (self : DataTransform.t) (output : Sample)
    (c p : Q) :
  output !! DataTransform.y_key self = Some (VTensor (Torch.scalar c)) ->
  output !! (DataTransform.y_key self +:+ "_old") = Some (VTensor (Torch.scalar p)) ->
  DataTransform.add_classification self output
  = Ok (<["target_class"%string :=
            DataTransform.create_class_labels self
              (VTensor (Torch.scalar (return_of c p)))]>
        (<["returns"%string := VTensor (Torch.scalar (return_of c p))]> output)).
Proof.
  intros Hc Hp. unfold DataTransform.add_classification, dict_getitem.
  rewrite Hc, Hp. simpl.
  unfold Qne_bool, return_of.
  destruct (Qeq_bool p 0) eqn:E; simpl; [reflexivity|].
  unfold Torch.div; simpl. unfold Py.truediv. rewrite E. reflexivity.
Qed.

(** *** The loop of [DataTransform.__call__] *)

Lemma index_last_two {A} (pre : list A) (p c : A) :
  Py.index (pre ++ [p; c]) (-1) = Ok c ∧ Py.index (pre ++ [p; c]) (-2) = Ok p.
Proof.
  unfold Py.index, Py.len. rewrite length_app. simpl length.
  change (-1 <? 0) with true. change (-2 <? 0) with true. cbv iota zeta.
  split.
  - destruct (Z.ltb_spec (-1 + Z.of_nat (length pre + 2)) 0); [lia|].
    replace (Z.to_nat (-1 + Z.of_nat (length pre + 2))) with (length pre + 1)%nat
      by lia.
    rewrite lookup_app_r by lia.
    replace (length pre + 1 - length pre)%nat with 1%nat by lia. reflexivity.
  - destruct (Z.ltb_spec (-2 + Z.of_nat (length pre + 2)) 0); [lia|].
    replace (Z.to_nat (-2 + Z.of_nat (length pre + 2))) with (length pre + 0)%nat
      by lia.
    rewrite lookup_app_r by lia.
    replace (length pre + 0 - length pre)%nat with 0%nat by lia. reflexivity.
Qed.

Lemma slice_drop_last {A} (pre : list A) (p c : A) :
  Py.slice None (Some (-1)) (pre ++ [p; c]) = pre ++ [p].
Proof.
  unfold Py.slice, Py.clip, Py.len. rewrite length_app. simpl length.
  change (-1 <? 0) with true. cbv iota.
  rewrite Z.max_l by lia. change (drop (Z.to_nat 0) ?l) with l.
  replace (Z.to_nat (-1 + Z.of_nat (length pre + 2) - 0))
    with (length (pre ++ [p])) by (rewrite length_app; simpl; lia).
  replace (pre ++ [p; c]) with ((pre ++ [p]) ++ [c])
    by (rewrite <- app_assoc; reflexivity).
  apply take_app_length.
Qed.

(** One iteration on a column of at least two values stores the last value
    under the key and the value before it under [key_old]. *)
Lemma column_step_ok (window : DataFrame.t) (key : string) (col pre : list Q)
    (p c : Q) (output : Sample) (data_list : list (Torch.tensor Q)) :
  DataFrame.get key window = Some col ->
  scaled key col = pre ++ [p; c] ->
  ∃ data_list',
    DataTransform.column_step window (output, data_list) key
    = Ok (<[key +:+ "_old" := VTensor (Torch.scalar p)]>
          (<[key := VTensor (Torch.scalar c)]> output), data_list') ∧
    (data_list <> [] ∨ key ≠ "Timestamp_orig"%string -> data_list' <> []).
Proof.
  intros Hget Hcol. unfold DataTransform.column_step. rewrite Hget. simpl.
  assert (Hdata : (if String.eqb key "Volume"
                   then Torch.map (fun x => x / 1000000000)%Q (Torch.of_list col)
                   else Torch.of_list col)
                  = Torch.Tensor [Py.len col] (pre ++ [p; c])).
  { unfold scaled in Hcol. destruct (String.eqb key "Volume");
      unfold Torch.map, Torch.of_list; simpl; rewrite Hcol; reflexivity. }
  rewrite Hdata. unfold Torch.getitem. simpl.
  destruct (index_last_two pre p c) as [Hc Hp]. rewrite Hc, Hp. simpl.
  unfold Torch.slice, Torch.reshape_row, Torch.of_list. simpl.
  rewrite slice_drop_last.
  destruct (String.eqb_spec key "Timestamp_orig") as [-> | Hne].
  - eexists. split; [reflexivity|]. intros [H | H]; [exact H | congruence].
  - destruct (pre ++ [p]) as [|x xs] eqn:E; [destruct pre; discriminate|].
    simpl. eexists. split; [reflexivity|].
    intros _. destruct data_list; discriminate.
Qed.

Lemma string_length_app (s t : string) :
  String.length (s +:+ t) = (String.length s + String.length t)%nat.
Proof.
  induction s as [|a s IH]; [reflexivity|].
  change (String a s +:+ t) with (String a (s +:+ t)).
  simpl. rewrite IH. reflexivity.
Qed.

Lemma string_app_inj_r (s1 s2 t : string) : s1 +:+ t = s2 +:+ t -> s1 = s2.
Proof.
  revert s2. induction s1 as [|a s1 IH]; intros [|b s2] H.
  - reflexivity.
  - apply (f_equal String.length) in H.
    rewrite !string_length_app in H. simpl in H. lia.
  - apply (f_equal String.length) in H.
    rewrite !string_length_app in H. simpl in H. lia.
  - change (String a (s1 +:+ t) = String b (s2 +:+ t)) in H.
    injection H as -> H. f_equal. apply IH, H.
Qed.

Section Transform_loop.
Variables (window : DataFrame.t) (y : string) (p c : Q).
Hypothesis target_column :
  ∃ col pre, DataFrame.get y window = Some col ∧ scaled y col = pre ++ [p; c].

(** The loop over the keys stores the last two values of the target column
    when no other key collides with the two entries of the target. *)
Lemma loop_stores_targets (ks : list string) (output : Sample)
    (data_list : list (Torch.tensor Q)) :
  (∀ k, k ∈ ks -> two_values window k) ->
  (∀ k, k ∈ ks -> k +:+ "_old" ≠ y ∧ k ≠ y +:+ "_old") ->
  y ∈ ks ∨ stores_targets y p c output ->
  ∃ output' data_list',
    for_each (DataTransform.column_step window) ks (output, data_list)
    = Ok (output', data_list') ∧
    stores_targets y p c output' ∧
    (data_list <> [] ∨ (∃ k, k ∈ ks ∧ k ≠ "Timestamp_orig"%string) ->
     data_list' <> []).
Proof.
  revert output data_list.
  induction ks as [|k ks IH]; intros output data_list Hcols Hfree Hin.
  - destruct Hin as [Hin | Hst]; [inversion Hin|].
    exists output, data_list. split; [reflexivity|]. split; [exact Hst|].
    intros [H | (k & Hk & _)]; [exact H | inversion Hk].
  - destruct (Hfree k ltac:(left)) as [Hk1 Hk2].
    assert (Hstep : ∃ pk ck data_list1,
               DataTransform.column_step window (output, data_list) k
               = Ok (<[k +:+ "_old" := VTensor (Torch.scalar pk)]>
                     (<[k := VTensor (Torch.scalar ck)]> output), data_list1) ∧
               (data_list <> [] ∨ k ≠ "Timestamp_orig"%string -> data_list1 <> []) ∧
               (k = y -> pk = p ∧ ck = c)).
    { destruct (decide (k = y)) as [-> | Hne].
      - destruct target_column as (col & pre & Hget & Hcol).
        destruct (column_step_ok window y col pre p c output data_list Hget Hcol)
          as (dl1 & Hs & Hd).
        exists p, c, dl1. auto.
      - destruct (Hcols k ltac:(left)) as (col & pre & pk & ck & Hget & Hcol).
        destruct (column_step_ok window k col pre pk ck output data_list Hget Hcol)
          as (dl1 & Hs & Hd).
        exists pk, ck, dl1. split; [exact Hs|]. split; [exact Hd|]. congruence. }
    destruct Hstep as (pk & ck & dl1 & Hs & Hd & Hval).
    rewrite for_each_cons, Hs, bind_ok.
    destruct (IH (<[k +:+ "_old" := VTensor (Torch.scalar pk)]>
                  (<[k := VTensor (Torch.scalar ck)]> output)) dl1)
      as (output' & dl' & Hloop & Hst' & Hd').
    + intros k' Hk'. apply Hcols. right. exact Hk'.
    + intros k' Hk'. apply Hfree. right. exact Hk'.
    + destruct (decide (k = y)) as [-> | Hne].
      * right. destruct (Hval eq_refl) as [-> ->]. split.
        -- rewrite lookup_insert_ne by exact Hk1. apply lookup_insert_eq.
        -- apply lookup_insert_eq.
      * destruct Hin as [Hin | [Hst1 Hst2]].
        -- left. apply elem_of_cons in Hin as [-> | Hin]; [congruence | exact Hin].
        -- right. split.
           ++ rewrite !lookup_insert_ne by congruence. exact Hst1.
           ++ rewrite lookup_insert_ne
                by (intros E; apply string_app_inj_r in E; congruence).
              rewrite lookup_insert_ne by exact Hk2. exact Hst2.
    + exists output', dl'. split; [exact Hloop|]. split; [exact Hst'|].
      intros H. apply Hd'.
      destruct H as [H | (k' & Hk' & Hne')].
      * left. apply Hd. left. exact H.
      * apply elem_of_cons in Hk' as [-> | Hk'].
        -- left. apply Hd. right. exact Hne'.
        -- right. exists k'. auto.
Qed.

End Transform_loop.

Lemma old_not_features (y : string) : y +:+ "_old" ≠ "features"%string.
Proof.
  intros H. pose proof (f_equal String.length H) as L.
  rewrite string_length_app in L. simpl in L.
  destruct y as [|a1 [|a2 [|a3 [|a4 [|a5 y]]]]]; simpl in L; try lia.
  cbv [String.append] in H. discriminate H.
Qed.


(** [ClassificationTransform.__call__]: the [returns] of a sample is the
    return of the targets of the last two rows, after their
    normalisation. *)
Lemma classification_call_returns (self : ClassificationTransform.t)
    (data : DataFrame.t) (sample : Sample) :
  ClassificationTransform.call self data = Ok sample ->
  ∃ cur prev v v_old y y_old,
    DataFrame.iloc data (-1) = Ok cur ∧
    DataFrame.iloc data (-2) = Ok prev ∧
    cur !! ClassificationTransform.y_key self = Some v ∧
    prev !! ClassificationTransform.y_key self = Some v_old ∧
    ClassificationTransform.normalize_target self v v_old = Ok (y, y_old) ∧
    sample !! "returns"%string = Some (VTensor (Torch.scalar (return_of y y_old))).
Proof.
  unfold ClassificationTransform.call. intros H.
  bind_inv H cur Ecur. bind_inv H timestamp Ets. rewrite bind_ok in H.
  bind_inv H prev Eprev. bind_inv H features Efeat.
  bind_inv H stacked Estack. bind_inv H v Ev. bind_inv H v_old Evold.
  bind_inv H yy Enorm. destruct yy as [y y_old].
  unfold ClassificationTransform.compute_returns in H.
  rewrite guarded_division, bind_ok in H. injection H as <-.
  exists cur, prev, v, v_old, y, y_old.
  unfold dict_getitem in Ev, Evold.
  destruct (cur !! ClassificationTransform.y_key self) as [v'|] eqn:Hv;
    [|discriminate].
  destruct (prev !! ClassificationTransform.y_key self) as [v_old'|] eqn:Hvold;
    [|discriminate].
  injection Ev as ->. injection Evold as ->.
  repeat split; try assumption; try reflexivity.
  rewrite lookup_insert_ne by discriminate. apply lookup_insert_eq.
Qed.



(** The two transforms on the first window of the six bars, whose previous
    close is 0: the return of [DataTransform] is 0; the return of the
    normalising [ClassificationTransform] is computed from the normalised
    closes 0.505 and -0.5. *)
Example zero_previous_window :
  (∃ sample,
     (DataTransform.call transform_1e3 plain_window).2 = Ok sample ∧
     sample !! "Close_old"%string = Some (VTensor (Torch.scalar 0%Q)) ∧
     sample !! "returns"%string = Some (VTensor (Torch.scalar 0%Q))) ∧
  (∃ sample r,
     ClassificationTransform.call factor_transform plain_window = Ok sample ∧
     sample !! "returns"%string = Some (VTensor (Torch.scalar r)) ∧
     (r == - (201 # 100))%Q).
Proof.
  split.
  - eexists. split; [vm_compute; reflexivity|].
    split; vm_compute; reflexivity.
  - do 2 eexists. split; [vm_compute; reflexivity|].
    split; vm_compute; reflexivity.
Qed.

(** ** C9: the state of the transform *)

(** A window with the column [Timestamp_orig] makes [self.keys] longer. *)
Lemma call_appends_key (self : DataTransform.t) (window : DataFrame.t) :
  "Timestamp_orig"%string ∈ DataFrame.keys window ->
  DataTransform.keys (DataTransform.call self window).1
  = DataTransform.keys self ++ ["Timestamp_orig"%string].
Proof.
  intros Hin. unfold DataTransform.call.
  destruct (decide _); [reflexivity | contradiction].
Qed.

(** A window without that column leaves the transform as it was, and the
    result depends on the transform and the window only. *)
Lemma call_without_orig (self : DataTransform.t) (window : DataFrame.t) :
  "Timestamp_orig"%string ∉ DataFrame.keys window ->
  DataTransform.call self window = (self, DataTransform.body self window).
Proof.
  intros Hnin. unfold DataTransform.call.
  destruct (decide _); [contradiction | reflexivity].
Qed.

(** C9, at an input where the code departs from it: a fresh transform maps
    the plain window to a sample; after one call on the window that carries
    [Timestamp_orig] the key list of the transform is longer and the same
    call on the plain window raises. *)
Theorem C9_transform_keeps_state :
  (∃ sample, (DataTransform.call transform_1e3 plain_window).2 = Ok sample) ∧
  (∃ sample, (DataTransform.call transform_1e3 orig_window).2 = Ok sample) ∧
  DataTransform.keys (DataTransform.call transform_1e3 orig_window).1
  = DataTransform.keys transform_1e3 ++ ["Timestamp_orig"%string] ∧
  (DataTransform.call (DataTransform.call transform_1e3 orig_window).1
                      plain_window).2
  = Raise AttributeError.
Proof.
  split; [eexists; vm_compute; reflexivity|].
  split; [eexists; vm_compute; reflexivity|].
  split; vm_compute; reflexivity.
Qed.

(** ** C10: the labels of the dataset *)

Lemma returns_loop_length {T : Type} (self : CMambaDataset.t T)
    (prices : list Q) (idx : list Z) (acc out : list Q) :
  for_each (CMambaDataset.returns_step self prices) idx acc = Ok out ->
  length out = (length acc + length idx)%nat.
Proof.
  revert acc. induction idx as [|i idx IH]; intros acc; simpl.
  - intros [= <-]. lia.
  - destruct (CMambaDataset.returns_step self prices acc i) as [acc'|] eqn:E;
      simpl; [|discriminate].
    intros H%IH. rewrite H. clear H IH.
    unfold CMambaDataset.returns_step in E.
    destruct (Py.index prices (i + CMambaDataset.window_size self))
      as [cur|]; [|simpl in E; discriminate].
    destruct (Py.index prices (i + CMambaDataset.window_size self - 1))
      as [prev|]; [|simpl in E; discriminate].
    simpl in E. rewrite guarded_division in E. simpl in E.
    injection E as <-. rewrite length_app. simpl. lia.
Qed.

(** After [__init__] in classification mode the list of returns has one
    entry per window. *)
Lemma init_classification {T : Type} (data : DataFrame.t) (tr : T) (ws : Z)
    (yk : string) (th : Q) (self : CMambaDataset.t T) :
  CMambaDataset.init data tr ws "classification" yk th = Ok self ->
  ∃ rets,
    self = CMambaDataset.Make data tr ws "classification" yk th (Some rets) ∧
    Py.len rets = CMambaDataset.len self.
Proof.
  unfold CMambaDataset.init. simpl String.eqb. cbv iota.
  unfold CMambaDataset._compute_returns. simpl.
  destruct (DataFrame.col yk data) as [prices|]; [|simpl; discriminate]. simpl.
  destruct (for_each _ _ _) as [rets|] eqn:E; [|simpl; discriminate]. simpl.
  intros [= <-]. exists rets. split; [reflexivity|].
  apply returns_loop_length in E.
  pose proof (range_to_length
                (CMambaDataset.len
                   (CMambaDataset.Make data tr ws "classification" yk th None)))
    as Hr.
  unfold Py.len in *. rewrite E. simpl length.
  unfold CMambaDataset.len in *. simpl in *. lia.
Qed.

(** The classification branch of [__getitem__] succeeds whenever the list
    of returns covers the index, keeps or fills in [returns], and writes a
    [target_class] computed by the dataset from that value. *)
Lemma add_labels_spec {T : Type} (self : CMambaDataset.t T) (i : Z)
    (rets : list Q) (transformed : Sample) :
  CMambaDataset.returns self = Some rets ->
  0 <= i < Py.len rets ->
  ∃ r,
    match transformed !! "returns"%string with
    | Some r0 => r = r0
    | None => ∃ x, rets !! Z.to_nat i = Some x ∧ r = VFloat x
    end ∧
    CMambaDataset.add_labels self i transformed
    = Ok (<["target_class"%string := CMambaDataset.create_class_labels self r]>
          (<["returns"%string := r]> transformed)).
Proof.
  intros Hrets Hi. unfold CMambaDataset.add_labels.
  destruct (transformed !! "returns"%string) as [r0|] eqn:Hr.
  - exists r0. split; [reflexivity|]. simpl.
    unfold dict_getitem. rewrite Hr. simpl.
    rewrite (insert_id transformed "returns"%string r0 Hr). reflexivity.
  - destruct (index_position rets i Hi) as (x & Hx & Hlk).
    exists (VFloat x). split; [eauto|].
    rewrite Hrets. simpl. rewrite Hx. simpl.
    unfold dict_getitem. rewrite lookup_insert_eq. reflexivity.
Qed.

Lemma masked_class_discretize (threshold x : Q) :
  (0 <= threshold)%Q -> discretize threshold x (masked_class threshold x).
Proof.
  intros Hth. rewrite masked_class_scalar by exact Hth.
  destruct (Qlt_bool_reflect x (- threshold)); [constructor; assumption|].
  destruct (Qle_bool_reflect x threshold); constructor; lra.
Qed.

(** The labelling of the dataset is the rule of the threshold, on a number
    and on every entry of a tensor. *)
Lemma dataset_labels_of {T : Type} (ds : CMambaDataset.t T) (r : value) :
  (0 <= CMambaDataset.threshold ds)%Q ->
  labels_of (CMambaDataset.threshold ds) r (CMambaDataset.create_class_labels ds r).
Proof.
  intros Hth.
  assert (Hscalar : ∀ x, discretize (CMambaDataset.threshold ds) x
                           (CMambaDataset.create_class_labels_scalar ds x)).
  { intros x. unfold CMambaDataset.create_class_labels_scalar.
    destruct (Qlt_bool_reflect x (- CMambaDataset.threshold ds));
      [constructor; assumption|].
    destruct (Qle_bool_reflect x (CMambaDataset.threshold ds)); constructor; lra. }
  destruct r as [x | n | t | t];
    unfold CMambaDataset.create_class_labels, labels_of.
  - apply Hscalar.
  - apply Hscalar.
  - rewrite dataset_tensor_storage. split; [reflexivity|].
    unfold Torch.map. cbn [Torch.storage].
    induction (Torch.storage t) as [|x xs IH]; constructor;
      [apply masked_class_discretize, Hth | exact IH].
  - rewrite dataset_tensor_storage. split; [reflexivity|].
    unfold Torch.map. cbn [Torch.storage].
    induction (Torch.storage t) as [|x xs IH]; constructor;
      [apply masked_class_discretize, Hth | exact IH].
Qed.

(** C10.  In classification mode, for a dataset built by [__init__], a valid
    index and a transform call that returns a sample, [__getitem__] returns
    a sample whose [target_class] is the dataset's own labelling of the
    sample's [returns]: for a threshold [th >= 0] of the dataset it is the
    class of that return under [th] (0 below [-th], 1 from [-th] to [th], 2
    above [th]), entry by entry for a tensor.  [returns] is the one the
    transform supplied or else the precomputed one; whatever the transform
    stored under [target_class] is replaced, and the other entries are
    kept. *)
Theorem C10_dataset_labels {T : Type}
    (call : T -> DataFrame.t -> T * result Sample)
    (data : DataFrame.t) (tr : T) (ws : Z) (yk : string) (th : Q)
    (self : CMambaDataset.t T) (i : Z) (tr' : T) (transformed : Sample) :
  CMambaDataset.init data tr ws "classification" yk th = Ok self ->
  0 <= i < CMambaDataset.len self ->
  call (CMambaDataset.transform self) (CMambaDataset.window self i)
  = (tr', Ok transformed) ->
  ∃ sample r label,
    CMambaDataset.getitem call self i
    = (CMambaDataset.set_transform tr' self, Ok sample) ∧
    sample !! "returns"%string = Some r ∧
    match transformed !! "returns"%string with
    | Some r0 => r = r0
    | None =>
        ∃ rets x, CMambaDataset.returns self = Some rets ∧
                  rets !! Z.to_nat i = Some x ∧ r = VFloat x
    end ∧
    sample !! "target_class"%string = Some label ∧
    label = CMambaDataset.create_class_labels self r ∧
    CMambaDataset.threshold self = th ∧
    ((0 <= th)%Q -> labels_of th r label) ∧
    ∀ k, k ≠ "returns"%string -> k ≠ "target_class"%string ->
         sample !! k = transformed !! k.
Proof.
  intros Hinit Hi Hcall.
  destruct (init_classification _ _ _ _ _ _ Hinit) as (rets & Hself & Hlen).
  assert (Hrets : CMambaDataset.returns self = Some rets) by (subst self; reflexivity).
  assert (Htask : CMambaDataset.task_type self = "classification"%string)
    by (subst self; reflexivity).
  assert (Hth : CMambaDataset.threshold self = th) by (subst self; reflexivity).
  destruct (add_labels_spec self i rets transformed Hrets) as (r & Hr & Hadd);
    [lia|].
  exists (<["target_class"%string := CMambaDataset.create_class_labels self r]>
          (<["returns"%string := r]> transformed)), r,
         (CMambaDataset.create_class_labels self r).
  split.
  { unfold CMambaDataset.getitem. rewrite Hcall, Htask. simpl.
    rewrite Hadd. reflexivity. }
  split.
  { rewrite lookup_insert_ne by discriminate. apply lookup_insert_eq. }
  split.
  { destruct (transformed !! "returns"%string); [exact Hr|].
    destruct Hr as (x & Hx & ->). exists rets, x. auto. }
  split; [apply lookup_insert_eq|].
  split; [reflexivity|].
  split; [exact Hth|].
  split.
  { intros H0. rewrite <- Hth. apply dataset_labels_of. rewrite Hth. exact H0. }
  intros k Hk1 Hk2. rewrite !lookup_insert_ne by congruence. reflexivity.
Qed.

(** C10 on the six bars: the transform labels the second window
    "stationary" with its threshold 0.1; the dataset, whose threshold is
    0.001, returns the sample with the label "down", the class of the
    return -1.5/100.5 under 0.001. *)
Lemma C10_dataset_labels_witness :
  ∃ transformed sample,
    (DataTransform.call transform_1e1 (CMambaDataset.window narrow_dataset 1)).2
    = Ok transformed ∧
    transformed !! "target_class"%string = Some (VLong (Torch.scalar 1)) ∧
    (CMambaDataset.getitem DataTransform.call narrow_dataset 1).2 = Ok sample ∧
    sample !! "target_class"%string = Some (VLong (Torch.scalar 0)) ∧
    labels_of (1 # 1000)
      (VTensor (Torch.scalar ((99 - (201 # 2)) / (201 # 2))%Q))
      (VLong (Torch.scalar 0)).
Proof.
  assert (Hinit : CMambaDataset.init (bar_frame six_bars) transform_1e1 3
                    "classification" "Close" (1 # 1000) = Ok narrow_dataset)
    by (vm_compute; reflexivity).
  assert (Hi : 0 <= 1 < CMambaDataset.len narrow_dataset)
    by (change (CMambaDataset.len narrow_dataset) with 2; lia).
  destruct (DataTransform.call (CMambaDataset.transform narrow_dataset)
              (CMambaDataset.window narrow_dataset 1))
    as [tr' [transformed|e]] eqn:Hcall;
    [|vm_compute in Hcall; discriminate].
  destruct (C10_dataset_labels DataTransform.call _ _ _ _ _ narrow_dataset 1
              tr' transformed Hinit Hi Hcall)
    as (sample & r & label & Hget & Hret & Hsrc & Hcls & Hlab & _ & Hrule & _).
  exists transformed, sample.
  assert (Ht : transformed !! "returns"%string
               = Some (VTensor (Torch.scalar ((99 - (201 # 2)) / (201 # 2))%Q))
               ∧ transformed !! "target_class"%string
                 = Some (VLong (Torch.scalar 1))).
  { vm_compute in Hcall. injection Hcall as _ <-.
    split; vm_compute; reflexivity. }
  destruct Ht as [Ht1 Ht2].
  rewrite Ht1 in Hsrc. subst r.
  assert (El : label = VLong (Torch.scalar 0))
    by (rewrite Hlab; vm_compute; reflexivity).
  split; [exact (f_equal snd Hcall)|]. split; [exact Ht2|].
  split; [rewrite Hget; reflexivity|].
  split; [rewrite Hcls, El; reflexivity|].
  rewrite <- El. apply Hrule. discriminate.
Defined.

(** * Further properties *)

(** ** The aggregator *)

(** What [merge_data] returns for a bucket that is not empty. *)
Lemma merge_data_Some (data : list Bar) (start jump : Z)
    (high low open close vol : Q) :
  DataConverter.merge_data data start jump = Some (high, low, open, close, vol) ->
  ∃ first final,
    head (bucket data start jump) = Some first ∧
    last (bucket data start jump) = Some final ∧
    open = Open first ∧ close = Close final ∧
    is_max_of high (High <$> bucket data start jump) ∧
    is_min_of low (Low <$> bucket data start jump) ∧
    (vol == Qsum (Volume <$> bucket data start jump))%Q.
Proof.
  unfold DataConverter.merge_data. fold (bucket data start jump).
  destruct (bucket data start jump) as [|first rest] eqn:E; [discriminate|].
  destruct (merge_loop (first :: rest) (High first) (Low first) (Close first) 0 1)
    as (h' & l' & c' & v' & n' & Hfold & [Hhin Hhub] & [Hlin Hllb] & Hc & Hv).
  unfold DataConverter.get_row_values. cbv iota beta. rewrite Hfold.
  intros [= <- <- <- <- <-].
  destruct (last (first :: rest)) as [final|] eqn:Hlast.
  2:{ apply last_None in Hlast. discriminate. }
  exists first, final. repeat split.
  - exact Hc.
  - apply elem_of_cons in Hhin as [-> | Hhin]; [left | exact Hhin].
  - intros y Hy. apply Hhub. right. exact Hy.
  - apply elem_of_cons in Hlin as [-> | Hlin]; [left | exact Hlin].
  - intros y Hy. apply Hllb. right. exact Hy.
  - rewrite Hv. lra.
Qed.

Lemma bucket_elem (data : list Bar) (start jump : Z) (r : Bar) :
  r ∈ bucket data start jump
  <-> r ∈ data ∧ start <= Timestamp r < start + jump.
Proof.
  unfold bucket, DataConverter.filter_lt, DataConverter.filter_ge.
  rewrite !list_elem_of_In, !filter_In, Z.ltb_lt, Z.leb_le, <- list_elem_of_In.
  tauto.
Qed.

Lemma Qsum_nonneg (l : list Q) : Forall (fun v => 0 <= v)%Q l -> (0 <= Qsum l)%Q.
Proof.
  induction 1 as [|v l Hv _ IH]; simpl; [lra|].
  change (0 <= v + Qsum l)%Q. lra.
Qed.

(** X1.  Aggregation keeps the order of a bar: when every record has
    [low <= open, close <= high] and a volume [>= 0], so has every bar of
    the output. *)
Theorem X1_process_data_keeps_order (self : DataConverter.t) (raw : list Bar)
    (start stop : Z) (bars : list Bar) :
  Forall ordered_bar raw ->
  DataConverter.process_data self (DataConverter.load_data raw start stop)
  = Ok bars ->
  Forall ordered_bar bars.
Proof.
  intros Hraw. unfold DataConverter.process_data, DataConverter.load_data.
  set (data := DataConverter.filter_lt stop (DataConverter.filter_ge start raw)).
  intros H. bind_inv H starts Hrange. injection H as <-.
  rewrite process_loop. simpl.
  assert (Hdata : ∀ r, r ∈ data -> ordered_bar r).
  { intros r Hr. rewrite Forall_forall in Hraw. apply Hraw.
    unfold data, DataConverter.filter_lt, DataConverter.filter_ge in Hr.
    rewrite list_elem_of_In, !filter_In, <- list_elem_of_In in Hr. tauto. }
  apply Forall_forall. intros b (i & _ & Hb)%list_elem_of_omap.
  unfold bucket_bar in Hb.
  destruct (DataConverter.merge_data data i (DataConverter.jumps self))
    as [[[[[h l] o] c] v]|] eqn:Hm; [|discriminate].
  injection Hb as <-.
  destruct (merge_data_Some _ _ _ _ _ _ _ _ Hm)
    as (first & final & Hhead & Hlast & -> & -> & [_ Hmax] & [_ Hmin] & Hv).
  set (bk := bucket data i (DataConverter.jumps self)) in *.
  assert (Hbk : ∀ r, r ∈ bk -> ordered_bar r).
  { intros r Hr. apply Hdata. apply bucket_elem in Hr. tauto. }
  assert (Hf : first ∈ bk) by (destruct bk; [discriminate | injection Hhead as ->; left]).
  assert (Hl : final ∈ bk) by (apply last_Some_elem_of, Hlast).
  destruct (Hbk first Hf) as (F1 & F2 & F3 & F4 & F5).
  destruct (Hbk final Hl) as (L1 & L2 & L3 & L4 & L5).
  assert (Hh1 : (High first <= h)%Q)
    by (apply Hmax, list_elem_of_fmap; eauto).
  assert (Hh2 : (High final <= h)%Q)
    by (apply Hmax, list_elem_of_fmap; eauto).
  assert (Hl1 : (l <= Low first)%Q)
    by (apply Hmin, list_elem_of_fmap; eauto).
  assert (Hl2 : (l <= Low final)%Q)
    by (apply Hmin, list_elem_of_fmap; eauto).
  unfold ordered_bar; simpl. repeat split; try lra.
  rewrite Hv. apply Qsum_nonneg, Forall_forall.
  intros x (r & -> & Hr)%list_elem_of_fmap. apply (Hbk r Hr).
Qed.

(** X1 on the two records of one bucket. *)
Lemma X1_process_data_keeps_order_witness :
  Forall ordered_bar two_records ∧
  Forall ordered_bar [mkBar 0 12 7 9 11 (0 + 3 + 4)%Q].
Proof.
  assert (H : Forall ordered_bar two_records).
  { repeat constructor; simpl; lra. }
  split; [exact H|].
  apply (X1_process_data_keeps_order
           (DataConverter.init 1 None None None None) two_records 0 3660 _ H).
  reflexivity.
Defined.

Lemma omap_all_None {A B} (f : A -> option B) (l : list A) :
  (∀ x, x ∈ l -> f x = None) -> omap f l = [].
Proof.
  induction l as [|x l IH]; intros H; simpl; [reflexivity|].
  rewrite (H x) by left. apply IH. intros y Hy. apply H. right. exact Hy.
Qed.

(** X2.  A span of at most one hour gives an empty table, whatever the
    records, and so does a negative bucket width: no bucket is visited, or
    every bucket is empty, and nothing is raised. *)
Theorem X2_process_data_no_bars (self : DataConverter.t) (raw : list Bar)
    (start stop : Z) :
  (0 < DataConverter.jumps self ∧ stop - start <= 3600)
  ∨ DataConverter.jumps self < 0 ->
  DataConverter.process_data self (DataConverter.load_data raw start stop)
  = Ok [].
Proof.
  intros H. unfold DataConverter.process_data, DataConverter.load_data.
  destruct H as [[Hw Hspan] | Hneg].
  - unfold Py.range. destruct (Z.eqb_spec (DataConverter.jumps self) 0); [lia|].
    unfold Py.range_len.
    destruct (Z.ltb_spec 0 (DataConverter.jumps self)); [|lia].
    destruct (Z.ltb_spec start (stop - 3600)); [lia|]. reflexivity.
  - unfold Py.range. destruct (Z.eqb_spec (DataConverter.jumps self) 0); [lia|].
    rewrite bind_ok, process_loop. simpl. f_equal.
    apply omap_all_None. intros i _.
    destruct (bucket_bar _ _ i) as [b|] eqn:Hb; [|reflexivity].
    assert (Hsome : is_Some (bucket_bar
              (DataConverter.filter_lt stop (DataConverter.filter_ge start raw))
              (DataConverter.jumps self) i)) by eauto.
    apply bucket_bar_is_Some in Hsome. exfalso. apply Hsome.
    destruct (bucket _ i _) as [|r rest] eqn:E; [reflexivity|].
    assert (Hr : r ∈ bucket
              (DataConverter.filter_lt stop (DataConverter.filter_ge start raw))
              i (DataConverter.jumps self)) by (rewrite E; left).
    apply bucket_elem in Hr. lia.
Qed.

(** X2 on the six bars over a span of one hour. *)
Lemma X2_process_data_no_bars_witness :
  DataConverter.process_data (DataConverter.init 1 None None None None)
    (DataConverter.load_data six_bars 0 3600) = Ok [].
Proof.
  apply X2_process_data_no_bars. left. simpl. lia.
Defined.

Lemma filter_all {A} (f : A -> bool) (l : list A) :
  (∀ x, x ∈ l -> f x = true) -> List.filter f l = l.
Proof.
  induction l as [|x l IH]; intros H; simpl; [reflexivity|].
  rewrite (H x) by left. f_equal. apply IH. intros y Hy. apply H. right. exact Hy.
Qed.

Lemma bucket_cons (r : Bar) (l : list Bar) (i w : Z) :
  bucket (r :: l) i w
  = if (i <=? Timestamp r) && (Timestamp r <? i + w)
    then r :: bucket l i w else bucket l i w.
Proof.
  unfold bucket, DataConverter.filter_lt, DataConverter.filter_ge. simpl.
  destruct (i <=? Timestamp r); simpl; [|reflexivity].
  destruct (Timestamp r <? i + w); reflexivity.
Qed.

Lemma omap_cons_match {A B} (f : A -> option B) (x : A) (l : list A) :
  omap f (x :: l)
  = match f x with Some y => y :: omap f l | None => omap f l end.
Proof. reflexivity. Qed.

(** Among bars that sit on the bucket starts, the bucket that starts at [i]
    holds the bar of [i] and nothing else. *)
Lemma bucket_of_bars (f : Z -> option Bar) (starts : list Z) (i w : Z) :
  0 < w ->
  NoDup starts ->
  (∀ j b, f j = Some b -> Timestamp b = j) ->
  (∀ j, j ∈ starts -> i <= j < i + w -> j = i) ->
  bucket (omap f starts) i w
  = if decide (i ∈ starts) then option_list (f i) else [].
Proof.
  intros Hw Hnd Hts Hgrid.
  induction starts as [|j starts IH]; [reflexivity|].
  apply NoDup_cons in Hnd as [Hj Hnd].
  assert (IH' := IH Hnd (fun k Hk => Hgrid k (list_elem_of_further _ _ _ Hk))).
  clear IH. rewrite omap_cons_match.
  destruct (decide (j = i)) as [-> | Hne].
  - rewrite decide_True by left.
    rewrite decide_False in IH' by exact Hj.
    destruct (f i) as [b|] eqn:Hb; [|exact IH'].
    rewrite bucket_cons, (Hts i b Hb), IH'.
    replace (i <=? i) with true by lia. replace (i <? i + w) with true by lia.
    reflexivity.
  - assert (Hdec : (if decide (i ∈ j :: starts) then option_list (f i) else [])
                   = if decide (i ∈ starts) then option_list (f i) else []).
    { destruct (decide (i ∈ starts)) as [Hi | Hi].
      - rewrite decide_True by (right; exact Hi). reflexivity.
      - rewrite decide_False; [reflexivity|].
        intros [E | Hi']%elem_of_cons; [congruence | contradiction]. }
    rewrite Hdec, <- IH'.
    destruct (f j) as [b|] eqn:Hb; [|reflexivity].
    rewrite bucket_cons, (Hts j b Hb).
    destruct ((i <=? j) && (j <? i + w)) eqn:E; [|reflexivity].
    exfalso. apply Hne, Hgrid; [left | lia].
Qed.

Lemma py_max_same (x : Q) : Py.max x x = x.
Proof. unfold Py.max. destruct (Qlt_le_dec x x); reflexivity. Qed.

Lemma py_min_same (x : Q) : Py.min x x = x.
Proof. unfold Py.min. destruct (Qlt_le_dec x x); reflexivity. Qed.

(** A bucket of one record gives the bar of that record. *)
Lemma bucket_bar_single (data : list Bar) (w i : Z) (b : Bar) :
  bucket data i w = [b] ->
  bucket_bar data w i
  = Some (mkBar i (High b) (Low b) (Open b) (Close b) (0 + Volume b)%Q).
Proof.
  intros E. unfold bucket_bar, DataConverter.merge_data.
  fold (bucket data i w). rewrite E. simpl.
  rewrite py_max_same, py_min_same. reflexivity.
Qed.

Lemma omap_same_bars (f g : Z -> option Bar) (starts : list Z) :
  (∀ i, i ∈ starts ->
     match f i with
     | Some b => ∃ b', g i = Some b' ∧ same_bar b b'
     | None => g i = None
     end) ->
  Forall2 same_bar (omap f starts) (omap g starts).
Proof.
  induction starts as [|i starts IH]; intros H; simpl; [constructor|].
  assert (IH' := IH (fun k Hk => H k (list_elem_of_further _ _ _ Hk))).
  specialize (H i ltac:(left)).
  destruct (f i) as [b|].
  - destruct H as (b' & -> & Hs). constructor; assumption.
  - rewrite H. exact IH'.
Qed.

(** X3.  Aggregation is idempotent: aggregating the output again over the
    same span with the same bucket width gives the same bars (the same
    timestamps and equal numbers). *)
Theorem X3_process_data_idempotent (self : DataConverter.t) (raw : list Bar)
    (start stop : Z) (bars : list Bar) :
  0 < DataConverter.jumps self ->
  DataConverter.process_data self (DataConverter.load_data raw start stop)
  = Ok bars ->
  ∃ bars',
    DataConverter.process_data self (DataConverter.load_data bars start stop)
    = Ok bars' ∧
    Forall2 same_bar bars bars'.
Proof.
  intros Hw. set (w := DataConverter.jumps self) in *.
  destruct (range_elem start (stop - 3600) w Hw)
    as (starts & Hrange & Hsorted & Hstarts).
  unfold DataConverter.process_data, DataConverter.load_data.
  fold w. rewrite Hrange, !bind_ok, !process_loop. simpl. fold w.
  set (data := DataConverter.filter_lt stop (DataConverter.filter_ge start raw)).
  intros [= <-].
  set (f := bucket_bar data w).
  assert (Hts : ∀ j b, f j = Some b -> Timestamp b = j)
    by (intros j b; apply bucket_bar_timestamp).
  assert (Hin : ∀ b, b ∈ omap f starts -> start <= Timestamp b < stop - 3600).
  { intros b (j & Hj & Hb)%list_elem_of_omap. rewrite (Hts j b Hb).
    apply Hstarts in Hj as (k & Hk & -> & Hlt). nia. }
  assert (Hkeep : DataConverter.filter_lt stop
                    (DataConverter.filter_ge start (omap f starts))
                  = omap f starts).
  { unfold DataConverter.filter_lt, DataConverter.filter_ge.
    rewrite (filter_all (fun r => start <=? Timestamp r)).
    - apply filter_all. intros b Hb%Hin. lia.
    - intros b Hb%Hin. lia. }
  rewrite Hkeep. eexists. split; [reflexivity|].
  apply omap_same_bars. intros i Hi.
  assert (Hnd : NoDup starts).
  { clear -Hsorted. induction Hsorted as [|x l _ IH Hall]; constructor; [|exact IH].
    intros Hx. rewrite Forall_forall in Hall. specialize (Hall x Hx). lia. }
  assert (Hbk : bucket (omap f starts) i w = option_list (f i)).
  { rewrite (bucket_of_bars f starts i w Hw Hnd Hts).
    - rewrite decide_True by exact Hi. reflexivity.
    - intros j Hj Hrange'.
      apply Hstarts in Hj as (kj & Hkj & -> & _).
      apply Hstarts in Hi as (ki & Hki & -> & _).
      assert (kj = ki) by nia. subst. reflexivity. }
  destruct (f i) as [b|] eqn:Hb.
  - rewrite (bucket_bar_single _ w i b Hbk). eexists. split; [reflexivity|].
    unfold same_bar; simpl. rewrite (Hts i b Hb).
    repeat split; try reflexivity. lra.
  - apply eq_None_not_Some. rewrite bucket_bar_is_Some, Hbk. simpl. tauto.
Qed.

(** X3 on the six bars with one-minute buckets. *)
Lemma X3_process_data_idempotent_witness :
  ∃ bars',
    DataConverter.process_data (DataConverter.init 1 None None None None)
      (DataConverter.load_data (take 5 six_bars) 0 3900) = Ok bars' ∧
    Forall2 same_bar (take 5 six_bars) bars'.
Proof.
  assert (E : DataConverter.process_data (DataConverter.init 1 None None None None)
                (DataConverter.load_data six_bars 0 3900)
              = Ok (take 5 six_bars)).
  { vm_compute. reflexivity. }
  exact (X3_process_data_idempotent (DataConverter.init 1 None None None None)
           six_bars 0 3900 _ ltac:(simpl; lia) E).
Defined.

(** ** The splitter *)

Lemma filter_sublist {A} (f : A -> bool) (l : list A) :
  List.filter f l `sublist_of` l.
Proof.
  induction l as [|x l IH]; simpl; [constructor|].
  destruct (f x); [apply sublist_skip | apply sublist_cons]; exact IH.
Qed.

Lemma interval_rows (data : list Bar) (start stop : Z) (b : Bar) :
  b ∈ DataConverter.filter_lt stop (DataConverter.filter_ge start data)
  <-> b ∈ data ∧ start <= Timestamp b < stop.
Proof.
  unfold DataConverter.filter_lt, DataConverter.filter_ge.
  rewrite !list_elem_of_In, !filter_In, Z.ltb_lt, Z.leb_le, <- list_elem_of_In.
  tauto.
Qed.

(** X4.  The interval split: with no [train_ratio] configured and three
    intervals, each subset holds exactly the rows whose timestamp lies in
    its interval, in the order of the table, whatever the shuffle; the
    subsets of intervals that follow one another share no row. *)
Theorem X4_split_by_intervals (self : DataConverter.t)
    (shuffle : list Z -> list Z) (data : list Bar)
    (s1 e1 s2 e2 s3 e3 : Z) :
  DataConverter.config_train_ratio self = None ->
  DataConverter.train_interval self = Some (s1, e1) ->
  DataConverter.val_interval self = Some (s2, e2) ->
  DataConverter.test_interval self = Some (s3, e3) ->
  ∃ train val test,
    DataConverter.split self shuffle data = Ok (train, val, test) ∧
    (∀ b, b ∈ train <-> b ∈ data ∧ s1 <= Timestamp b < e1) ∧
    (∀ b, b ∈ val <-> b ∈ data ∧ s2 <= Timestamp b < e2) ∧
    (∀ b, b ∈ test <-> b ∈ data ∧ s3 <= Timestamp b < e3) ∧
    train `sublist_of` data ∧ val `sublist_of` data ∧ test `sublist_of` data ∧
    (e1 <= s2 -> s2 <= e2 -> e2 <= s3 ->
     ∀ b, ¬ (b ∈ train ∧ b ∈ val) ∧ ¬ (b ∈ val ∧ b ∈ test)
          ∧ ¬ (b ∈ train ∧ b ∈ test)).
Proof.
  intros Hcfg Ht Hv He.
  exists (DataConverter.filter_lt e1 (DataConverter.filter_ge s1 data)),
         (DataConverter.filter_lt e2 (DataConverter.filter_ge s2 data)),
         (DataConverter.filter_lt e3 (DataConverter.filter_ge s3 data)).
  split.
  { unfold DataConverter.split, DataConverter.split_interval.
    rewrite Hcfg, Ht, Hv, He. reflexivity. }
  split; [intros b; apply interval_rows|].
  split; [intros b; apply interval_rows|].
  split; [intros b; apply interval_rows|].
  assert (Hsub : ∀ s e,
            DataConverter.filter_lt e (DataConverter.filter_ge s data)
            `sublist_of` data).
  { intros s e. unfold DataConverter.filter_lt, DataConverter.filter_ge.
    etransitivity; apply filter_sublist. }
  split; [apply Hsub|]. split; [apply Hsub|]. split; [apply Hsub|].
  intros H12 H22 H23 b. rewrite !interval_rows.
  repeat split; intros [[_ ?] [_ ?]]; lia.
Qed.

(** Without [train_ratio] and without an interval the split is refused. *)
Lemma split_without_interval (self : DataConverter.t)
    (shuffle : list Z -> list Z) (data : list Bar) :
  DataConverter.config_train_ratio self = None ->
  DataConverter.train_interval self = None ->
  DataConverter.split self shuffle data = Raise TypeError.
Proof.
  intros Hcfg Ht. unfold DataConverter.split, DataConverter.split_interval.
  rewrite Hcfg, Ht. reflexivity.
Qed.

(** X4 on the six bars with the intervals [[0, 120)], [[120, 240)] and
    [[240, 360)]. *)
Lemma X4_split_by_intervals_witness :
  ∃ train val test,
    DataConverter.split
      (DataConverter.init 1 None (Some (0, 120)) (Some (120, 240)) (Some (240, 360)))
      id six_bars = Ok (train, val, test) ∧
    train `sublist_of` six_bars ∧ val `sublist_of` six_bars ∧
    test `sublist_of` six_bars ∧
    ∀ b, ¬ (b ∈ train ∧ b ∈ val).
Proof.
  destruct (X4_split_by_intervals
              (DataConverter.init 1 None (Some (0, 120)) (Some (120, 240))
                 (Some (240, 360)))
              id six_bars 0 120 120 240 240 360 eq_refl eq_refl eq_refl eq_refl)
    as (train & val & test & Hs & _ & _ & _ & H1 & H2 & H3 & Hd).
  exists train, val, test. repeat split; try assumption.
  intros b. apply (Hd ltac:(lia) ltac:(lia) ltac:(lia) b).
Defined.

Lemma iloc_list_rows {A} (data : list A) (idx : list Z) :
  Forall (fun i => 0 <= i < Py.len data) idx ->
  DataConverter.iloc_list data idx = Ok (rows_at data idx).
Proof.
  unfold DataConverter.iloc_list, rows_at.
  induction 1 as [|i idx Hi _ IH]; [reflexivity|].
  destruct (index_position data i Hi) as (x & Hx & Hlk).
  cbn [mapM]. rewrite Hx, bind_ok, IH, bind_ok.
  rewrite omap_cons_match, Hlk. reflexivity.
Qed.

Lemma rows_at_tail {A} (pre data : list A) :
  rows_at (pre ++ data)
    (Py.range_items (length data) (Z.of_nat (length pre)) 1)
  = data.
Proof.
  revert pre. induction data as [|x data IH]; intros pre; [reflexivity|].
  unfold rows_at. cbn [length Py.range_items]. rewrite omap_cons_match.
  rewrite Nat2Z.id, list_lookup_middle by reflexivity.
  f_equal. specialize (IH (pre ++ [x])).
  rewrite <- app_assoc, length_app in IH. simpl in IH.
  replace (Z.of_nat (length pre) + 1) with (Z.of_nat (length pre + 1)) by lia.
  exact IH.
Qed.

Lemma rows_at_range {A} (data : list A) :
  rows_at data (Py.range_to (Py.len data)) = data.
Proof.
  unfold Py.range_to.
  replace (Z.to_nat (Py.range_len 0 (Py.len data) 1)) with (length data).
  - apply (rows_at_tail [] data).
  - pose proof (range_to_length (Py.len data)) as H.
    unfold Py.range_to, Py.len in H. rewrite range_items_length in H.
    unfold Py.len. lia.
Qed.

(** Rows picked at ascending positions come in the order of the table. *)
Lemma rows_at_sublist {A} (pre data : list A) (idx : list Z) :
  StronglySorted Z.lt idx ->
  Forall (fun i => Z.of_nat (length pre) <= i) idx ->
  rows_at (pre ++ data) idx `sublist_of` data.
Proof.
  revert pre idx. induction data as [|x data IH]; intros pre idx Hs Hge.
  - replace (rows_at (pre ++ []) idx) with (@nil A); [constructor|].
    symmetry. apply omap_all_None. intros i Hi.
    rewrite Forall_forall in Hge. specialize (Hge i Hi).
    apply lookup_ge_None. rewrite app_nil_r. lia.
  - destruct idx as [|i idx]; [apply sublist_nil_l|].
    apply Forall_cons in Hge as [Hi Hge].
    apply StronglySorted_inv in Hs as [Hs Hall].
    replace (pre ++ x :: data) with ((pre ++ [x]) ++ data)
      by (rewrite <- app_assoc; reflexivity).
    assert (Hrest : Forall (fun j => Z.of_nat (length (pre ++ [x])) <= j) idx).
    { rewrite Forall_forall in Hall |- *. intros j Hj. specialize (Hall j Hj).
      rewrite length_app. simpl. lia. }
    destruct (decide (i = Z.of_nat (length pre))) as [-> | Hne].
    + unfold rows_at. rewrite omap_cons_match.
      rewrite <- app_assoc. cbn [app].
      rewrite Nat2Z.id, list_lookup_middle by reflexivity.
      apply sublist_skip.
      replace (pre ++ x :: data) with ((pre ++ [x]) ++ data)
        by (rewrite <- app_assoc; reflexivity).
      apply (IH (pre ++ [x]) idx Hs Hrest).
    + apply sublist_cons. apply (IH (pre ++ [x]) (i :: idx)).
      * constructor; assumption.
      * constructor; [rewrite length_app; simpl; lia | exact Hrest].
Qed.

Lemma sorted_strict (l : list Z) :
  NoDup l -> StronglySorted Z.lt (DataConverter.sorted l).
Proof.
  intros Hnd. unfold DataConverter.sorted.
  assert (Hs : StronglySorted Z.le (merge_sort Z.le l))
    by apply (StronglySorted_merge_sort Z.le).
  assert (Hnd' : NoDup (merge_sort Z.le l))
    by (rewrite merge_sort_Permutation; exact Hnd).
  induction Hs as [|x k _ IH Hall]; constructor.
  - apply IH. apply NoDup_cons in Hnd' as [_ H]. exact H.
  - apply NoDup_cons in Hnd' as [Hx _].
    rewrite Forall_forall in Hall |- *. intros y Hy.
    specialize (Hall y Hy). assert (x ≠ y) by congruence. lia.
Qed.

(** X5.  The slicing of the ratio split, for any row counts: when the
    shuffle permutes, [n_train >= 0], [n_test >= 1] and [n_train + n_test]
    is at most the number of rows, the three position lists select rows
    without an error; the three subsets together are a rearrangement of the
    table (no row lost, none used twice), each keeps the order of the table,
    and train and test have [n_train] and [n_test] rows.  The counts are
    parameters: how [int(ratio * total)] rounds is not part of the
    statement. *)
Theorem X5_ratio_slices_partition (shuffle : list Z -> list Z)
    (data : list Bar) (n_train n_test : Z) :
  (∀ l, shuffle l ≡ₚ l) ->
  0 <= n_train ->
  0 < n_test ->
  n_train + n_test <= Py.len data ->
  ∃ ptrain pval ptest train val test,
    DataConverter.ratio_positions n_train n_test
      (shuffle (Py.range_to (Py.len data))) = (ptrain, pval, ptest) ∧
    DataConverter.iloc_list data ptrain = Ok train ∧
    DataConverter.iloc_list data pval = Ok val ∧
    DataConverter.iloc_list data ptest = Ok test ∧
    train ++ val ++ test ≡ₚ data ∧
    train `sublist_of` data ∧ val `sublist_of` data ∧ test `sublist_of` data ∧
    Py.len train = n_train ∧
    Py.len test = n_test.
Proof.
  intros Hperm Hn1 Hn2 Hsum.
  set (total := shuffle (Py.range_to (Py.len data))).
  assert (Htotal : total ≡ₚ Py.range_to (Py.len data)) by apply Hperm.
  assert (Hlen : Py.len total = Py.len data).
  { unfold Py.len at 1. rewrite Htotal.
    pose proof (range_to_length (Py.len data)) as Hr.
    unfold Py.len in *. lia. }
  destruct (ratio_positions_partition n_train n_test total Hn1 Hn2)
    as (ptrain & pval & ptest & Hpos & Hpart & _ & _ & _ & Hl1 & Hl3); [lia|].
  assert (Hpos' := Hpos). unfold DataConverter.ratio_positions in Hpos'.
  injection Hpos' as Et Ev Ee.
  assert (Hnd : NoDup total).
  { rewrite Htotal. unfold Py.range_to.
    pose proof (range_items_sorted
                  (Z.to_nat (Py.range_len 0 (Py.len data) 1)) 0 1 ltac:(lia)) as Hs.
    clear -Hs. induction Hs as [|x l _ IH Hall]; constructor; [|exact IH].
    intros Hx. rewrite Forall_forall in Hall. specialize (Hall x Hx). lia. }
  assert (Hnd3 : NoDup (ptrain ++ pval ++ ptest)) by (rewrite Hpart; exact Hnd).
  apply NoDup_app in Hnd3 as (Hnd1 & _ & Hnd23).
  apply NoDup_app in Hnd23 as (Hnd2 & _ & Hnd3).
  assert (Hst : ∀ p l, p = DataConverter.sorted l -> NoDup p ->
                       StronglySorted Z.lt p).
  { intros p l -> Hp. apply sorted_strict.
    unfold DataConverter.sorted in Hp. rewrite merge_sort_Permutation in Hp.
    exact Hp. }
  assert (Hall : Forall (fun i => 0 <= i < Py.len data) (ptrain ++ pval ++ ptest)).
  { rewrite Hpart, Htotal. apply range_to_bounds. }
  apply Forall_app in Hall as [H1 Hall]. apply Forall_app in Hall as [H2 H3].
  assert (Hsub : ∀ p, StronglySorted Z.lt p ->
                      Forall (fun i => 0 <= i < Py.len data) p ->
                      rows_at data p `sublist_of` data).
  { intros p Hs Hp. apply (rows_at_sublist [] data p Hs).
    eapply Forall_impl; [exact Hp|]. simpl. intros; lia. }
  assert (Hrl : ∀ p, Forall (fun i => 0 <= i < Py.len data) p ->
                     length (rows_at data p) = length p).
  { intros p Hp. destruct (iloc_list_length data p Hp) as (picked & E & L).
    rewrite iloc_list_rows in E by exact Hp. injection E as <-. exact L. }
  exists ptrain, pval, ptest.
  exists (rows_at data ptrain), (rows_at data pval), (rows_at data ptest).
  split; [exact Hpos|].
  split; [apply iloc_list_rows; exact H1|].
  split; [apply iloc_list_rows; exact H2|].
  split; [apply iloc_list_rows; exact H3|].
  split.
  { unfold rows_at. rewrite <- !omap_app, Hpart, Htotal.
    fold (rows_at data (Py.range_to (Py.len data))).
    rewrite rows_at_range. reflexivity. }
  split; [apply Hsub; [apply (Hst _ _ (eq_sym Et) Hnd1) | exact H1]|].
  split; [apply Hsub; [apply (Hst _ _ (eq_sym Ev) Hnd2) | exact H2]|].
  split; [apply Hsub; [apply (Hst _ _ (eq_sym Ee) Hnd3) | exact H3]|].
  unfold Py.len in *. rewrite !Hrl by assumption. split; assumption.
Qed.

Lemma X5_ratio_slices_partition_witness :
  ∃ ptrain pval ptest train val test,
    DataConverter.ratio_positions 4 1
      (reverse (Py.range_to (Py.len six_bars))) = (ptrain, pval, ptest) ∧
    DataConverter.iloc_list six_bars ptrain = Ok train ∧
    DataConverter.iloc_list six_bars pval = Ok val ∧
    DataConverter.iloc_list six_bars ptest = Ok test ∧
    train ++ val ++ test ≡ₚ six_bars ∧
    train `sublist_of` six_bars ∧ val `sublist_of` six_bars ∧
    test `sublist_of` six_bars ∧
    Py.len train = 4 ∧
    Py.len test = 1.
Proof.
  apply (X5_ratio_slices_partition reverse six_bars 4 1);
    [intros l; apply reverse_Permutation | lia | lia
    | vm_compute; discriminate].
Defined.

(** ** Frames, windows and the feature matrix *)

Lemma get_length (key : string) (df : DataFrame.t) (col : list Q) :
  DataFrame.get key df = Some col -> Py.len col = DataFrame.len df.
Proof.
  intros H. apply (col_length key). unfold DataFrame.col. rewrite H. reflexivity.
Qed.

(** A column of a row slice is the slice of the column. *)
Lemma get_iloc_slice (key : string) (df : DataFrame.t) (col : list Q)
    (lo hi : option Z) :
  DataFrame.get key df = Some col ->
  DataFrame.get key (DataFrame.iloc_slice lo hi df) = Some (Py.slice lo hi col).
Proof.
  intros H. pose proof (get_length key df col H) as Hlen.
  unfold DataFrame.get in *. simpl.
  destruct (decide (key ∈ DataFrame.columns df)); [|discriminate].
  apply mapM_Some in H. apply mapM_Some.
  unfold Py.slice. unfold DataFrame.len in Hlen. rewrite Hlen.
  apply Forall2_take, Forall2_drop, H.
Qed.

Lemma last_two {A} (l : list A) :
  2 <= Py.len l -> ∃ pre p c, l = pre ++ [p; c].
Proof.
  unfold Py.len. intros H.
  destruct l as [|c l _] using rev_ind; [simpl in H; lia|].
  destruct l as [|p l _] using rev_ind; [simpl in H; lia|].
  exists l, p, c. rewrite <- app_assoc. reflexivity.
Qed.

Lemma scaled_length (key : string) (col : list Q) :
  Py.len (scaled key col) = Py.len col.
Proof.
  unfold scaled, Py.len. destruct (String.eqb key "Volume");
    [rewrite length_map|]; reflexivity.
Qed.

Lemma feature_row_spec (key : string) (col : list Q) :
  2 <= Py.len col ->
  ∃ pre p c, scaled key col = pre ++ [p; c] ∧ feature_row key col = pre ++ [p] ∧
             Py.len (feature_row key col) = Py.len col - 1.
Proof.
  intros H. rewrite <- (scaled_length key) in H.
  destruct (last_two _ H) as (pre & p & c & E).
  exists pre, p, c. split; [exact E|].
  unfold feature_row. rewrite E, slice_drop_last. split; [reflexivity|].
  rewrite <- (scaled_length key col), E. unfold Py.len.
  rewrite !length_app. simpl. lia.
Qed.

Lemma feature_keys_of_cons (k : string) (ks : list string) :
  feature_keys_of (k :: ks)
  = (if String.eqb k "Timestamp_orig" then [] else [k]) ++ feature_keys_of ks.
Proof.
  unfold feature_keys_of. rewrite filter_cons.
  destruct (String.eqb_spec k "Timestamp_orig") as [-> | Hne].
  - rewrite decide_False by (intros H; apply H; reflexivity). reflexivity.
  - rewrite decide_True by exact Hne. reflexivity.
Qed.

Section Feature_loop.
Variables (window : DataFrame.t) (cols : string -> list Q).

(** One iteration of the loop on a column of at least two values. *)
Lemma column_step_row (key : string) (output : Sample)
    (data_list : list (Torch.tensor Q)) :
  DataFrame.get key window = Some (cols key) ->
  2 <= DataFrame.len window ->
  ∃ p c,
    DataTransform.column_step window (output, data_list) key
    = Ok (<[key +:+ "_old" := VTensor (Torch.scalar p)]>
          (<[key := VTensor (Torch.scalar c)]> output),
          data_list ++
          ((fun k => Torch.Tensor [1; DataFrame.len window - 1]
                       (feature_row k (cols k)))
             <$> (if String.eqb key "Timestamp_orig" then [] else [key]))).
Proof.
  intros Hget Hn. pose proof (get_length _ _ _ Hget) as Hlen.
  destruct (feature_row_spec key (cols key) ltac:(lia))
    as (pre & p & c & Hcol & Hrow & Hrl).
  exists p, c. unfold DataTransform.column_step. rewrite Hget. simpl.
  assert (Hdata : (if String.eqb key "Volume"
                   then Torch.map (fun x => x / 1000000000)%Q
                          (Torch.of_list (cols key))
                   else Torch.of_list (cols key))
                  = Torch.Tensor [Py.len (cols key)] (pre ++ [p; c])).
  { unfold scaled in Hcol. destruct (String.eqb key "Volume");
      unfold Torch.map, Torch.of_list; simpl; rewrite Hcol; reflexivity. }
  rewrite Hdata. unfold Torch.getitem. simpl.
  destruct (index_last_two pre p c) as [Hc Hp]. rewrite Hc, Hp. simpl.
  unfold Torch.slice, Torch.reshape_row, Torch.of_list. simpl.
  rewrite slice_drop_last.
  destruct (String.eqb key "Timestamp_orig").
  - simpl. rewrite app_nil_r. reflexivity.
  - rewrite list_fmap_singleton, Hrow, <- Hlen, <- Hrl, Hrow.
    destruct (pre ++ [p]) as [|x xs] eqn:E; [destruct pre; discriminate|].
    reflexivity.
Qed.

(** The loop over the keys: the rows it collects, and the entries of the
    output it leaves alone. *)
Lemma column_loop (ks : list string) (output : Sample)
    (data_list : list (Torch.tensor Q)) :
  2 <= DataFrame.len window ->
  (∀ k, k ∈ ks -> DataFrame.get k window = Some (cols k)) ->
  ∃ output',
    for_each (DataTransform.column_step window) ks (output, data_list)
    = Ok (output',
          data_list ++
          ((fun k => Torch.Tensor [1; DataFrame.len window - 1]
                       (feature_row k (cols k))) <$> feature_keys_of ks)) ∧
    ∀ x, (∀ k, k ∈ ks -> x ≠ k ∧ x ≠ k +:+ "_old") ->
         output' !! x = output !! x.
Proof.
  intros Hn. revert output data_list.
  induction ks as [|k ks IH]; intros output data_list Hcols.
  - exists output. rewrite app_nil_r. split; [reflexivity | reflexivity].
  - destruct (column_step_row k output data_list (Hcols k ltac:(left)) Hn)
      as (p & c & Hstep).
    rewrite for_each_cons, Hstep, bind_ok.
    edestruct IH as (output' & Hloop & Hkeep);
      [intros k' Hk'; apply Hcols; right; exact Hk'|].
    exists output'. split.
    + rewrite Hloop, feature_keys_of_cons, fmap_app, app_assoc. reflexivity.
    + intros x Hx. rewrite Hkeep by (intros k' Hk'; apply Hx; right; exact Hk').
      destruct (Hx k ltac:(left)) as [H1 H2].
      rewrite !lookup_insert_ne by congruence. reflexivity.
Qed.

End Feature_loop.

Lemma cat0_rows (width : Z) (rows : list (list Q)) :
  rows ≠ [] -> Forall (fun r => Py.len r = width) rows ->
  Torch.cat0 ((fun r => Torch.Tensor [1; width] r) <$> rows)
  = Ok (Torch.Tensor [Py.len rows; width] (concat rows)).
Proof.
  intros Hne Hw. destruct rows as [|r rows]; [congruence|].
  apply Forall_cons in Hw as [Hr _].
  unfold Torch.cat0. simpl. unfold Py.len in *. simpl.
  rewrite length_fmap, Hr. do 3 f_equal.
  rewrite <- list_fmap_compose.
  erewrite (list_fmap_ext _ id rows); [rewrite list_fmap_id; reflexivity|].
  reflexivity.
Qed.

(** [__call__] after its loop: the feature matrix is built and stored, then
    the classification outputs are added. *)
Lemma body_after_loop (self : DataTransform.t) (window : DataFrame.t)
    (cols : string -> list Q) :
  let fk := feature_keys_of (DataTransform.keys self) in
  2 <= DataFrame.len window ->
  (∀ k, k ∈ DataTransform.keys self -> DataFrame.get k window = Some (cols k)) ->
  fk ≠ [] ->
  ∃ output',
    for_each (DataTransform.column_step window) (DataTransform.keys self) (∅, [])
    = Ok (output',
          (fun k => Torch.Tensor [1; DataFrame.len window - 1]
                      (feature_row k (cols k))) <$> fk) ∧
    (∀ x, (∀ k, k ∈ DataTransform.keys self -> x ≠ k ∧ x ≠ k +:+ "_old") ->
          output' !! x = None) ∧
    DataTransform.body self window
    = (let output :=
         <["features"%string :=
             VTensor (Torch.Tensor [Py.len fk; DataFrame.len window - 1]
                        (concat ((fun k => feature_row k (cols k)) <$> fk)))]>
         output' in
       if String.eqb (DataTransform.task_type self) "classification"
       then DataTransform.add_classification self output
       else Ok output).
Proof.
  intros fk Hn Hcols Hfk.
  destruct (column_loop window cols (DataTransform.keys self) ∅ [] Hn Hcols)
    as (output' & Hloop & Hkeep).
  simpl app in Hloop. fold fk in Hloop.
  exists output'. split; [exact Hloop|]. split.
  { intros x Hx. rewrite (Hkeep x Hx). apply lookup_empty. }
  assert (Hcat : Torch.cat0
            ((fun k => Torch.Tensor [1; DataFrame.len window - 1]
                         (feature_row k (cols k))) <$> fk)
          = Ok (Torch.Tensor [Py.len fk; DataFrame.len window - 1]
                  (concat ((fun k => feature_row k (cols k)) <$> fk)))).
  { rewrite (list_fmap_compose (fun k => feature_row k (cols k))
               (fun r => Torch.Tensor [1; DataFrame.len window - 1] r)).
    rewrite cat0_rows.
    - unfold Py.len. rewrite length_fmap. reflexivity.
    - destruct fk; [congruence | discriminate].
    - apply Forall_fmap, Forall_forall. intros k Hk. simpl.
      apply list_elem_of_filter in Hk as [_ Hk].
      pose proof (get_length _ _ _ (Hcols k Hk)) as Hlen.
      destruct (feature_row_spec k (cols k) ltac:(lia)) as (_ & _ & _ & _ & _ & R).
      lia. }
  unfold DataTransform.body. rewrite Hloop, bind_ok, Hcat, bind_ok. reflexivity.
Qed.

Lemma call_state (self : DataTransform.t) (window : DataFrame.t) :
  let self' := (DataTransform.call self window).1 in
  DataTransform.task_type self' = DataTransform.task_type self ∧
  DataTransform.y_key self' = DataTransform.y_key self ∧
  DataTransform.threshold self' = DataTransform.threshold self ∧
  (DataTransform.call self window).2 = DataTransform.body self' window.
Proof.
  unfold DataTransform.call. simpl. destruct (decide _); auto.
Qed.

(** In the model, [__call__] on a window of [n >= 2] rows that has a
    column for every key returns a sample whose [features] has one row per
    key other than [Timestamp_orig], in the order of the keys, and [n - 1]
    columns: the row of a key is the column without its last value. *)
Lemma transform_call_features (self : DataTransform.t) (window : DataFrame.t)
    (cols : string -> list Q) :
  let self' := (DataTransform.call self window).1 in
  let y := DataTransform.y_key self in
  let fk := feature_keys_of (DataTransform.keys self') in
  2 <= DataFrame.len window ->
  (∀ k, k ∈ DataTransform.keys self' -> DataFrame.get k window = Some (cols k)) ->
  fk ≠ [] ->
  (DataTransform.task_type self = "classification"%string ->
   y ∈ DataTransform.keys self' ∧ y ≠ "features"%string ∧
   ∀ k, k ∈ DataTransform.keys self' -> k +:+ "_old" ≠ y ∧ k ≠ y +:+ "_old") ->
  ∃ sample,
    (DataTransform.call self window).2 = Ok sample ∧
    sample !! "features"%string
    = Some (VTensor (Torch.Tensor [Py.len fk; DataFrame.len window - 1]
                       (concat ((fun k => feature_row k (cols k)) <$> fk)))).
Proof.
  intros self' y fk Hn Hcols Hfk Hcls.
  destruct (body_after_loop self' window cols Hn Hcols Hfk)
    as (output' & Hloop & _ & Hbody).
  destruct (call_state self window) as (Hty & Hy & _ & Hcall).
  fold self' in Hty, Hy, Hcall. rewrite Hcall, Hbody. cbv zeta. rewrite Hty.
  destruct (String.eqb_spec (DataTransform.task_type self) "classification")
    as [Ecls | Ereg].
  - destruct (Hcls Ecls) as (Hyin & Hyf & Hfree).
    pose proof (get_length _ _ _ (Hcols y Hyin)) as Hlen.
    destruct (feature_row_spec y (cols y) ltac:(lia)) as (pre & p & c & E & _).
    destruct (loop_stores_targets window y p c
                (ex_intro _ (cols y) (ex_intro _ pre (conj (Hcols y Hyin) E)))
                (DataTransform.keys self') ∅ [])
      as (o2 & d2 & Hloop2 & [Hs1 Hs2] & _).
    + intros k Hk. pose proof (get_length _ _ _ (Hcols k Hk)) as Hl.
      destruct (feature_row_spec k (cols k) ltac:(lia))
        as (pre' & p' & c' & E' & _).
      exists (cols k), pre', p', c'. split; [apply Hcols, Hk | exact E'].
    + exact Hfree.
    + left. exact Hyin.
    + rewrite Hloop in Hloop2. injection Hloop2 as <- _.
      erewrite add_classification_returns.
      * eexists. split; [reflexivity|].
        rewrite !lookup_insert_ne by discriminate. apply lookup_insert_eq.
      * rewrite Hy, lookup_insert_ne by exact (not_eq_sym Hyf). exact Hs1.
      * rewrite Hy, lookup_insert_ne by (apply not_eq_sym, old_not_features).
        exact Hs2.
  - eexists. split; [reflexivity | apply lookup_insert_eq].
Qed.

Lemma feature_row_snoc (key : string) (cs : list Q) (a b : Q) :
  feature_row key ((cs ++ [a]) ++ [b]) = scaled key (cs ++ [a]).
Proof.
  unfold feature_row, scaled. rewrite <- app_assoc. simpl app.
  destruct (String.eqb key "Volume").
  - rewrite !map_app. simpl List.map. apply slice_drop_last.
  - apply slice_drop_last.
Qed.

(** The column of a window with another last row. *)
Lemma with_last_row_get (key : string) (window : DataFrame.t) (col : list Q)
    (row : Row) (v : Q) :
  DataFrame.get key window = Some col ->
  row !! key = Some v ->
  DataFrame.get key (with_last_row window row) = Some (removelast col ++ [v]).
Proof.
  intros Hget Hv. unfold DataFrame.get in *. cbn [with_last_row DataFrame.columns
                                                   DataFrame.rows].
  destruct (decide (key ∈ DataFrame.columns window)); [|discriminate].
  apply mapM_Some in Hget. apply mapM_Some.
  destruct (DataFrame.rows window) as [|c rs _] using rev_ind.
  - inversion Hget; subst. simpl. constructor; [exact Hv | constructor].
  - apply Forall2_app_inv_l in Hget as (cs & tl & Hrs & Htl & ->).
    inversion Htl as [|? b ? tl' Hb Htl']; subst. inversion Htl'; subst.
    rewrite !removelast_last. apply Forall2_app; [exact Hrs|].
    constructor; [exact Hv | constructor].
Qed.

Lemma with_last_row_len (window : DataFrame.t) (row : Row) :
  1 <= DataFrame.len window ->
  DataFrame.len (with_last_row window row) = DataFrame.len window.
Proof.
  unfold DataFrame.len, with_last_row, Py.len. simpl. intros H.
  destruct (DataFrame.rows window) as [|c rs _] using rev_ind; [simpl in H; lia|].
  rewrite removelast_last, !length_app. reflexivity.
Qed.

Lemma with_last_row_state (self : DataTransform.t) (window : DataFrame.t)
    (row : Row) :
  (DataTransform.call self (with_last_row window row)).1
  = (DataTransform.call self window).1.
Proof. reflexivity. Qed.

(** X7.  [DataTransform.__call__] without the column [Volume], on a window
    of [n >= 2] rows that has a column for every key: the call returns a
    sample whose [features] is a matrix with one row per key other than
    [Timestamp_orig] and [n - 1] columns, and the last row of the window
    never enters it: the same call on the window with any other last row
    returns the same [features]. *)
Theorem X7_transform_features (self : DataTransform.t) (window : DataFrame.t)
    (cols : string -> list Q) :
  let self' := (DataTransform.call self window).1 in
  let y := DataTransform.y_key self in
  let fk := feature_keys_of (DataTransform.keys self') in
  "Volume"%string ∉ DataTransform.keys self' ->
  2 <= DataFrame.len window ->
  (∀ k, k ∈ DataTransform.keys self' -> DataFrame.get k window = Some (cols k)) ->
  fk ≠ [] ->
  (DataTransform.task_type self = "classification"%string ->
   y ∈ DataTransform.keys self' ∧ y ≠ "features"%string ∧
   ∀ k, k ∈ DataTransform.keys self' -> k +:+ "_old" ≠ y ∧ k ≠ y +:+ "_old") ->
  ∃ sample features,
    (DataTransform.call self window).2 = Ok sample ∧
    sample !! "features"%string = Some (VTensor features) ∧
    Torch.shape features = [Py.len fk; DataFrame.len window - 1] ∧
    ∀ row : Row,
      (∀ k, k ∈ DataTransform.keys self' -> is_Some (row !! k)) ->
      ∃ sample',
        (DataTransform.call self (with_last_row window row)).2 = Ok sample' ∧
        sample' !! "features"%string = Some (VTensor features).
Proof.
  intros self' y fk Hvol Hn Hcols Hfk Hcls.
  destruct (transform_call_features self window cols Hn Hcols Hfk Hcls)
    as (sample & Hcall & Hfeat).
  fold self' fk in Hfeat.
  eexists sample, _. split; [exact Hcall|]. split; [exact Hfeat|].
  split; [reflexivity|].
  intros row Hrow.
  set (cols' := fun k => match row !! k with
                         | Some v => removelast (cols k) ++ [v]
                         | None => cols k
                         end).
  destruct (transform_call_features self (with_last_row window row) cols')
    as (sample' & Hcall' & Hfeat').
  - rewrite with_last_row_len by lia. exact Hn.
  - rewrite with_last_row_state. fold self'. intros k Hk.
    unfold cols'. destruct (Hrow k Hk) as [v Hv]. rewrite Hv.
    apply with_last_row_get; [apply Hcols, Hk | exact Hv].
  - rewrite with_last_row_state. exact Hfk.
  - rewrite with_last_row_state. exact Hcls.
  - exists sample'. split; [exact Hcall'|].
    rewrite Hfeat'. rewrite with_last_row_state, with_last_row_len by lia.
    fold self' fk. do 3 f_equal. f_equal.
    apply list_fmap_ext. intros i k Hk.
    apply list_elem_of_lookup_2, list_elem_of_filter in Hk as [_ Hk].
    pose proof (get_length _ _ _ (Hcols k Hk)) as Hlen.
    destruct (last_two (cols k) ltac:(lia)) as (pre & p & c & E).
    unfold cols'. destruct (Hrow k Hk) as [v Hv]. rewrite Hv, E.
    replace (pre ++ [p; c]) with ((pre ++ [p]) ++ [c])
      by (rewrite <- app_assoc; reflexivity).
    rewrite removelast_last, !feature_row_snoc. reflexivity.
Qed.

(** ** Frames of bars *)

Lemma bar_row_lookup (b : Bar) :
  bar_row b !! "Timestamp"%string = Some (inject_Z (Timestamp b)) ∧
  bar_row b !! "High"%string = Some (High b) ∧
  bar_row b !! "Low"%string = Some (Low b) ∧
  bar_row b !! "Open"%string = Some (Open b) ∧
  bar_row b !! "Close"%string = Some (Close b) ∧
  bar_row b !! "Volume"%string = Some (Volume b).
Proof.
  unfold bar_row.
  repeat split;
    repeat (rewrite lookup_insert_ne by discriminate); apply lookup_insert_eq.
Qed.

Lemma bar_frame_get (bars : list Bar) (key : string) (f : Bar -> Q) :
  (∀ b, bar_row b !! key = Some (f b)) ->
  DataFrame.get key (bar_frame bars) = Some (f <$> bars).
Proof.
  intros Hf. unfold DataFrame.get.
  destruct (decide (key ∈ DataFrame.columns (bar_frame bars))) as [_ | Hout].
  - apply mapM_Some. simpl. apply Forall2_fmap, Forall2_same_length_lookup_2.
    + reflexivity.
    + intros i x y Hx Hy. rewrite Hx in Hy. injection Hy as <-. apply Hf.
  - exfalso. apply Hout. simpl.
    assert (Hdom : is_Some (bar_row (mkBar 0 0 0 0 0 0) !! key))
      by (rewrite Hf; eauto).
    unfold bar_row in Hdom.
    repeat (apply lookup_insert_is_Some in Hdom as [<- | [_ Hdom]];
            [set_solver|]).
    rewrite lookup_empty in Hdom. destruct Hdom; discriminate.
Qed.

Lemma bar_frame_len (bars : list Bar) :
  DataFrame.len (bar_frame bars) = Py.len bars.
Proof. unfold DataFrame.len, Py.len. simpl. rewrite length_fmap. reflexivity. Qed.

Lemma bar_frame_call (self : DataTransform.t) (bars : list Bar) :
  DataTransform.call self (bar_frame bars)
  = (self, DataTransform.body self (bar_frame bars)).
Proof.
  apply call_without_orig. simpl. intros H.
  repeat (apply elem_of_cons in H as [H | H]; [discriminate H|]).
  inversion H.
Qed.

Lemma bar_column_get (bars : list Bar) (key : string) :
  key ∈ ["Timestamp"; "High"; "Low"; "Open"; "Close"; "Volume"]%string ->
  DataFrame.get key (bar_frame bars) = Some (bar_column bars key).
Proof.
  intros H. unfold bar_column.
  destruct (DataFrame.get key (bar_frame bars)) eqn:E; [reflexivity|].
  exfalso. destruct (bar_row_lookup (mkBar 0 0 0 0 0 0)) as (_ & _).
  repeat (apply elem_of_cons in H as [-> | H];
          [match type of E with
           | DataFrame.get ?k _ = None =>
               first
                 [ rewrite (bar_frame_get bars k (fun b => inject_Z (Timestamp b)))
                     in E by (intros b; apply (bar_row_lookup b))
                 | rewrite (bar_frame_get bars k High)
                     in E by (intros b; apply (bar_row_lookup b))
                 | rewrite (bar_frame_get bars k Low)
                     in E by (intros b; apply (bar_row_lookup b))
                 | rewrite (bar_frame_get bars k Open)
                     in E by (intros b; apply (bar_row_lookup b))
                 | rewrite (bar_frame_get bars k Close)
                     in E by (intros b; apply (bar_row_lookup b))
                 | rewrite (bar_frame_get bars k Volume)
                     in E by (intros b; apply (bar_row_lookup b)) ]
           end; discriminate E|]).
  inversion H.
Qed.

Lemma X7_transform_features_witness :
  ∃ sample features,
    (DataTransform.call transform_1e3 (bar_frame six_bars)).2 = Ok sample ∧
    sample !! "features"%string = Some (VTensor features) ∧
    Torch.shape features
    = [Py.len (feature_keys_of
                 (DataTransform.keys
                    (DataTransform.call transform_1e3 (bar_frame six_bars)).1));
       DataFrame.len (bar_frame six_bars) - 1] ∧
    ∀ row : Row,
      (∀ k, k ∈ DataTransform.keys
                  (DataTransform.call transform_1e3 (bar_frame six_bars)).1 ->
            is_Some (row !! k)) ->
      ∃ sample',
        (DataTransform.call transform_1e3
           (with_last_row (bar_frame six_bars) row)).2 = Ok sample' ∧
        sample' !! "features"%string = Some (VTensor features).
Proof.
  apply (X7_transform_features transform_1e3 (bar_frame six_bars)
           (bar_column six_bars)).
  - rewrite bar_frame_call. simpl. intros H.
    repeat (apply elem_of_cons in H as [H | H]; [discriminate H|]).
    inversion H.
  - rewrite bar_frame_len. vm_compute. discriminate.
  - rewrite bar_frame_call. simpl. intros k Hk. apply bar_column_get.
    rewrite list_elem_of_In in Hk |- *. simpl in *. tauto.
  - rewrite bar_frame_call. vm_compute. discriminate.
  - intros _. rewrite bar_frame_call. simpl.
    split; [apply list_elem_of_In; simpl; tauto|]. split; [discriminate|].
    intros k Hk.
    repeat (apply elem_of_cons in Hk as [-> | Hk]; [split; discriminate|]).
    inversion Hk.
Defined.

(** X8.  A classification transform whose target column is not one of its
    keys (for instance [y_key = 'Volume'] without [use_volume]) raises
    [KeyError] on every window that the loop itself accepts: the loop stores
    no entry under the target key. *)
Theorem X8_target_outside_keys (self : DataTransform.t) (window : DataFrame.t)
    (cols : string -> list Q) :
  let self' := (DataTransform.call self window).1 in
  let y := DataTransform.y_key self in
  DataTransform.task_type self = "classification"%string ->
  2 <= DataFrame.len window ->
  (∀ k, k ∈ DataTransform.keys self' -> DataFrame.get k window = Some (cols k)) ->
  feature_keys_of (DataTransform.keys self') ≠ [] ->
  y ≠ "features"%string ->
  (∀ k, k ∈ DataTransform.keys self' -> y ≠ k ∧ y ≠ k +:+ "_old") ->
  (DataTransform.call self window).2 = Raise KeyError.
Proof.
  intros self' y Hcls Hn Hcols Hfk Hyf Hout.
  destruct (body_after_loop self' window cols Hn Hcols Hfk)
    as (output' & _ & Hnone & Hbody).
  destruct (call_state self window) as (Hty & Hy & _ & Hcall).
  fold self' in Hty, Hy, Hcall. rewrite Hcall, Hbody. cbv zeta.
  rewrite Hty, Hcls. change ("classification" =? "classification")%string with true.
  cbv iota. unfold DataTransform.add_classification, dict_getitem.
  rewrite Hy.
  rewrite (lookup_insert_ne _ _ (DataTransform.y_key self))
    by exact (not_eq_sym Hyf).
  rewrite (Hnone (DataTransform.y_key self) Hout). reflexivity.
Qed.

Lemma X8_target_outside_keys_witness :
  (DataTransform.call
     (DataTransform.init true false "classification" (1 # 1000) "Volume")
     (bar_frame six_bars)).2
  = Raise KeyError.
Proof.
  apply (X8_target_outside_keys _ _ (bar_column six_bars)).
  - reflexivity.
  - rewrite bar_frame_len. vm_compute. discriminate.
  - rewrite bar_frame_call. simpl. intros k Hk. apply bar_column_get.
    rewrite list_elem_of_In in Hk |- *. simpl in *. tauto.
  - rewrite bar_frame_call. vm_compute. discriminate.
  - discriminate.
  - rewrite bar_frame_call. simpl. intros k Hk.
    repeat (apply elem_of_cons in Hk as [-> | Hk]; [split; discriminate|]).
    inversion Hk.
Defined.

(** X9.  [DataTransform.__call__] on a window of fewer than two rows never
    returns a sample.  Without keys it raises the [RuntimeError] of
    [torch.cat] of an empty list; otherwise the first key decides: a window
    without that column raises [AttributeError] ([None.tolist()]), and a
    column of fewer than two values raises [IndexError] at [data[-1]] or
    [data[-2]]. *)
Theorem X9_short_window (self : DataTransform.t) (window : DataFrame.t) :
  let self' := (DataTransform.call self window).1 in
  DataFrame.len window < 2 ->
  (DataTransform.call self window).2
  = match DataTransform.keys self' with
    | [] => Raise RuntimeError
    | k :: _ => match DataFrame.get k window with
                | Some _ => Raise IndexError
                | None => Raise AttributeError
                end
    end.
Proof.
  intros self' Hn.
  destruct (call_state self window) as (_ & _ & _ & Hcall).
  fold self' in Hcall. rewrite Hcall. unfold DataTransform.body.
  destruct (DataTransform.keys self') as [|k ks]; [reflexivity|].
  assert (Hstep : DataTransform.column_step window (∅, []) k
                  = match DataFrame.get k window with
                    | Some _ => Raise IndexError
                    | None => Raise AttributeError
                    end).
  { unfold DataTransform.column_step.
    destruct (DataFrame.get k window) as [col|] eqn:Hget; [|reflexivity].
    pose proof (get_length _ _ _ Hget) as Hlen.
    rewrite bind_ok. cbv zeta.
    set (data := if String.eqb k "Volume"
                 then Torch.map (fun x => x / 1000000000)%Q (Torch.of_list col)
                 else Torch.of_list col).
    assert (Hdata : data = Torch.Tensor [Py.len col] (scaled k col)).
    { unfold data, scaled. destruct (String.eqb k "Volume"); reflexivity. }
    rewrite Hdata. unfold Torch.getitem. cbn [Torch.shape Torch.storage].
    pose proof (scaled_length k col) as Hsl.
    destruct (scaled k col) as [|x [|x' l]].
    - reflexivity.
    - reflexivity.
    - unfold Py.len in Hsl, Hlen. simpl in Hsl. lia. }
  rewrite for_each_cons, Hstep.
  destruct (DataFrame.get k window); reflexivity.
Qed.

Lemma X9_short_window_witness :
  (DataTransform.call transform_1e3 (bar_frame [bar_at 0 100])).2
  = Raise IndexError.
Proof.
  rewrite (X9_short_window transform_1e3 (bar_frame [bar_at 0 100])).
  - rewrite bar_frame_call. simpl.
    rewrite (bar_column_get [bar_at 0 100] "Timestamp").
    + reflexivity.
    + apply list_elem_of_In. simpl. tauto.
  - rewrite bar_frame_len. vm_compute. reflexivity.
Defined.

(** ** The returns of the dataset and of the transform *)

Lemma return_of_scaled (c p s : Q) :
  ¬ (s == 0)%Q -> (return_of (c / s) (p / s) == return_of c p)%Q.
Proof.
  intros Hs. unfold return_of.
  destruct (Qeq_bool_reflect (p / s) 0) as [E1 | E1];
    destruct (Qeq_bool_reflect p 0) as [E2 | E2].
  - reflexivity.
  - exfalso. apply E2.
    assert (H : (p == (p / s) * s)%Q) by (field; exact Hs).
    rewrite E1 in H. rewrite H. ring.
  - exfalso. apply E1. rewrite E2. field. exact Hs.
  - field. split; assumption.
Qed.


Lemma window_rows {A} (l : list A) (i ws : Z) :
  0 <= i -> 0 <= ws -> i + ws + 1 <= Py.len l ->
  Py.slice (Some i) (Some (i + ws + 1)) l
  = take (Z.to_nat (ws + 1)) (drop (Z.to_nat i) l).
Proof.
  intros Hi Hws Hlen. rewrite <- Z.add_assoc. apply slice_window; lia.
Qed.





(** ** The last row of the table *)

Lemma take_drop_prefix {A} (l : list A) (i k m : nat) :
  (i + k <= m)%nat -> take k (drop i (take m l)) = take k (drop i l).
Proof.
  intros H. apply list_eq. intros j.
  destruct (decide (j < k)%nat) as [Hj | Hj].
  - rewrite !lookup_take_lt by lia. rewrite !lookup_drop.
    rewrite lookup_take_lt by lia. reflexivity.
  - rewrite !lookup_take_ge by lia. reflexivity.
Qed.

(** X6.  [__len__] stops one window early.  On a table of at least
    [window_size + 1] rows every window of a valid index is a window of the
    table without its last row, so the last row of the table is never part
    of a sample; the index [len(self)] itself, which [__len__] excludes,
    still selects a full window: the last [window_size + 1] rows. *)
Theorem X6_last_row_never_sampled {T : Type} (self : CMambaDataset.t T) :
  let rows := DataFrame.rows (CMambaDataset.data self) in
  let ws := CMambaDataset.window_size self in
  0 <= ws ->
  ws + 1 <= Py.len rows ->
  (∀ i, 0 <= i < CMambaDataset.len self ->
     DataFrame.rows (CMambaDataset.window self i)
     = take (Z.to_nat (ws + 1)) (drop (Z.to_nat i) (removelast rows))) ∧
  DataFrame.rows (CMambaDataset.window self (CMambaDataset.len self))
  = drop (Z.to_nat (Py.len rows - ws - 1)) rows ∧
  DataFrame.len (CMambaDataset.window self (CMambaDataset.len self)) = ws + 1.
Proof.
  intros rows ws Hws Hn.
  assert (Hlen : CMambaDataset.len self = Py.len rows - ws - 1).
  { unfold CMambaDataset.len, DataFrame.len. fold rows ws. lia. }
  assert (Hlast : DataFrame.rows (CMambaDataset.window self (CMambaDataset.len self))
                  = drop (Z.to_nat (Py.len rows - ws - 1)) rows).
  { unfold CMambaDataset.window, DataFrame.iloc_slice. simpl. fold rows ws.
    rewrite Hlen, window_rows by lia.
    apply take_ge. rewrite length_drop. unfold Py.len. lia. }
  split; [|split].
  - intros i Hi. rewrite Hlen in Hi.
    unfold CMambaDataset.window, DataFrame.iloc_slice. simpl. fold rows ws.
    rewrite window_rows by lia.
    rewrite removelast_firstn_len. symmetry. apply take_drop_prefix.
    unfold Py.len in *. lia.
  - exact Hlast.
  - unfold DataFrame.len. rewrite Hlast. unfold Py.len.
    rewrite length_drop. unfold Py.len in Hn. lia.
Qed.

Lemma X6_last_row_never_sampled_witness :
  (∀ i, 0 <= i < CMambaDataset.len six_dataset ->
     DataFrame.rows (CMambaDataset.window six_dataset i)
     = take (Z.to_nat (3 + 1))
         (drop (Z.to_nat i) (removelast (bar_row <$> six_bars)))) ∧
  DataFrame.rows (CMambaDataset.window six_dataset (CMambaDataset.len six_dataset))
  = drop (Z.to_nat (Py.len (bar_row <$> six_bars) - 3 - 1)) (bar_row <$> six_bars) ∧
  DataFrame.len (CMambaDataset.window six_dataset (CMambaDataset.len six_dataset))
  = 3 + 1.
Proof.
  refine (X6_last_row_never_sampled six_dataset _ _).
  - simpl. lia.
  - change (DataFrame.rows (CMambaDataset.data six_dataset))
      with (bar_row <$> six_bars).
    unfold Py.len. rewrite length_fmap. vm_compute. discriminate.
Defined.

(** ** [ClassificationTransform.__call__], end to end *)

Lemma mapM_truediv (m d : Q) (values : list Q) :
  ¬ (d == 0)%Q ->
  mapM (fun v => Py.truediv (v - m) d) values
  = Ok ((fun v => (v - m) / d)%Q <$> values).
Proof.
  intros Hd. induction values as [|v values IH]; [reflexivity|].
  cbn [mapM]. rewrite truediv_nonzero by exact Hd.
  rewrite bind_ok, IH, bind_ok. reflexivity.
Qed.

Lemma min_of_cons (x : Q) (xs : list Q) :
  ClassificationTransform.min_of (x :: xs) = Ok (fold_left Py.min xs x).
Proof. reflexivity. Qed.

Lemma max_of_cons (x : Q) (xs : list Q) :
  ClassificationTransform.max_of (x :: xs) = Ok (fold_left Py.max xs x).
Proof. reflexivity. Qed.

(** The normalisation of a feature column that is not empty never fails
    and keeps the length of the column. *)
Lemma normalize_values_total (self : ClassificationTransform.t) (key : string)
    (values : list Q) :
  values ≠ [] ->
  ∃ out, ClassificationTransform.normalize_values self key values = Ok out ∧
         Py.len out = Py.len values.
Proof.
  intros Hne. unfold ClassificationTransform.normalize_values.
  destruct (ClassificationTransform.factors self) as [fs|]; [|eauto].
  destruct values as [|x xs]; [congruence|].
  rewrite min_of_cons, bind_ok, max_of_cons, bind_ok.
  set (mn := default (fold_left Py.min xs x) _).
  set (mx := default (fold_left Py.max xs x) _).
  unfold Qgt_bool. destruct (Qlt_bool_reflect mn mx) as [Hlt | Hge]; [|eauto].
  rewrite mapM_truediv by lra.
  eexists. split; [reflexivity|]. unfold Py.len. rewrite length_fmap. reflexivity.
Qed.

Lemma features_loop (self : ClassificationTransform.t) (fdf : DataFrame.t)
    (m : Z) (ks : list string) (acc : list (list Q)) :
  1 <= m ->
  (∀ k, k ∈ ks -> ∃ col, DataFrame.get k fdf = Some col ∧ Py.len col = m) ->
  ∃ outs,
    for_each (fun acc key =>
                values ← DataFrame.col key fdf;
                values ← ClassificationTransform.normalize_values self key values;
                Ok (acc ++ [values]))
             ks acc
    = Ok (acc ++ outs) ∧
    length outs = length ks ∧
    Forall (fun o => Py.len o = m) outs.
Proof.
  intros Hm. revert acc. induction ks as [|k ks IH]; intros acc Hcols.
  - exists []. rewrite app_nil_r. repeat split; constructor.
  - destruct (Hcols k ltac:(left)) as (col & Hget & Hlen).
    destruct (normalize_values_total self k col) as (out & Hout & Hol).
    { intros ->. unfold Py.len in Hlen. simpl in Hlen. lia. }
    destruct (IH (acc ++ [out])) as (outs & Hloop & Hl & Hall).
    { intros k' Hk'. apply Hcols. right. exact Hk'. }
    assert (Hc : DataFrame.col k fdf = Ok col)
      by (unfold DataFrame.col; rewrite Hget; reflexivity).
    exists (out :: outs). rewrite for_each_cons. cbv beta.
    rewrite Hc, bind_ok, Hout, !bind_ok, Hloop.
    rewrite <- app_assoc. split; [reflexivity|].
    split; [simpl; lia|]. constructor; [lia | exact Hall].
Qed.

(** The last two rows of a frame hold the last two values of a column. *)
Lemma get_last_two (key : string) (df : DataFrame.t) (col : list Q)
    (pre : list Row) (prev cur : Row) :
  DataFrame.get key df = Some col ->
  DataFrame.rows df = pre ++ [prev; cur] ->
  ∃ cpre p c, col = cpre ++ [p; c] ∧ prev !! key = Some p ∧ cur !! key = Some c.
Proof.
  intros Hget Hrows. unfold DataFrame.get in Hget.
  destruct (decide (key ∈ DataFrame.columns df)); [|discriminate].
  apply mapM_Some in Hget. rewrite Hrows in Hget.
  apply Forall2_app_inv_l in Hget as (cpre & tl & _ & Htl & ->).
  inversion Htl as [|? p ? tl' Hp Htl' ]; subst.
  inversion Htl' as [|? c ? tl'' Hc Htl'']; subst.
  inversion Htl''; subst.
  exists cpre, p, c. auto.
Qed.

Lemma classification_call_ok (self : ClassificationTransform.t)
    (data : DataFrame.t) (cols : string -> list Q) :
  let y := ClassificationTransform.y_key self in
  2 <= DataFrame.len data ->
  ClassificationTransform.feature_keys self ≠ [] ->
  (∀ k, k ∈ "Timestamp"%string :: y :: ClassificationTransform.feature_keys self ->
        DataFrame.get k data = Some (cols k)) ->
  ∃ sample features,
    ClassificationTransform.call self data = Ok sample ∧
    dom sample
    = ({[ "features"; y; y +:+ "_old"; "returns"; "timestamp" ]}%string
       : gset string) ∧
    (y ≠ "features"%string -> sample !! "features"%string = Some (VTensor features)) ∧
    Torch.shape features
    = [DataFrame.len data - 1; Py.len (ClassificationTransform.feature_keys self)].
Proof.
  intros y Hn Hfk Hcols.
  destruct (last_two (DataFrame.rows data) Hn) as (pre & prev & cur & Hrows).
  destruct (index_last_two pre prev cur) as [Hcur Hprev].
  rewrite <- Hrows in Hcur, Hprev.
  destruct (get_last_two _ _ _ pre prev cur
              (Hcols "Timestamp"%string ltac:(left)) Hrows)
    as (tpre & tp & ts & Hts & _ & Hcts).
  destruct (get_last_two _ _ _ pre prev cur
              (Hcols y ltac:(right; left)) Hrows)
    as (ypre & v_old & v & Hy & Hvold & Hv).
  set (fdf := DataFrame.iloc_slice None (Some (-1)) data).
  destruct (features_loop self fdf (DataFrame.len data - 1)
              (ClassificationTransform.feature_keys self) [])
    as (outs & Hloop & Hol & Hall); [lia| |].
  { intros k Hk. exists (Py.slice None (Some (-1)) (cols k)).
    assert (Hg : DataFrame.get k data = Some (cols k))
      by (apply Hcols; right; right; exact Hk).
    split; [apply get_iloc_slice, Hg|].
    pose proof (get_length _ _ _ Hg) as Hl.
    destruct (last_two (cols k) ltac:(lia)) as (cpre & p & c & E).
    rewrite E, slice_drop_last. rewrite E in Hl. unfold Py.len in *.
    rewrite !length_app in *. simpl in *. lia. }
  simpl app in Hloop.
  destruct outs as [|o outs].
  { destruct (ClassificationTransform.feature_keys self); [congruence|].
    simpl in Hol. lia. }
  apply Forall_cons in Hall as [Ho _].
  destruct (ClassificationTransform.normalize_target self v v_old)
    as [[yn yn_old]|e] eqn:Hnorm.
  2:{ exfalso. unfold ClassificationTransform.normalize_target in Hnorm.
      destruct (ClassificationTransform.factors self) as [fs|]; [|discriminate].
      revert Hnorm.
      set (mn := default 0%Q _). set (mx := default 1%Q _).
      unfold Qgt_bool. destruct (Qlt_bool_reflect mn mx) as [Hlt | Hge];
        [|discriminate].
      rewrite !truediv_nonzero by lra. discriminate. }
  eexists _, (Torch.Tensor [Py.len o; Py.len (o :: outs)] _).
  split.
  { assert (Dts : dict_getitem cur "Timestamp" = Ok ts)
      by (unfold dict_getitem; rewrite Hcts; reflexivity).
    assert (Dv : dict_getitem cur y = Ok v)
      by (unfold dict_getitem; rewrite Hv; reflexivity).
    assert (Dvold : dict_getitem prev y = Ok v_old)
      by (unfold dict_getitem; rewrite Hvold; reflexivity).
    unfold ClassificationTransform.call, DataFrame.iloc.
    rewrite Hcur, bind_ok, Dts, !bind_ok, Hprev, bind_ok.
    fold fdf. rewrite Hloop, bind_ok.
    unfold ClassificationTransform.stack_axis1. rewrite bind_ok.
    fold y. rewrite Dv, bind_ok, Dvold, bind_ok.
    rewrite Hnorm, bind_ok.
    unfold ClassificationTransform.compute_returns.
    rewrite guarded_division, bind_ok. reflexivity. }
  split.
  { rewrite !dom_insert_L, dom_empty_L. apply set_eq. intros x.
    rewrite !elem_of_union, !elem_of_singleton, elem_of_empty. tauto. }
  split.
  { intros Hyf.
    rewrite lookup_insert_ne by discriminate.
    rewrite lookup_insert_ne by discriminate.
    rewrite lookup_insert_ne by apply old_not_features.
    rewrite lookup_insert_ne by exact Hyf.
    apply lookup_insert_eq. }
  cbn [Torch.shape]. rewrite Ho. unfold Py.len. rewrite Hol. reflexivity.
Qed.

(** X11.  [ClassificationTransform.__call__] on a table of [n >= 2] rows
    that has the columns [Timestamp], the target and every feature key
    returns a sample; no normalisation divides by zero.  The sample has
    exactly the keys [features], the target, the target with [_old],
    [returns] and [timestamp] (no [target_class]: the transform never uses
    its threshold), and [features] has [n - 1] rows and one column per
    feature key. *)
Theorem X11_classification_sample (self : ClassificationTransform.t)
    (data : DataFrame.t) (cols : string -> list Q) :
  let y := ClassificationTransform.y_key self in
  2 <= DataFrame.len data ->
  ClassificationTransform.feature_keys self ≠ [] ->
  (∀ k, k ∈ "Timestamp"%string :: y :: ClassificationTransform.feature_keys self ->
        DataFrame.get k data = Some (cols k)) ->
  ∃ sample features,
    ClassificationTransform.call self data = Ok sample ∧
    dom sample
    = ({[ "features"; y; y +:+ "_old"; "returns"; "timestamp" ]}%string
       : gset string) ∧
    (y ≠ "features"%string -> sample !! "features"%string = Some (VTensor features)) ∧
    Torch.shape features
    = [DataFrame.len data - 1; Py.len (ClassificationTransform.feature_keys self)].
Proof. exact (classification_call_ok self data cols). Qed.

Lemma X11_classification_sample_witness :
  ∃ sample features,
    ClassificationTransform.call factor_transform (bar_frame four_bars) = Ok sample ∧
    dom sample
    = ({[ "features"; "Close"; "Close" +:+ "_old"; "returns"; "timestamp" ]}%string
       : gset string) ∧
    ("Close"%string ≠ "features"%string ->
     sample !! "features"%string = Some (VTensor features)) ∧
    Torch.shape features
    = [DataFrame.len (bar_frame four_bars) - 1;
       Py.len (ClassificationTransform.feature_keys factor_transform)].
Proof.
  refine (X11_classification_sample factor_transform (bar_frame four_bars)
            (bar_column four_bars) _ _ _).
  - rewrite bar_frame_len. vm_compute. discriminate.
  - discriminate.
  - simpl. intros k Hk. apply bar_column_get.
    rewrite list_elem_of_In in Hk |- *. simpl in *. tauto.
Defined.

(** ** The return of normalised targets *)

Lemma return_of_proper (c c' p p' : Q) :
  (c == c')%Q -> (p == p')%Q -> (return_of c p == return_of c' p')%Q.
Proof.
  intros Ec Ep. unfold return_of.
  destruct (Qeq_bool_reflect p 0) as [E1 | E1];
    destruct (Qeq_bool_reflect p' 0) as [E2 | E2].
  - reflexivity.
  - exfalso. apply E2. rewrite <- Ep. exact E1.
  - exfalso. apply E1. rewrite Ep. exact E2.
  - rewrite Ec, Ep. reflexivity.
Qed.

(** X12.  The [returns] of a [ClassificationTransform] sample.  Without
    factors it is the return of the last two target values [v_old], [v]:
    [(v - v_old) / v_old], or 0 when [v_old] is 0.  With factors
    [min < max] for the target it is the return of the normalised values,
    which is [(v - v_old) / (v_old - min)], or 0 when [v_old] equals [min]:
    the maximum cancels, the minimum does not. *)
Theorem X12_normalised_return (self : ClassificationTransform.t)
    (data : DataFrame.t) (cols : string -> list Q) :
  let y := ClassificationTransform.y_key self in
  2 <= DataFrame.len data ->
  ClassificationTransform.feature_keys self ≠ [] ->
  (∀ k, k ∈ "Timestamp"%string :: y :: ClassificationTransform.feature_keys self ->
        DataFrame.get k data = Some (cols k)) ->
  ∃ sample pre v_old v r,
    ClassificationTransform.call self data = Ok sample ∧
    cols y = pre ++ [v_old; v] ∧
    sample !! "returns"%string = Some (VTensor (Torch.scalar r)) ∧
    (ClassificationTransform.factors self = None -> r = return_of v v_old) ∧
    (∀ fs f mn mx,
       ClassificationTransform.factors self = Some fs ->
       fs !! y = Some f ->
       f !! "min"%string = Some mn ->
       f !! "max"%string = Some mx ->
       (mn < mx)%Q ->
       (r == if Qeq_bool v_old mn then 0 else (v - v_old) / (v_old - mn))%Q).
Proof.
  intros y Hn Hfk Hcols.
  destruct (classification_call_ok self data cols Hn Hfk Hcols)
    as (sample & _ & Hcall & _).
  destruct (classification_call_returns self data sample Hcall)
    as (cur & prev & v & v_old & yn & yn_old & Hcur & Hprev & Hv & Hvold
        & Hnorm & Hret).
  destruct (last_two (DataFrame.rows data) Hn) as (rpre & prev' & cur' & Hrows).
  destruct (index_last_two rpre prev' cur') as [Hcur' Hprev'].
  unfold DataFrame.iloc in Hcur, Hprev. rewrite Hrows in Hcur, Hprev.
  rewrite Hcur' in Hcur. rewrite Hprev' in Hprev.
  injection Hcur as ->. injection Hprev as ->.
  destruct (get_last_two _ _ _ rpre prev cur (Hcols y ltac:(right; left)) Hrows)
    as (pre & p & c & Hy & Hp & Hc).
  fold y in Hv, Hvold. rewrite Hp in Hvold. rewrite Hc in Hv.
  injection Hv as ->. injection Hvold as ->.
  exists sample, pre, v_old, v, (return_of yn yn_old).
  split; [exact Hcall|]. split; [exact Hy|]. split; [exact Hret|]. split.
  - intros Hnone. unfold ClassificationTransform.normalize_target in Hnorm.
    rewrite Hnone in Hnorm. injection Hnorm as -> ->. reflexivity.
  - intros fs f mn mx Hfs Hf Hmn Hmx Hlt.
    unfold ClassificationTransform.normalize_target in Hnorm.
    fold y in Hnorm. rewrite Hfs, Hf in Hnorm. simpl default in Hnorm.
    rewrite Hmn, Hmx in Hnorm. simpl default in Hnorm.
    unfold Qgt_bool in Hnorm.
    destruct (Qlt_bool_reflect mn mx); [|contradiction].
    rewrite !truediv_nonzero in Hnorm by lra.
    rewrite !bind_ok in Hnorm. injection Hnorm as <- <-.
    rewrite return_of_scaled by lra.
    unfold return_of.
    destruct (Qeq_bool_reflect (v_old - mn) 0) as [E1 | E1];
      destruct (Qeq_bool_reflect v_old mn) as [E2 | E2].
    + reflexivity.
    + exfalso. apply E2. lra.
    + exfalso. apply E1. lra.
    + field. exact E1.
Qed.

Lemma X12_normalised_return_witness :
  ∃ sample pre v_old v r,
    ClassificationTransform.call factor_transform (bar_frame four_bars) = Ok sample ∧
    bar_column four_bars "Close" = pre ++ [v_old; v] ∧
    sample !! "returns"%string = Some (VTensor (Torch.scalar r)) ∧
    (ClassificationTransform.factors factor_transform = None ->
     r = return_of v v_old) ∧
    (∀ fs f mn mx,
       ClassificationTransform.factors factor_transform = Some fs ->
       fs !! "Close"%string = Some f ->
       f !! "min"%string = Some mn ->
       f !! "max"%string = Some mx ->
       (mn < mx)%Q ->
       (r == if Qeq_bool v_old mn then 0 else (v - v_old) / (v_old - mn))%Q).
Proof.
  refine (X12_normalised_return factor_transform (bar_frame four_bars)
            (bar_column four_bars) _ _ _).
  - rewrite bar_frame_len. vm_compute. discriminate.
  - discriminate.
  - simpl. intros k Hk. apply bar_column_get.
    rewrite list_elem_of_In in Hk |- *. simpl in *. tauto.
Defined.

(** ** The normalisation of a feature column *)

Lemma fold_min_spec (xs : list Q) (x : Q) :
  is_min_of (fold_left Py.min xs x) (x :: xs).
Proof.
  revert x. induction xs as [|a xs IH]; intros x.
  - split; [left|]. intros y Hy. apply list_elem_of_singleton in Hy as ->.
    simpl. lra.
  - simpl. destruct (py_min_spec x a) as (E & H1 & H2).
    remember (Py.min x a) as m eqn:Em. clear Em.
    destruct (IH m) as [Hin Hle]. split.
    + apply elem_of_cons in Hin as [Hin | Hin].
      * rewrite Hin. destruct E as [E | E]; rewrite E; [left | right; left].
      * right. right. exact Hin.
    + intros y Hy. pose proof (Hle m ltac:(left)) as Hm.
      rewrite !elem_of_cons in Hy.
      destruct Hy as [-> | [-> | Hy]]; [lra | lra | apply Hle; right; exact Hy].
Qed.

Lemma fold_max_spec (xs : list Q) (x : Q) :
  is_max_of (fold_left Py.max xs x) (x :: xs).
Proof.
  revert x. induction xs as [|a xs IH]; intros x.
  - split; [left|]. intros y Hy. apply list_elem_of_singleton in Hy as ->.
    simpl. lra.
  - simpl. destruct (py_max_spec x a) as (E & H1 & H2).
    remember (Py.max x a) as m eqn:Em. clear Em.
    destruct (IH m) as [Hin Hle]. split.
    + apply elem_of_cons in Hin as [Hin | Hin].
      * rewrite Hin. destruct E as [E | E]; rewrite E; [left | right; left].
      * right. right. exact Hin.
    + intros y Hy. pose proof (Hle m ltac:(left)) as Hm.
      rewrite !elem_of_cons in Hy.
      destruct Hy as [-> | [-> | Hy]]; [lra | lra | apply Hle; right; exact Hy].
Qed.

(** X13.  The normalisation of a feature column whose factor has both
    entries [min] and [max].  An empty column raises [ValueError] all the
    same, because the defaults [min(values)] and [max(values)] are
    evaluated before [factor.get] looks anything up.  Otherwise, with
    [min < max] every value [v] becomes [(v - min) / (max - min)], which
    keeps the order of the values and lies in [0, 1] exactly when
    [min <= v <= max]; with [max <= min] the column is returned as it
    is. *)
Theorem X13_feature_normalisation (self : ClassificationTransform.t)
    (key : string) (fs : Factors) (f : gmap string Q) (mn mx : Q)
    (values : list Q) :
  ClassificationTransform.factors self = Some fs ->
  fs !! key = Some f ->
  f !! "min"%string = Some mn ->
  f !! "max"%string = Some mx ->
  (values = [] ->
   ClassificationTransform.normalize_values self key values = Raise ValueError) ∧
  (values ≠ [] -> (mn < mx)%Q ->
   ClassificationTransform.normalize_values self key values
   = Ok ((fun v => (v - mn) / (mx - mn))%Q <$> values) ∧
   (∀ v w, (v <= w)%Q -> ((v - mn) / (mx - mn) <= (w - mn) / (mx - mn))%Q) ∧
   (∀ v, (0 <= (v - mn) / (mx - mn))%Q ∧ ((v - mn) / (mx - mn) <= 1)%Q
         <-> (mn <= v)%Q ∧ (v <= mx)%Q)) ∧
  (values ≠ [] -> (mx <= mn)%Q ->
   ClassificationTransform.normalize_values self key values = Ok values).
Proof.
  intros Hfs Hf Hmn Hmx.
  unfold ClassificationTransform.normalize_values. rewrite Hfs, Hf.
  simpl default. split; [|split].
  - intros ->. reflexivity.
  - intros Hne Hlt. destruct values as [|x xs]; [congruence|].
    rewrite min_of_cons, bind_ok, max_of_cons, bind_ok, Hmn, Hmx.
    simpl default. unfold Qgt_bool.
    destruct (Qlt_bool_reflect mn mx); [|contradiction].
    split; [apply mapM_truediv; lra|].
    assert (Hd : (0 < mx - mn)%Q) by lra.
    assert (Hdiv : ∀ a, (a / (mx - mn) * (mx - mn) == a)%Q)
      by (intros a; field; lra).
    split.
    + intros v w Hvw. apply Qmult_le_r with (z := (mx - mn)%Q); [exact Hd|].
      rewrite !Hdiv. lra.
    + intros v. split.
      * intros [H0 H1].
        apply (Qmult_le_r _ _ (mx - mn)%Q Hd) in H0, H1.
        rewrite Hdiv in H0, H1. lra.
      * intros [H0 H1]. split.
        -- apply (Qmult_le_r _ _ (mx - mn)%Q Hd). rewrite Hdiv. lra.
        -- apply (Qmult_le_r _ _ (mx - mn)%Q Hd). rewrite Hdiv. lra.
  - intros Hne Hle. destruct values as [|x xs]; [congruence|].
    rewrite min_of_cons, bind_ok, max_of_cons, bind_ok, Hmn, Hmx.
    simpl default. unfold Qgt_bool.
    destruct (Qlt_bool_reflect mn mx); [lra | reflexivity].
Qed.

Lemma X13_feature_normalisation_witness :
  (([] : list Q) = [] ->
   ClassificationTransform.normalize_values factor_transform "Close" []
   = Raise ValueError) ∧
  ([100; 120]%Q ≠ [] -> (50 < 150)%Q ->
   ClassificationTransform.normalize_values factor_transform "Close" [100; 120]%Q
   = Ok ((fun v => (v - 50) / (150 - 50))%Q <$> [100; 120]%Q) ∧
   (∀ v w, (v <= w)%Q -> ((v - 50) / (150 - 50) <= (w - 50) / (150 - 50))%Q) ∧
   (∀ v, (0 <= (v - 50) / (150 - 50))%Q ∧ ((v - 50) / (150 - 50) <= 1)%Q
         <-> (50 <= v)%Q ∧ (v <= 150)%Q)) ∧
  ([100; 120]%Q ≠ [] -> (150 <= 50)%Q ->
   ClassificationTransform.normalize_values factor_transform "Close" [100; 120]%Q
   = Ok [100; 120]%Q).
Proof.
  destruct (X13_feature_normalisation factor_transform "Close" close_factors
              (<["min"%string := 50%Q]> {[ "max"%string := 150%Q ]})
              50 150 [] eq_refl eq_refl eq_refl eq_refl) as (H1 & _ & _).
  destruct (X13_feature_normalisation factor_transform "Close" close_factors
              (<["min"%string := 50%Q]> {[ "max"%string := 150%Q ]})
              50 150 [100; 120]%Q eq_refl eq_refl eq_refl eq_refl)
    as (_ & H2 & H3).
  exact (conj H1 (conj H2 H3)).
Defined.

(** X14.  A feature column without factor entry falls back to the extremes
    of the window itself: with factors given but none for the key, a column
    that is not constant is scaled by its own least value [mn] and largest
    value [mx], so every normalised value lies in [0, 1], [mn] becomes 0
    and [mx] becomes 1; a constant column is returned as it is. *)
Theorem X14_window_scaling (self : ClassificationTransform.t) (key : string)
    (fs : Factors) (values : list Q) :
  ClassificationTransform.factors self = Some fs ->
  fs !! key = None ->
  values ≠ [] ->
  ∃ mn mx out,
    is_min_of mn values ∧ is_max_of mx values ∧
    ClassificationTransform.normalize_values self key values = Ok out ∧
    ((mn < mx)%Q ->
     out = (fun v => (v - mn) / (mx - mn))%Q <$> values ∧
     Forall (fun o => (0 <= o)%Q ∧ (o <= 1)%Q) out ∧
     ((mn - mn) / (mx - mn) == 0)%Q ∧ ((mx - mn) / (mx - mn) == 1)%Q) ∧
    (¬ (mn < mx)%Q -> out = values ∧ ∀ v, v ∈ values -> (v == mn)%Q).
Proof.
  intros Hfs Hf Hne. destruct values as [|x xs]; [congruence|].
  pose proof (fold_min_spec xs x) as Hmin.
  pose proof (fold_max_spec xs x) as Hmax.
  set (mn := fold_left Py.min xs x) in *.
  set (mx := fold_left Py.max xs x) in *.
  unfold ClassificationTransform.normalize_values. rewrite Hfs, Hf.
  simpl default. rewrite min_of_cons, bind_ok, max_of_cons, bind_ok.
  rewrite !lookup_empty. simpl default. fold mn mx. unfold Qgt_bool.
  destruct (Qlt_bool_reflect mn mx) as [Hlt | Hge].
  - exists mn, mx, ((fun v => (v - mn) / (mx - mn))%Q <$> (x :: xs)).
    split; [exact Hmin|]. split; [exact Hmax|].
    split; [apply mapM_truediv; lra|]. split; [|intros; contradiction].
    intros _. split; [reflexivity|].
    assert (Hd : (0 < mx - mn)%Q) by lra.
    assert (Hdiv : ∀ a, (a / (mx - mn) * (mx - mn) == a)%Q)
      by (intros a; field; lra).
    split; [|split; field; lra].
    apply Forall_fmap, Forall_forall. intros v Hv. simpl.
    destruct Hmin as [_ Hmin]. destruct Hmax as [_ Hmax].
    specialize (Hmin v Hv). specialize (Hmax v Hv). split.
    + apply (Qmult_le_r _ _ (mx - mn)%Q Hd). rewrite Hdiv. lra.
    + apply (Qmult_le_r _ _ (mx - mn)%Q Hd). rewrite Hdiv. lra.
  - exists mn, mx, (x :: xs).
    split; [exact Hmin|]. split; [exact Hmax|]. split; [reflexivity|].
    split; [intros; contradiction|]. intros _. split; [reflexivity|].
    intros v Hv. destruct Hmin as [_ Hmin]. destruct Hmax as [_ Hmax].
    specialize (Hmin v Hv). specialize (Hmax v Hv). lra.
Qed.

Lemma X14_window_scaling_witness :
  ∃ mn mx out,
    is_min_of mn [100; 120; 110]%Q ∧ is_max_of mx [100; 120; 110]%Q ∧
    ClassificationTransform.normalize_values factor_transform "Open"
      [100; 120; 110]%Q = Ok out ∧
    ((mn < mx)%Q ->
     out = (fun v => (v - mn) / (mx - mn))%Q <$> [100; 120; 110]%Q ∧
     Forall (fun o => (0 <= o)%Q ∧ (o <= 1)%Q) out ∧
     ((mn - mn) / (mx - mn) == 0)%Q ∧ ((mx - mn) / (mx - mn) == 1)%Q) ∧
    (¬ (mn < mx)%Q ->
     out = [100; 120; 110]%Q ∧ ∀ v, v ∈ [100; 120; 110]%Q -> (v == mn)%Q).
Proof.
  refine (X14_window_scaling factor_transform "Open" close_factors
            [100; 120; 110]%Q eq_refl _ _).
  - apply lookup_singleton_ne. discriminate.
  - discriminate.
Defined.

(** ** The class distribution and the confusion matrix of the steps *)

Lemma mapM_Ok {A B} (f : A -> result B) (g : A -> B) (l : list A) :
  (∀ x, x ∈ l -> f x = Ok (g x)) -> mapM f l = Ok (g <$> l).
Proof.
  induction l as [|x l IH]; intros H; [reflexivity|].
  cbn [mapM]. rewrite (H x ltac:(left)), bind_ok.
  rewrite IH by (intros y Hy; apply H; right; exact Hy).
  reflexivity.
Qed.

Lemma Zsum_add {A} (f g : A -> Z) (l : list A) :
  BaseModuleSteps.Zsum ((fun c => f c + g c) <$> l)
  = BaseModuleSteps.Zsum (f <$> l) + BaseModuleSteps.Zsum (g <$> l).
Proof.
  induction l as [|x l IH]; [reflexivity|].
  cbn [fmap list_fmap BaseModuleSteps.Zsum fold_right] in *.
  unfold BaseModuleSteps.Zsum in IH. rewrite IH. ring.
Qed.

Lemma Zsum_ext {A} (f g : A -> Z) (l : list A) :
  (∀ x, x ∈ l -> f x = g x) ->
  BaseModuleSteps.Zsum (f <$> l) = BaseModuleSteps.Zsum (g <$> l).
Proof.
  intros H. f_equal. apply list_fmap_ext. intros i x Hx.
  apply H. eapply list_elem_of_lookup_2, Hx.
Qed.

Lemma Zsum_zero {A} (l : list A) :
  BaseModuleSteps.Zsum ((fun _ => 0) <$> l) = 0.
Proof. induction l as [|x l IH]; [reflexivity | exact IH]. Qed.

(** Exactly one position of a range holds a given number of the range. *)
Lemma Zsum_indicator (x : Z) (n : nat) (s : Z) :
  BaseModuleSteps.Zsum
    ((fun c => if decide (x = c) then 1 else 0) <$> Py.range_items n s 1)
  = if decide (s <= x < s + Z.of_nat n) then 1 else 0.
Proof.
  revert s. induction n as [|n IH]; intros s.
  - simpl. destruct (decide _); [lia | reflexivity].
  - cbn [Py.range_items fmap list_fmap BaseModuleSteps.Zsum fold_right].
    specialize (IH (s + 1)). unfold BaseModuleSteps.Zsum in IH.
    cbn [fmap] in IH. rewrite IH.
    repeat destruct (decide _); lia.
Qed.

Lemma range_to_items (n : Z) :
  Py.range_to n = Py.range_items (Z.to_nat n) 0 1.
Proof.
  unfold Py.range_to. f_equal.
  pose proof (range_to_length n) as H.
  unfold Py.range_to, Py.len in H. rewrite range_items_length in H. lia.
Qed.

Lemma range_to_lookup_inv (n : Z) (i : nat) (x : Z) :
  Py.range_to n !! i = Some x -> x = Z.of_nat i ∧ 0 <= x < n.
Proof.
  intros H. pose proof (lookup_lt_Some _ _ _ H) as Hi.
  pose proof (range_to_length n) as Hl. unfold Py.len in Hl.
  rewrite <- (Nat2Z.id i), range_to_lookup in H by lia.
  injection H as <-. lia.
Qed.

Lemma Zsum_indicator_range (x n : Z) :
  BaseModuleSteps.Zsum
    ((fun c => if decide (x = c) then 1 else 0) <$> Py.range_to n)
  = if decide (0 <= x < n) then 1 else 0.
Proof.
  rewrite range_to_items, Zsum_indicator.
  repeat destruct (decide _); lia.
Qed.

Lemma count_cons (c x : Z) (l : list Z) :
  BaseModuleSteps.count c (x :: l)
  = (if decide (x = c) then 1 else 0) + BaseModuleSteps.count c l.
Proof.
  unfold BaseModuleSteps.count. rewrite filter_cons.
  destruct (decide (x = c)); simpl; lia.
Qed.

(** The counts of a range of classes that holds every label sum to the
    number of labels. *)
Lemma sum_counts (n : Z) (l : list Z) :
  Forall (fun x => 0 <= x < n) l ->
  BaseModuleSteps.Zsum ((fun c => BaseModuleSteps.count c l) <$> Py.range_to n)
  = Py.len l.
Proof.
  induction 1 as [|x l Hx _ IH].
  - apply Zsum_zero.
  - rewrite (Zsum_ext _ (fun c => (if decide (x = c) then 1 else 0)
                                  + BaseModuleSteps.count c l))
      by (intros c _; apply count_cons).
    rewrite Zsum_add, Zsum_indicator_range, IH.
    destruct (decide _); [|lia]. unfold Py.len. simpl length. lia.
Qed.

Lemma masked_class_range (threshold x : Q) :
  0 <= masked_class threshold x <= 2.
Proof.
  unfold masked_class.
  destruct (Qgt_bool x threshold);
    destruct (Qge_bool x (- threshold) && Qle_bool x threshold);
    destruct (Qlt_bool x (- threshold)); lia.
Qed.

Lemma index_ok {A} (l : list A) (i : Z) (x : A) :
  0 <= i -> l !! Z.to_nat i = Some x -> Py.index l i = Ok x.
Proof.
  intros Hi Hx. pose proof (lookup_lt_Some _ _ _ Hx) as Hlt.
  destruct (index_position l i) as (x' & Hidx & Hx');
    [unfold Py.len; lia|].
  rewrite Hx in Hx'. injection Hx' as <-. exact Hidx.
Qed.

Lemma count_three (l : list Z) :
  Forall (fun x => 0 <= x <= 2) l ->
  BaseModuleSteps.count 0 l + BaseModuleSteps.count 1 l + BaseModuleSteps.count 2 l
  = Py.len l.
Proof.
  induction 1 as [|x l Hx _ IH]; [reflexivity|].
  rewrite !count_cons. unfold Py.len in *. simpl length.
  repeat destruct (decide _); lia.
Qed.

Lemma count_nonneg (c : Z) (l : list Z) : 0 <= BaseModuleSteps.count c l <= Py.len l.
Proof.
  unfold BaseModuleSteps.count, Py.len.
  pose proof (length_filter (fun x => x = c) l). lia.
Qed.

(** X15.  The class distribution of [validation_step].  For a batch of at
    least one return and [num_classes >= 3], the three logged ratios are
    the shares of the labels 0, 1 and 2 among the labels of the batch:
    each lies in [0, 1] and they sum to 1, whatever [num_classes] is,
    because a label is always 0, 1 or 2. *)
Theorem X15_class_ratios (self : BaseModule.t) (returns : Torch.tensor Q)
    (num_classes n : Z) :
  let labels := Torch.storage (BaseModule.create_class_labels self returns) in
  Torch.shape returns = [n] ->
  Torch.storage returns ≠ [] ->
  3 <= num_classes ->
  ∃ r0 r1 r2,
    BaseModuleSteps.class_ratios num_classes
      (BaseModule.create_class_labels self returns) = Ok (r0, r1, r2) ∧
    r0 = (inject_Z (BaseModuleSteps.count 0 labels) / inject_Z (Py.len labels))%Q ∧
    r1 = (inject_Z (BaseModuleSteps.count 1 labels) / inject_Z (Py.len labels))%Q ∧
    r2 = (inject_Z (BaseModuleSteps.count 2 labels) / inject_Z (Py.len labels))%Q ∧
    (0 <= r0)%Q ∧ (0 <= r1)%Q ∧ (0 <= r2)%Q ∧ (r0 + r1 + r2 == 1)%Q.
Proof.
  intros labels Hshape Hne Hnc.
  assert (Hlabels : BaseModule.create_class_labels self returns
                    = Torch.Tensor [n] labels).
  { unfold labels. rewrite module_tensor_storage. unfold Torch.map.
    rewrite Hshape. reflexivity. }
  assert (Hrange : Forall (fun x => 0 <= x <= 2) labels).
  { unfold labels. rewrite module_tensor_storage. unfold Torch.map. simpl.
    apply Forall_forall. intros x Hx. apply list_elem_of_In, in_map_iff in Hx.
    destruct Hx as (q & <- & _). apply masked_class_range. }
  assert (Hlen : 0 < Py.len labels).
  { unfold labels. rewrite module_tensor_storage. unfold Torch.map, Py.len.
    simpl. rewrite length_map. destruct (Torch.storage returns); [congruence|].
    simpl. lia. }
  assert (Hnonneg : forallb (fun l => 0 <=? l) labels = true).
  { apply forallb_forall. intros x Hx. apply list_elem_of_In in Hx.
    rewrite Forall_forall in Hrange. specialize (Hrange x Hx). lia. }
  assert (Hmax : fold_right Z.max (-1) labels + 1 <= 3).
  { clear -Hrange. induction Hrange as [|x l Hx _ IH]; simpl; lia. }
  set (T := inject_Z (Py.len labels)).
  assert (HT : (0 < T)%Q).
  { unfold T. rewrite <- (Zlt_Qlt 0). exact Hlen. }
  set (counts := (fun c => BaseModuleSteps.count c labels)
                   <$> Py.range_to num_classes).
  assert (Hbin : BaseModuleSteps.bincount (Torch.Tensor [n] labels) num_classes
                 = Ok (Torch.of_list counts)).
  { unfold BaseModuleSteps.bincount. cbn [Torch.shape Torch.storage].
    rewrite Hnonneg, Z.max_l by lia. reflexivity. }
  assert (Hsum : BaseModuleSteps.Zsum counts = Py.len labels).
  { apply sum_counts. eapply Forall_impl; [exact Hrange|]. simpl. intros; lia. }
  assert (Hat : ∀ k, 0 <= k <= 2 ->
            Py.index ((fun c => (inject_Z c / T)%Q) <$> counts) k
            = Ok (inject_Z (BaseModuleSteps.count k labels) / T)%Q).
  { intros k Hk. apply index_ok; [lia|]. unfold counts.
    rewrite !list_lookup_fmap, range_to_lookup by lia. reflexivity. }
  eexists _, _, _. split.
  { unfold BaseModuleSteps.class_ratios. rewrite Hlabels, Hbin, bind_ok.
    cbn [Torch.of_list Torch.storage]. rewrite Hsum. fold T.
    rewrite (mapM_Ok _ (fun c => (inject_Z c / T)%Q))
      by (intros c _; apply truediv_nonzero; lra).
    rewrite bind_ok, !Hat, !bind_ok by lia. reflexivity. }
  split; [reflexivity|]. split; [reflexivity|]. split; [reflexivity|].
  assert (Hc : ∀ k, (0 <= inject_Z (BaseModuleSteps.count k labels) / T)%Q).
  { intros k. apply Qle_shift_div_l; [exact HT|]. rewrite Qmult_0_l.
    rewrite <- (Zle_Qle 0). apply count_nonneg. }
  split; [apply Hc|]. split; [apply Hc|]. split; [apply Hc|].
  pose proof (count_three labels Hrange) as H3.
  assert (H3q : (inject_Z (BaseModuleSteps.count 0 labels)
                 + inject_Z (BaseModuleSteps.count 1 labels)
                 + inject_Z (BaseModuleSteps.count 2 labels) == T)%Q).
  { unfold T. rewrite <- H3, !inject_Z_plus. reflexivity. }
  setoid_replace (inject_Z (BaseModuleSteps.count 0 labels) / T
                  + inject_Z (BaseModuleSteps.count 1 labels) / T
                  + inject_Z (BaseModuleSteps.count 2 labels) / T)%Q
    with ((inject_Z (BaseModuleSteps.count 0 labels)
           + inject_Z (BaseModuleSteps.count 1 labels)
           + inject_Z (BaseModuleSteps.count 2 labels)) / T)%Q
    using relation Qeq by (field; lra).
  rewrite H3q. field. lra.
Qed.

Lemma X15_class_ratios_witness :
  ∃ r0 r1 r2,
    BaseModuleSteps.class_ratios 3
      (BaseModule.create_class_labels module_1e3
         (Torch.of_list [1 # 100; 0; - (1 # 100); 2 # 100]%Q))
    = Ok (r0, r1, r2) ∧
    (0 <= r0)%Q ∧ (0 <= r1)%Q ∧ (0 <= r2)%Q ∧ (r0 + r1 + r2 == 1)%Q.
Proof.
  destruct (X15_class_ratios module_1e3
              (Torch.of_list [1 # 100; 0; - (1 # 100); 2 # 100]%Q) 3 4)
    as (r0 & r1 & r2 & H & _ & _ & _ & H0 & H1 & H2 & Hs).
  - reflexivity.
  - discriminate.
  - lia.
  - exists r0, r1, r2. auto.
Defined.

Lemma pair_count_snoc (t p t' p' : Z) (pairs : list (Z * Z)) :
  pair_count t p (pairs ++ [(t', p')])
  = pair_count t p pairs + (if decide ((t', p') = (t, p)) then 1 else 0).
Proof.
  unfold pair_count. rewrite filter_app, length_app, filter_cons.
  destruct (decide ((t', p') = (t, p))); simpl; lia.
Qed.

Lemma pair_count_cons (t p : Z) (x : Z * Z) (pairs : list (Z * Z)) :
  pair_count t p (x :: pairs)
  = (if decide (x = (t, p)) then 1 else 0) + pair_count t p pairs.
Proof.
  unfold pair_count. rewrite filter_cons.
  destruct (decide (x = (t, p))); simpl; lia.
Qed.

Lemma target_count_cons (t : Z) (x : Z * Z) (pairs : list (Z * Z)) :
  target_count t (x :: pairs)
  = (if decide (x.1 = t) then 1 else 0) + target_count t pairs.
Proof.
  unfold target_count. rewrite filter_cons.
  destruct (decide (x.1 = t)); simpl; lia.
Qed.

Lemma pair_count_bounds (t p : Z) (pairs : list (Z * Z)) :
  0 <= pair_count t p pairs <= target_count t pairs.
Proof.
  induction pairs as [|[t' p'] pairs IH]; [unfold pair_count, target_count; simpl; lia|].
  rewrite pair_count_cons, target_count_cons. simpl.
  destruct (decide ((t', p') = (t, p))) as [E | E];
    destruct (decide (t' = t)) as [E' | E']; try lia.
  injection E as -> ->. congruence.
Qed.

(** The sum of a row of the matrix is the number of pairs with the target
    of the row, when every prediction is a column of the matrix. *)
Lemma row_sum (n t : Z) (pairs : list (Z * Z)) :
  Forall (fun tp : Z * Z => 0 <= tp.2 < n) pairs ->
  BaseModuleSteps.Zsum ((fun p => pair_count t p pairs) <$> Py.range_to n)
  = target_count t pairs.
Proof.
  induction 1 as [|[t' p'] pairs Hp _ IH].
  - apply Zsum_zero.
  - rewrite (Zsum_ext _ (fun p => (if decide (t' = t)
                                   then (if decide (p' = p) then 1 else 0)
                                   else 0)
                                  + pair_count t p pairs)).
    + rewrite Zsum_add, IH, target_count_cons. simpl in *. f_equal.
      destruct (decide (t' = t)).
      * rewrite Zsum_indicator_range. destruct (decide _); lia.
      * apply Zsum_zero.
    + intros p _. rewrite pair_count_cons. f_equal.
      destruct (decide ((t', p') = (t, p))) as [E | E].
      * injection E as -> ->. rewrite !decide_True by reflexivity. reflexivity.
      * destruct (decide (t' = t)) as [-> |]; [|reflexivity].
        destruct (decide (p' = p)) as [-> |]; [congruence | reflexivity].
Qed.

Lemma count_matrix_length (n : Z) (pairs : list (Z * Z)) :
  Py.len (count_matrix n pairs) = Z.max 0 n.
Proof.
  unfold count_matrix, Py.len. rewrite length_fmap. apply range_to_length.
Qed.

Lemma count_matrix_row (n t : Z) (pairs : list (Z * Z)) :
  0 <= t < n ->
  count_matrix n pairs !! Z.to_nat t
  = Some ((fun p => pair_count t p pairs) <$> Py.range_to n).
Proof.
  intros Ht. unfold count_matrix.
  rewrite list_lookup_fmap, range_to_lookup by lia. reflexivity.
Qed.

Lemma count_matrix_nil (n : Z) :
  count_matrix n []
  = replicate (Z.to_nat n) (replicate (Z.to_nat n) 0).
Proof.
  pose proof (range_to_length n) as Hl. unfold Py.len in Hl.
  assert (Hn : length (Py.range_to n) = Z.to_nat n) by lia.
  unfold count_matrix.
  rewrite (const_fmap _ _ (replicate (Z.to_nat n) 0)); [rewrite Hn; reflexivity|].
  intros i t _. rewrite (const_fmap _ _ 0); [rewrite Hn; reflexivity|].
  reflexivity.
Qed.

Lemma setitem_ok {A} (l : list A) (i : Z) (v : A) :
  0 <= i < Py.len l ->
  BaseModuleSteps.setitem l i v = Ok (<[Z.to_nat i := v]> l).
Proof.
  intros Hi. unfold BaseModuleSteps.setitem.
  destruct (Z.ltb_spec i 0); [lia|]. cbv zeta.
  destruct (Z.ltb_spec i 0); [lia|].
  destruct (Z.leb_spec (Py.len l) i); [lia|]. reflexivity.
Qed.

(** One more pair: the entry of the pair grows by one. *)
Lemma count_matrix_snoc (n t p : Z) (pairs : list (Z * Z)) :
  0 <= t < n -> 0 <= p < n ->
  <[Z.to_nat t :=
      <[Z.to_nat p := pair_count t p pairs + 1]>
        ((fun p => pair_count t p pairs) <$> Py.range_to n)]>
    (count_matrix n pairs)
  = count_matrix n (pairs ++ [(t, p)]).
Proof.
  intros Ht Hp.
  pose proof (range_to_length n) as Hl. unfold Py.len in Hl.
  apply list_eq. intros i.
  destruct (decide (i = Z.to_nat t)) as [-> | Hi].
  - rewrite list_lookup_insert_eq
      by (unfold count_matrix; rewrite length_fmap; lia).
    rewrite count_matrix_row by lia. f_equal.
    apply list_eq. intros j.
    destruct (decide (j = Z.to_nat p)) as [-> | Hj].
    + rewrite list_lookup_insert_eq by (rewrite length_fmap; lia).
      rewrite list_lookup_fmap, range_to_lookup by lia. simpl.
      rewrite pair_count_snoc, decide_True by reflexivity. reflexivity.
    + rewrite list_lookup_insert_ne by congruence.
      rewrite !list_lookup_fmap.
      destruct (Py.range_to n !! j) as [p'|] eqn:E; [|reflexivity].
      apply range_to_lookup_inv in E as [-> _]. simpl.
      rewrite pair_count_snoc, decide_False; [f_equal; lia|].
      intros H. injection H as H. lia.
  - rewrite list_lookup_insert_ne by congruence.
    unfold count_matrix. rewrite !list_lookup_fmap.
    destruct (Py.range_to n !! i) as [t'|] eqn:E; [|reflexivity].
    apply range_to_lookup_inv in E as [-> _]. simpl. f_equal.
    apply list_fmap_ext. intros j p' _.
    rewrite pair_count_snoc, decide_False; [lia|].
    intros H. injection H as H _. lia.
Qed.

Lemma confusion_step_spec (n t p : Z) (pairs : list (Z * Z)) :
  0 <= t < n -> 0 <= p < n ->
  BaseModuleSteps.confusion_step (count_matrix n pairs) (t, p)
  = Ok (count_matrix n (pairs ++ [(t, p)])).
Proof.
  intros Ht Hp.
  pose proof (range_to_length n) as Hl. unfold Py.len in Hl.
  unfold BaseModuleSteps.confusion_step. cbn [fst snd].
  rewrite (index_ok _ t _ ltac:(lia) (count_matrix_row n t pairs Ht)), bind_ok.
  rewrite (index_ok _ p (pair_count t p pairs)), bind_ok; [|lia|].
  2:{ rewrite list_lookup_fmap, range_to_lookup by lia. reflexivity. }
  rewrite setitem_ok, bind_ok by (unfold Py.len; rewrite length_fmap; lia).
  rewrite setitem_ok by (rewrite count_matrix_length; lia).
  rewrite count_matrix_snoc by assumption. reflexivity.
Qed.

Lemma confusion_loop (n : Z) (pairs done : list (Z * Z)) :
  Forall (fun tp : Z * Z => 0 <= tp.1 < n ∧ 0 <= tp.2 < n) pairs ->
  for_each BaseModuleSteps.confusion_step pairs (count_matrix n done)
  = Ok (count_matrix n (done ++ pairs)).
Proof.
  intros H. revert done. induction H as [|[t p] pairs [Ht Hp] _ IH]; intros done.
  - rewrite app_nil_r. reflexivity.
  - rewrite for_each_cons, confusion_step_spec, bind_ok by assumption.
    rewrite IH, <- app_assoc. reflexivity.
Qed.

Lemma Forall_zip_bounds (n : Z) (targets predictions : list Z) :
  Forall (fun t => 0 <= t < n) targets ->
  Forall (fun p => 0 <= p < n) predictions ->
  Forall (fun tp : Z * Z => 0 <= tp.1 < n ∧ 0 <= tp.2 < n)
         (zip targets predictions).
Proof.
  intros Ht. revert predictions.
  induction Ht as [|t targets Ht _ IH]; intros predictions Hp; [constructor|].
  destruct Hp as [|p predictions Hp Hps]; [constructor|].
  simpl. constructor; [split; assumption | apply IH, Hps].
Qed.

(** X16.  The confusion matrix and the per-class accuracies of
    [test_step].  When every target and every prediction is a class below
    [num_classes], the loop raises nothing and leaves in entry [(t, p)] the
    number of positions with target [t] and prediction [p] (positions
    beyond the shorter of the two sequences are ignored).  The accuracy
    logged for a class [k] is then the share of the positions with target
    [k] that were predicted as [k]; it lies in [0, 1], and it is 0, with no
    division, when the batch has no target [k]. *)
Theorem X16_confusion_accuracy (num_classes : Z) (targets predictions : list Z) :
  let pairs := zip targets predictions in
  0 <= num_classes ->
  Forall (fun t => 0 <= t < num_classes) targets ->
  Forall (fun p => 0 <= p < num_classes) predictions ->
  BaseModuleSteps.confusion_matrix num_classes targets predictions
  = Ok (count_matrix num_classes pairs) ∧
  ∀ k, 0 <= k < num_classes ->
    ∃ a, BaseModuleSteps.class_accuracy (count_matrix num_classes pairs) k = Ok a ∧
         (0 <= a)%Q ∧ (a <= 1)%Q ∧
         (target_count k pairs = 0 -> a = 0%Q) ∧
         (0 < target_count k pairs ->
          a = (inject_Z (pair_count k k pairs)
               / inject_Z (target_count k pairs))%Q).
Proof.
  intros pairs Hn Ht Hp.
  pose proof (Forall_zip_bounds _ _ _ Ht Hp) as Hpairs. fold pairs in Hpairs.
  split.
  - unfold BaseModuleSteps.confusion_matrix.
    destruct (Z.ltb_spec num_classes 0) as [Hneg | Hpos]; [lia|].
    rewrite <- count_matrix_nil. fold pairs.
    apply (confusion_loop num_classes pairs [] Hpairs).
  - intros k Hk.
    assert (Hrow : Py.index (count_matrix num_classes pairs) k
                   = Ok ((fun p => pair_count k p pairs)
                           <$> Py.range_to num_classes)).
    { apply index_ok; [lia|]. apply count_matrix_row, Hk. }
    assert (Hsum : BaseModuleSteps.Zsum
                     ((fun p => pair_count k p pairs) <$> Py.range_to num_classes)
                   = target_count k pairs).
    { apply row_sum. eapply Forall_impl; [exact Hpairs|]. simpl. tauto. }
    assert (Hcell : Py.index ((fun p => pair_count k p pairs)
                                <$> Py.range_to num_classes) k
                    = Ok (pair_count k k pairs)).
    { apply index_ok; [lia|].
      rewrite list_lookup_fmap, range_to_lookup by lia. reflexivity. }
    pose proof (pair_count_bounds k k pairs) as Hb.
    unfold BaseModuleSteps.class_accuracy. rewrite Hrow, !bind_ok, Hsum.
    destruct (Z.ltb_spec 0 (target_count k pairs)) as [Hpos | Hzero].
    + rewrite Hcell, !bind_ok, Hsum.
      assert (HT : (0 < inject_Z (target_count k pairs))%Q)
        by (rewrite <- (Zlt_Qlt 0); exact Hpos).
      rewrite truediv_nonzero by lra.
      eexists. split; [reflexivity|].
      split.
      { apply Qle_shift_div_l; [exact HT|]. rewrite Qmult_0_l.
        rewrite <- (Zle_Qle 0). lia. }
      split.
      { apply Qle_shift_div_r; [exact HT|]. rewrite Qmult_1_l.
        rewrite <- Zle_Qle. lia. }
      split; [lia | reflexivity].
    + exists 0%Q. split; [reflexivity|].
      split; [lra|]. split; [lra|]. split; [reflexivity | lia].
Qed.

Lemma X16_confusion_accuracy_witness :
  BaseModuleSteps.confusion_matrix 3 four_targets four_predictions
  = Ok (count_matrix 3 (zip four_targets four_predictions)) ∧
  ∀ k, 0 <= k < 3 ->
    ∃ a, BaseModuleSteps.class_accuracy
           (count_matrix 3 (zip four_targets four_predictions)) k = Ok a ∧
         (0 <= a)%Q ∧ (a <= 1)%Q ∧
         (target_count k (zip four_targets four_predictions) = 0 -> a = 0%Q) ∧
         (0 < target_count k (zip four_targets four_predictions) ->
          a = (inject_Z (pair_count k k (zip four_targets four_predictions))
               / inject_Z (target_count k (zip four_targets four_predictions)))%Q).
Proof.
  apply (X16_confusion_accuracy 3 four_targets four_predictions);
    [lia | repeat constructor; lia ..].
Defined.

(** ** The returns of a batch without [returns] *)

Lemma div_storage (a b : list Q) :
  Forall (fun x => ¬ (x == 0)%Q) b ->
  mapM (fun p : Q * Q => Py.truediv p.1 p.2) (zip a b)
  = Ok ((fun p : Q * Q => (p.1 / p.2)%Q) <$> zip a b).
Proof.
  intros Hb. apply mapM_Ok. intros [x y] Hxy. simpl.
  apply truediv_nonzero. rewrite Forall_forall in Hb. apply Hb.
  apply elem_of_zip_r in Hxy. exact Hxy.
Qed.

(** X17.  The fallback of the three steps when the batch has no
    [returns].  If the coefficients of the module were set from factors
    [min < max] and the batch holds the targets and the previous targets
    normalised with the same factors, then, provided no previous price is
    zero, the returns the module computes are the returns of the prices
    themselves, [(v - v_old) / v_old]: the module denormalises before it
    divides. *)
Theorem X17_fallback_returns (bm self : BaseModule.t) (fs : Factors)
    (f : gmap string Q) (mn mx : Q) (batch : BaseModuleSteps.Batch)
    (x : Torch.tensor Q) (v v_old : list Q) (n : Z) :
  let norm := fun p : Q => ((p - mn) / (mx - mn))%Q in
  fs !! BaseModule.y_key bm = Some f ->
  f !! "min"%string = Some mn ->
  f !! "max"%string = Some mx ->
  (mn < mx)%Q ->
  BaseModule.set_normalization_coeffs bm fs = Ok self ->
  batch !! "features"%string = Some x ->
  batch !! "returns"%string = None ->
  batch !! BaseModule.y_key self = Some (Torch.Tensor [n] (norm <$> v)) ->
  batch !! (BaseModule.y_key self +:+ "_old")
  = Some (Torch.Tensor [n] (norm <$> v_old)) ->
  Forall (fun p => ¬ (p == 0)%Q) v_old ->
  ∃ r,
    BaseModuleSteps.classification_returns self batch = Ok (Torch.Tensor [n] r) ∧
    Forall2 (fun ri (p : Q * Q) => (ri == (p.1 - p.2) / p.2)%Q) r (zip v v_old).
Proof.
  intros norm Hf Hmn Hmx Hlt Hset Hx Hret Hy Hyold Hnz.
  assert (Hself : self = BaseModule.Make (BaseModule.y_key bm)
                           (BaseModule.threshold bm) (Some ((mx - mn)%Q, mn))).
  { unfold BaseModule.set_normalization_coeffs in Hset.
    rewrite Hf in Hset. simpl in Hset. rewrite Hmx, Hmn in Hset.
    injection Hset as <-. reflexivity. }
  set (den := fun p : Q => (p * (mx - mn) + mn)%Q).
  assert (Hround : ∀ p, (den (norm p) == p)%Q).
  { intros p. unfold den, norm. field. lra. }
  assert (Hden : ∀ l, BaseModule.denormalize self (Torch.Tensor [n] l) None
                      = BaseModule.One (Torch.Tensor [n] (den <$> l))).
  { intros l. rewrite Hself. reflexivity. }
  assert (Hnz' : Forall (fun p => ¬ (p == 0)%Q) (den <$> (norm <$> v_old))).
  { apply Forall_fmap, Forall_fmap. eapply Forall_impl; [exact Hnz|].
    simpl. intros p Hp. rewrite Hround. exact Hp. }
  eexists. split.
  - unfold BaseModuleSteps.classification_returns, dict_getitem.
    rewrite Hx, bind_ok, Hy, bind_ok, Hret, Hyold, !Hden.
    unfold Torch.div, Torch.sub, Torch.zip_with.
    cbn [Torch.shape Torch.storage].
    rewrite (div_storage _ _ Hnz'), bind_ok. reflexivity.
  - clear -Hround. revert v_old.
    induction v as [|a v IH]; intros [|b v_old]; try constructor.
    + simpl. rewrite !Hround. reflexivity.
    + apply IH.
Qed.

Lemma X17_fallback_returns_witness :
  ∃ self r,
    BaseModule.set_normalization_coeffs module_1e3 close_factors = Ok self ∧
    BaseModuleSteps.classification_returns self two_prices_batch
    = Ok (Torch.Tensor [2] r) ∧
    Forall2 (fun ri (p : Q * Q) => (ri == (p.1 - p.2) / p.2)%Q) r
            (zip [120; 90]%Q [100; 100]%Q).
Proof.
  exists (BaseModule.Make "Close" (1 # 1000) (Some ((150 - 50)%Q, 50%Q))).
  destruct (X17_fallback_returns module_1e3
              (BaseModule.Make "Close" (1 # 1000) (Some ((150 - 50)%Q, 50%Q)))
              close_factors
              (<["min"%string := 50%Q]> {[ "max"%string := 150%Q ]})
              50 150 two_prices_batch (Torch.scalar 0%Q)
              [120; 90]%Q [100; 100]%Q 2) as (r & Hr & Hall).
  - reflexivity.
  - reflexivity.
  - reflexivity.
  - reflexivity.
  - reflexivity.
  - unfold two_prices_batch. rewrite lookup_insert_eq. reflexivity.
  - unfold two_prices_batch.
    rewrite !lookup_insert_ne by discriminate. apply lookup_empty.
  - unfold two_prices_batch. rewrite lookup_insert_ne by discriminate.
    rewrite lookup_insert_eq. reflexivity.
  - unfold two_prices_batch. rewrite !lookup_insert_ne by discriminate.
    rewrite lookup_insert_eq. reflexivity.
  - repeat constructor; discriminate.
  - exists r. split; [reflexivity|]. split; assumption.
Defined.
